(** * DebateMaster BP: the analysis adapter and the screen state machine

    A shallow embedding of [src/App.tsx]: the simulated analyzer
    ([mockAnalyze]), the remote analyzer ([cloudAnalyze]), the adapter hook
    ([useAnalysisAdapter]) and the state that the [App] and [Practice]
    components keep, followed by the properties of the specification that
    concern them. *)

From Stdlib Require Import ZArith QArith Lia Bool List SpecFloat.
From Stdlib Require Import Ascii.
From Stdlib Require DecimalString DecimalN DecimalPos.
From stdpp Require Import base option strings gmap.

Local Open Scope Z_scope.

(** ** Numbers

    [mockAnalyze] multiplies the result of [Math.random()] by small integer
    constants and takes [Math.floor] of the product.  The product is a
    binary64 multiplication, so it is rounded; whether the rounded product
    can reach the multiplier decides the upper end of each score range.
    The model below keeps that rounding.

    A finite non-negative binary64 value is an integer multiple of
    [2^-1074]; it is represented by that integer. *)
Module F64.

(** [1.0] in units of [2^-1074]. *)
Definition one : Z := 2 ^ 1074.

(** The integer [k] as a double (exact for [0 <= k < 2^53]). *)
Definition of_int (k : Z) : Z := k * one.

(** Round-to-nearest, ties-to-even, of the exact value [n] (in units of
    [2^-1074]) to 53 significant bits.  Values below [2^53] units are
    subnormal or in the first binades and are exact. *)
Definition round53 (n : Z) : Z :=
  if n <? 2 ^ 53 then n
  else
    let s := Z.log2 n - 52 in
    let q := n / 2 ^ s in
    let r := n mod 2 ^ s in
    let h := 2 ^ (s - 1) in
    if (r <? h) || ((r =? h) && Z.even q) then q * 2 ^ s
    else (q + 1) * 2 ^ s.

(** [x] is a double: rounding leaves it alone. *)
Definition representable (x : Z) : bool := (0 <=? x) && (round53 x =? x).

(** [x * c] for a double [x] and an integer constant [c]: the exact
    product, rounded. *)
Definition mul_int (x c : Z) : Z := round53 (x * c).

(** [c + x] for an integer constant [c]. *)
Definition add_int (c x : Z) : Z := round53 (of_int c + x).

(** [Math.floor(x)], as an integer. *)
Definition floor (x : Z) : Z := x / one.

(** [Math.round(x)]: the nearest integer, ties towards [+oo]. *)
Definition round (x : Z) : Z := (2 * x + one) / (2 * one).

(** [x.toFixed(2)]: the integer [n] with [n/100] nearest to [x], the
    larger one on a tie. *)
Definition toFixed2 (x : Z) : Z := (200 * x + one) / (2 * one).

(** A value [Math.random()] may return: a double in [[0, 1)]. *)
Definition is_random (x : Z) : bool := representable x && (x <? one).

(** The largest double below [1.0]. *)
Definition pred_one : Z := one - 2 ^ 1021.

(** The value in the Standard Library's model of IEEE 754 binary64, to
    compare this model's arithmetic with [SFmul] and [SFadd]. *)
Definition to_spec_float (x : Z) : spec_float :=
  binary_normalize 53 1024 x (-1074) false.

(** One third, rounded: a double with a full significand. *)
Definition third : Z := 6004799503160661 * 2 ^ 1020.

(** The number a double is, as a fraction in lowest terms. *)
Definition to_Q (x : Z) : Q := Qred (x # Z.to_pos one).

End F64.

(** Division and reading decimals (lines 41, 108-110 and 232).

    [value/max] and [seconds/60] are binary64 divisions: the exact
    quotient, rounded to the nearest double, ties to even.  The unary [+]
    of line 41 reads a decimal text the same way: the double nearest to
    the number the text denotes. *)
Module F64Div.

(** The exact quotient [n/d], counted in units of [2^-1074], rounded to a
    double ([0 <= n], [0 < d]).  With [s] as below the doubles around the
    quotient are the multiples of [2^s] units. *)
Definition round_quot (n d : Z) : Z :=
  let s := Z.max 0 (Z.log2 (n / d) - 52) in
  let g := d * 2 ^ s in
  let q := n / g in
  let r := n mod g in
  if (2 * r <? g) || ((2 * r =? g) && Z.even q) then q * 2 ^ s
  else (q + 1) * 2 ^ s.

(** [a / b] for doubles [a >= 0] and [b > 0], both in units of [2^-1074]. *)
Definition div (a b : Z) : Z := round_quot (a * F64.one) b.

(** [+s] for the text [s] of [n] hundredths that [toFixed(2)] produced
    ("0.13" for 13): the double nearest to [n/100]. *)
Definition of_hundredths (n : Z) : Z := round_quot (n * F64.one) 100.

End F64Div.

(** ** JavaScript values

    What [r.json()] resolves to, and what every analyzer returns at run
    time.  TypeScript's [AnalyzeResponse] is a compile-time view only:
    [data as AnalyzeResponse] checks nothing.  Finite numbers are
    rationals; an object is a finite map from property names to values, and
    a property may hold [undefined]. *)
#[warnings="-register-all"]
Inductive JSValue : Type :=
  | VUndefined
  | VNull
  | VBool (b : bool)
  | VNum (q : Q)
  | VStr (s : string)
  | VArr (l : list JSValue)
  | VObj (o : gmap string JSValue).

(** What can be thrown on the paths modelled here. *)
Inductive Error : Type :=
  | FetchRejected                  (* fetch(...) rejected: no response at all *)
  | CloudAnalyzeFailed (status : Z) (* new Error('Cloud analyze failed: ' + r.status) *)
  | JsonRejected                   (* r.json() rejected: the body is not JSON *)
  | TypeError.                     (* a property of null or undefined was touched *)

Module JS.

(** Truthiness, as [!v] and [v || d] test it. *)
Definition truthy (v : JSValue) : bool :=
  match v with
  | VUndefined | VNull => false
  | VBool b => b
  | VNum q => negb (Qeq_bool q 0)
  | VStr s => negb (String.eqb s "")
  | VArr _ | VObj _ => true
  end.

Definition is_undefined (v : JSValue) : bool :=
  match v with VUndefined => true | _ => false end.

(** [v.k] for the property names this program reads ([scores], [matter],
    [manner], [method], [total]): an own property of an object, a
    [TypeError] on [null] and [undefined], and [undefined] on everything
    else (no prototype of a primitive or of an array defines one of
    these names). *)
Definition get (v : JSValue) (k : string) : Error + JSValue :=
  match v with
  | VUndefined | VNull => inl TypeError
  | VObj o => inr (default VUndefined (o !! k))
  | VBool _ | VNum _ | VStr _ | VArr _ => inr VUndefined
  end.

(** [v.k = x], returning the updated [v].  The module is strict code, so
    the assignment throws on a primitive.  (The program only reaches the
    assignment with an object; an array is not given named properties.) *)
Definition set (v : JSValue) (k : string) (x : JSValue) : Error + JSValue :=
  match v with
  | VObj o => inr (VObj (<[k := x]> o))
  | _ => inl TypeError
  end.

(** [s || d] on an optional string: [undefined] and [''] are falsy. *)
Definition or_string (s : option string) (d : string) : string :=
  match s with
  | Some s' => if String.eqb s' "" then d else s'
  | None => d
  end.

(** [n || d] on a number. *)
Definition or_Z (n d : Z) : Z := if n =? 0 then d else n.

End JS.

(** ** The request and response types (lines 8-31) *)

Inductive BpSide : Type := OG | OO | CG | CO.

Module Req.
Record t : Type := mk {
  sessionId : string;
  motion : string;
  side : BpSide;
  durationSec : Q;
  gcsUri : option string;
  audioBlobUrl : option string;
  uid : option string
}.
End Req.
Abbreviation AnalyzeRequest := Req.t.

Inductive Status : Type := scored | failed | queued.
Inductive TimingStatus : Type := ok | undertime | overtime.

Module Scores.
Record t : Type := mk { matter : Q; manner : Q; method : Q; total : Q }.
End Scores.

Module Delivery.
Record t : Type := mk { wpm : Q; fillerPerMin : Q }.
End Delivery.

Module Timing.
Record t : Type := mk { status : TimingStatus; notes : option string }.
End Timing.

Module Justification.
Record t : Type := mk {
  matter : list string; manner : list string; method : list string
}.
End Justification.

Module Actionable.
Record t : Type := mk { title : string; why : string; how : string }.
End Actionable.

Module Drill.
Record t : Type := mk { name : string; instructions : string }.
End Drill.

Module Feedback.
Record t : Type := mk {
  justification : Justification.t;
  actionables : list Actionable.t;
  drills : list Drill.t
}.
End Feedback.

Module Resp.
Record t : Type := mk {
  status : Status;
  sessionId : string;
  transcript : string;
  scores : Scores.t;
  delivery : Delivery.t;
  timing : Timing.t;
  feedback : Feedback.t;
  rubricVersion : string
}.
End Resp.
Abbreviation AnalyzeResponse := Resp.t.

(** The object an [AnalyzeResponse] is at run time. *)
Module ToJS.

Definition obj (fields : list (string * JSValue)) : JSValue :=
  VObj (list_to_map fields).

Definition strings (l : list string) : JSValue := VArr (map VStr l).

Definition status (s : Status) : JSValue :=
  VStr match s with scored => "scored" | failed => "failed" | queued => "queued" end.

Definition timingStatus (s : TimingStatus) : JSValue :=
  VStr match s with ok => "ok" | undertime => "undertime" | overtime => "overtime" end.

Definition scores (s : Scores.t) : JSValue :=
  obj [("matter", VNum (Scores.matter s)); ("manner", VNum (Scores.manner s));
       ("method", VNum (Scores.method s)); ("total", VNum (Scores.total s))].

Definition delivery (d : Delivery.t) : JSValue :=
  obj [("wpm", VNum (Delivery.wpm d)); ("fillerPerMin", VNum (Delivery.fillerPerMin d))].

(** An absent optional property is left out of the object. *)
Definition timing (t : Timing.t) : JSValue :=
  obj (("status", timingStatus (Timing.status t))
       :: match Timing.notes t with Some n => [("notes", VStr n)] | None => [] end).

Definition justification (j : Justification.t) : JSValue :=
  obj [("matter", strings (Justification.matter j));
       ("manner", strings (Justification.manner j));
       ("method", strings (Justification.method j))].

Definition actionable (a : Actionable.t) : JSValue :=
  obj [("title", VStr (Actionable.title a)); ("why", VStr (Actionable.why a));
       ("how", VStr (Actionable.how a))].

Definition drill (d : Drill.t) : JSValue :=
  obj [("name", VStr (Drill.name d)); ("instructions", VStr (Drill.instructions d))].

Definition feedback (f : Feedback.t) : JSValue :=
  obj [("justification", justification (Feedback.justification f));
       ("actionables", VArr (map actionable (Feedback.actionables f)));
       ("drills", VArr (map drill (Feedback.drills f)))].

Definition response (r : AnalyzeResponse) : JSValue :=
  obj [("status", status (Resp.status r));
       ("sessionId", VStr (Resp.sessionId r));
       ("transcript", VStr (Resp.transcript r));
       ("scores", scores (Resp.scores r));
       ("delivery", delivery (Resp.delivery r));
       ("timing", timing (Resp.timing r));
       ("feedback", feedback (Resp.feedback r));
       ("rubricVersion", VStr (Resp.rubricVersion r))].

End ToJS.

(** A run-time value is a valid [AnalyzeResponse] when it is the object of
    one. *)
Definition valid_response (v : JSValue) : Prop :=
  exists r : AnalyzeResponse, v = ToJS.response r.

(** ** Effects

    An analyzer call may issue one request, wait, write to the console and
    throw.  A computation is the list of effects it performed, in order,
    with its outcome: a thrown error or a value. *)

Module Body.
(** The object handed to [JSON.stringify] at lines 73-80. *)
Record t : Type := mk {
  sessionId : string;
  motion : string;
  side : BpSide;
  durationSec : Q;
  gcsUri : string;
  uid : string
}.
End Body.

Inductive Effect : Type :=
  | Post (url : string) (body : Body.t)   (* fetch(url, {method: 'POST', ...}) *)
  | Timeout (ms : Z)                      (* setTimeout(r, ms), awaited *)
  | Warn (e : Error).                     (* console.warn(e) *)

Definition M (A : Type) : Type := list Effect * (Error + A).

Definition ret {A} (a : A) : M A := ([], inr a).

Definition throw {A} (e : Error) : M A := ([], inl e).

Definition perform (ef : Effect) : M unit := ([ef], inr tt).

Definition lift {A} (r : Error + A) : M A := ([], r).

Definition bind {A B} (m : M A) (k : A -> M B) : M B :=
  match m with
  | (tr, inl e) => (tr, inl e)
  | (tr, inr a) => let (tr', r) := k a in (tr ++ tr', r)
  end.

(** [try { m } catch (e) { h e }] *)
Definition try_catch {A} (m : M A) (h : Error -> M A) : M A :=
  match m with
  | (tr, inl e) => let (tr', r) := h e in (tr ++ tr', r)
  | (tr, inr a) => (tr, inr a)
  end.

(** stdpp's notations [x ← m; k] and [m;; k] for this monad. *)
#[global] Instance M_ret : MRet M := @ret.
#[global] Instance M_bind : MBind M := fun A B k m => bind m k.

Definition effects {A} (m : M A) : list Effect := fst m.
Definition outcome {A} (m : M A) : Error + A := snd m.

Definition is_post (ef : Effect) : bool :=
  match ef with Post _ _ => true | _ => false end.

(** The number of remote calls a computation issued. *)
Definition remote_calls {A} (m : M A) : nat := length (filter is_post (effects m)).

(** ** The simulated analyzer (lines 33-67) *)

(** The five results of [Math.random()], in the order of the calls. *)
Module Draws.
Record t : Type := mk { matter : Z; manner : Z; method : Z; wpm : Z; filler : Z }.

Definition valid (d : t) : bool :=
  F64.is_random (matter d) && F64.is_random (manner d) && F64.is_random (method d)
  && F64.is_random (wpm d) && F64.is_random (filler d).
End Draws.

Definition mockTranscript : string :=
  "Thank you, chair. Our bench advances two arguments on harm reduction and democratic accountability...".

Definition mockFeedback : Feedback.t :=
  {| Feedback.justification :=
       {| Justification.matter := ["Clear claim structure"; "Could deepen comparative weighing"];
          Justification.manner := ["Good clarity"; "Signposting can be sharper"];
          Justification.method := ["Role mostly fulfilled"; "Timing close to limit"] |};
     Feedback.actionables :=
       [ {| Actionable.title := "Sharper signposting"; Actionable.why := "Judge navigation";
            Actionable.how := "Label arguments & subpoints (A/B/C)" |};
         {| Actionable.title := "Frontload clash"; Actionable.why := "Directly engage opp";
            Actionable.how := "Open with strongest refutation then rebuild" |} ];
     Feedback.drills :=
       [ {| Drill.name := "60s signpost drill";
            Drill.instructions := "Open with roadmap; label arguments and subpoints clearly." |};
         {| Drill.name := "Rebuttal ladder";
            Drill.instructions := "Write 3 attacks escalating in strength on the same claim." |} ] |}.

(** Line 42. *)
Definition timingStatus (durationSec : Q) : TimingStatus :=
  if Qlt_le_dec durationSec 390 then undertime
  else if Qlt_le_dec 435 durationSec then overtime
  else ok.

(** The object literal of lines 43-66, from the constants of lines 35-42.
    Sums of small integers are exact in binary64, so they are taken in
    [Z].  [fillerPerMin] is [toFixed(2)]'s text read back as a number: a
    double, in general not the decimal the text shows. *)
Definition mockResponse (req : AnalyzeRequest) (rnd : Draws.t) : AnalyzeResponse :=
  let matter := 24 + F64.floor (F64.mul_int (Draws.matter rnd) 10) in
  let manner := 22 + F64.floor (F64.mul_int (Draws.manner rnd) 10) in
  let method := 12 + F64.floor (F64.mul_int (Draws.method rnd) 8) in
  let total := matter + manner + method in
  let wpm := F64.round (F64.add_int 120 (F64.mul_int (Draws.wpm rnd) 80)) in
  let fillerPerMin :=
    F64Div.of_hundredths (F64.toFixed2 (F64.mul_int (Draws.filler rnd) 2)) in
  {| Resp.status := scored;
     Resp.sessionId := Req.sessionId req;
     Resp.transcript := mockTranscript;
     Resp.scores :=
       {| Scores.matter := inject_Z matter; Scores.manner := inject_Z manner;
          Scores.method := inject_Z method; Scores.total := inject_Z total |};
     Resp.delivery :=
       {| Delivery.wpm := inject_Z wpm;
          Delivery.fillerPerMin := F64.to_Q fillerPerMin |};
     Resp.timing :=
       {| Timing.status := timingStatus (Req.durationSec req); Timing.notes := None |};
     Resp.feedback := mockFeedback;
     Resp.rubricVersion := "bp_v1.3" |}.

Definition mockAnalyze (req : AnalyzeRequest) (rnd : Draws.t) : M JSValue :=
  perform (Timeout 800);;
  ret (ToJS.response (mockResponse req rnd)).

(** ** The remote analyzer (lines 69-88) *)

Definition ANALYZE_URL : string := "https://n8n.artificialartz.xyz/webhook/analyze".

(** What the network does with the one request: [fetch] rejects, or it
    resolves to a response with a status and a body, which is JSON text
    ([Some] of the decoded value) or not. *)
Inductive FetchOutcome : Type :=
  | Rejected
  | Resolved (status : Z) (body : option JSValue).

(** [r.ok]: the status is in the range 200-299. *)
Definition response_ok (status : Z) : bool := (200 <=? status) && (status <=? 299).

Definition requestBody (req : AnalyzeRequest) : Body.t :=
  {| Body.sessionId := Req.sessionId req;
     Body.motion := Req.motion req;
     Body.side := Req.side req;
     Body.durationSec := Req.durationSec req;
     Body.gcsUri := JS.or_string (Req.gcsUri req) "";
     Body.uid := JS.or_string (Req.uid req) "demo-user" |}.

(** Lines 84-86: the shim for a body with top-level scores. *)
Definition normalize (data : JSValue) : M JSValue :=
  scores ← lift (JS.get data "scores");
  if JS.truthy scores then ret data
  else
    matter ← lift (JS.get data "matter");
    if JS.is_undefined matter then ret data
    else
      manner ← lift (JS.get data "manner");
      method ← lift (JS.get data "method");
      total ← lift (JS.get data "total");
      lift (JS.set data "scores"
              (ToJS.obj [("matter", matter); ("manner", manner);
                         ("method", method); ("total", total)])).

Definition cloudAnalyze (req : AnalyzeRequest) (net : FetchOutcome) : M JSValue :=
  perform (Post ANALYZE_URL (requestBody req));;
  match net with
  | Rejected => throw FetchRejected
  | Resolved status body =>
      if negb (response_ok status) then throw (CloudAnalyzeFailed status)
      else
        match body with
        | None => throw JsonRejected
        | Some data => normalize data
        end
  end.

(** ** The adapter (lines 90-102) *)

Inductive Mode : Type := mock | cloud.

Definition DEFAULT_MODE : Mode := cloud.

(** [analyze] of an adapter whose [mode] state is [mode]. *)
Definition analyze (mode : Mode) (req : AnalyzeRequest)
    (net : FetchOutcome) (rnd : Draws.t) : M JSValue :=
  try_catch
    (match mode with
     | cloud => cloudAnalyze req net
     | mock => mockAnalyze req rnd
     end)
    (fun e => perform (Warn e);; mockAnalyze req rnd).

(** ** The components (lines 125-176 and 207-230)

    [useAnalysisAdapter] keeps its [mode] in a [useState] cell of the
    component that calls it.  [App] calls it (line 131) and [Practice]
    calls it (line 208): each has a cell of its own.

    The three screens are the children of [<AnimatePresence mode='wait'>]
    (lines 156-172), each with an [exit] animation.  Of framer-motion the
    model takes what its documentation says of this mode: one child is
    presented at a time; when [screen] names another child, the child
    presented stays mounted, with its state and its controls, until its
    exit animation has finished, and only then is the child of the current
    [screen] mounted, with fresh state; a child that [screen] names again
    before that simply stays.  So [Practice]'s state lives from the end of
    its predecessor's exit animation to the end of its own. *)

Inductive Screen : Type := dashboard | practice | session.

Definition Screen_eqb (a b : Screen) : bool :=
  match a, b with
  | dashboard, dashboard | practice, practice | session, session => true
  | _, _ => false
  end.

Module Practice.
Record t : Type := mk {
  mode : Mode;                 (* the adapter's cell, line 91 via line 208 *)
  motionTxt : string;
  side : BpSide;
  isRecording : bool;
  seconds : Z;
  timerRef : option positive;  (* the handle of the running interval *)
  loading : bool;
  error : option Error;        (* the error whose message is shown, if any *)
  instance : nat               (* which mounting of the component this is *)
}.

(** The initial values of the [useState] and [useRef] calls. *)
Definition init (i : nat) : t :=
  {| mode := DEFAULT_MODE;
     motionTxt := "This House would ban targeted political advertising on social media.";
     side := OG;
     isRecording := false;
     seconds := 0;
     timerRef := None;
     loading := false;
     error := None;
     instance := i |}.
End Practice.

(** An [onAnalyzeClick] that is waiting at [await analyze(req)]: what its
    closure holds. *)
Module Call.
Record t : Type := mk {
  sid : string;
  req : AnalyzeRequest;
  mode : Mode;       (* the [mode] that [analyze] closed over *)
  caller : nat       (* the [Practice] instance that clicked *)
}.
End Call.

Module App.
Record t : Type := mk {
  screen : Screen;
  sessionId : string;
  analysis : option JSValue;
  mode : Mode;                    (* the adapter's cell, line 91 via line 131 *)
  shown : Screen;                 (* the child that AnimatePresence presents *)
  practice : option Practice.t;   (* the mounted [Practice], if any *)
  mounted : nat;                  (* how often [Practice] was mounted *)
  inflight : list Call.t
}.

Definition init : t :=
  {| screen := dashboard; sessionId := ""; analysis := None;
     mode := DEFAULT_MODE; shown := dashboard; practice := None; mounted := 0;
     inflight := [] |}.
End App.

(** What can happen to the page: the user's actions on the controls, and
    the callbacks of the environment. *)
Inductive Action : Type :=
  | ClickTab (s : Screen)             (* a HeaderTab, lines 144-146 *)
  | ClickToggle                       (* line 149 *)
  | ClickStartPractice                (* Dashboard's button, line 193 *)
  | ChangeMotion (txt : string)       (* line 239 *)
  | ChangeSide (s : BpSide)           (* line 241 *)
  | ClickRecord (handle : positive)   (* line 246; [handle] is what setInterval returns *)
  | ClickStop                         (* line 247 *)
  | Tick                              (* the interval's callback, line 217 *)
  | ClickAnalyze (suffix : string)    (* line 252; [suffix] is
                                         Math.random().toString(36).slice(2,8) *)
  | Settle (i : nat) (net : FetchOutcome) (rnd : Draws.t)
                                      (* the [i]-th waiting [analyze] call finishes *)
  | ExitComplete.                     (* the exit animation of the child presented
                                         finishes *)

(** [setScreen(s)].  The children are not touched: the child presented
    starts its exit animation, or stays if [s] names it. *)
Definition setScreen (s : Screen) (st : App.t) : App.t :=
  {| App.screen := s; App.sessionId := App.sessionId st; App.analysis := App.analysis st;
     App.mode := App.mode st; App.shown := App.shown st; App.practice := App.practice st;
     App.mounted := App.mounted st; App.inflight := App.inflight st |}.

(** The end of an exit animation: the child presented is unmounted (a
    [Practice] loses its state, and the effect cleanup of line 219 clears
    its interval), and the child of the current screen is mounted. *)
Definition exitComplete (st : App.t) : App.t :=
  {| App.screen := App.screen st; App.sessionId := App.sessionId st;
     App.analysis := App.analysis st; App.mode := App.mode st;
     App.shown := App.screen st;
     App.practice :=
       match App.screen st with
       | practice => Some (Practice.init (App.mounted st))
       | _ => None
       end;
     App.mounted :=
       match App.screen st with
       | practice => S (App.mounted st)
       | _ => App.mounted st
       end;
     App.inflight := App.inflight st |}.

Definition setPractice (p : Practice.t) (st : App.t) : App.t :=
  {| App.screen := App.screen st; App.sessionId := App.sessionId st;
     App.analysis := App.analysis st; App.mode := App.mode st;
     App.shown := App.shown st; App.practice := Some p;
     App.mounted := App.mounted st; App.inflight := App.inflight st |}.

Definition setInflight (l : list Call.t) (st : App.t) : App.t :=
  {| App.screen := App.screen st; App.sessionId := App.sessionId st;
     App.analysis := App.analysis st; App.mode := App.mode st;
     App.shown := App.shown st; App.practice := App.practice st;
     App.mounted := App.mounted st; App.inflight := l |}.

(** Line 149: [setMode(mode==='cloud'?'mock':'cloud')] on [App]'s cell. *)
Definition toggle (st : App.t) : App.t :=
  {| App.screen := App.screen st; App.sessionId := App.sessionId st;
     App.analysis := App.analysis st;
     App.mode := match App.mode st with cloud => mock | mock => cloud end;
     App.shown := App.shown st; App.practice := App.practice st;
     App.mounted := App.mounted st; App.inflight := App.inflight st |}.

(** Line 164: [onAnalyzed(sid, resp)]. *)
Definition onAnalyzed (sid : string) (resp : JSValue) (st : App.t) : App.t :=
  setScreen session
    {| App.screen := App.screen st; App.sessionId := sid; App.analysis := Some resp;
       App.mode := App.mode st; App.shown := App.shown st;
       App.practice := App.practice st;
       App.mounted := App.mounted st; App.inflight := App.inflight st |}.

(** Line 217. *)
Definition start (handle : positive) (p : Practice.t) : Practice.t :=
  {| Practice.mode := Practice.mode p; Practice.motionTxt := Practice.motionTxt p;
     Practice.side := Practice.side p; Practice.isRecording := true;
     Practice.seconds := 0; Practice.timerRef := Some handle;
     Practice.loading := Practice.loading p; Practice.error := Practice.error p;
     Practice.instance := Practice.instance p |}.

(** Line 218. *)
Definition stop (p : Practice.t) : Practice.t :=
  {| Practice.mode := Practice.mode p; Practice.motionTxt := Practice.motionTxt p;
     Practice.side := Practice.side p; Practice.isRecording := false;
     Practice.seconds := Practice.seconds p; Practice.timerRef := None;
     Practice.loading := Practice.loading p; Practice.error := Practice.error p;
     Practice.instance := Practice.instance p |}.

(** The interval's callback: [setSeconds(s=>s+1)]. *)
Definition tick (p : Practice.t) : Practice.t :=
  {| Practice.mode := Practice.mode p; Practice.motionTxt := Practice.motionTxt p;
     Practice.side := Practice.side p; Practice.isRecording := Practice.isRecording p;
     Practice.seconds := Practice.seconds p + 1; Practice.timerRef := Practice.timerRef p;
     Practice.loading := Practice.loading p; Practice.error := Practice.error p;
     Practice.instance := Practice.instance p |}.

Definition setMotionTxt (txt : string) (p : Practice.t) : Practice.t :=
  {| Practice.mode := Practice.mode p; Practice.motionTxt := txt;
     Practice.side := Practice.side p; Practice.isRecording := Practice.isRecording p;
     Practice.seconds := Practice.seconds p; Practice.timerRef := Practice.timerRef p;
     Practice.loading := Practice.loading p; Practice.error := Practice.error p;
     Practice.instance := Practice.instance p |}.

Definition setSide (s : BpSide) (p : Practice.t) : Practice.t :=
  {| Practice.mode := Practice.mode p; Practice.motionTxt := Practice.motionTxt p;
     Practice.side := s; Practice.isRecording := Practice.isRecording p;
     Practice.seconds := Practice.seconds p; Practice.timerRef := Practice.timerRef p;
     Practice.loading := Practice.loading p; Practice.error := Practice.error p;
     Practice.instance := Practice.instance p |}.

(** [setLoading(l); setError(e)]. *)
Definition setLoadingError (l : bool) (e : option Error) (p : Practice.t) : Practice.t :=
  {| Practice.mode := Practice.mode p; Practice.motionTxt := Practice.motionTxt p;
     Practice.side := Practice.side p; Practice.isRecording := Practice.isRecording p;
     Practice.seconds := Practice.seconds p; Practice.timerRef := Practice.timerRef p;
     Practice.loading := l; Practice.error := e;
     Practice.instance := Practice.instance p |}.

(** Lines 224-225: the session identifier and the request of a click. *)
Definition newSessionId (suffix : string) : string := "sess_" +:+ suffix.

Definition buildRequest (sid : string) (p : Practice.t) : AnalyzeRequest :=
  {| Req.sessionId := sid;
     Req.motion := Practice.motionTxt p;
     Req.side := Practice.side p;
     Req.durationSec := inject_Z (JS.or_Z (Practice.seconds p) 420);
     Req.gcsUri := None;
     Req.audioBlobUrl := None;
     Req.uid := Some "demo-user" |}.

(** Lines 221-226, up to the [await]. *)
Definition onAnalyzeClick (suffix : string) (p : Practice.t) (st : App.t) : App.t :=
  let sid := newSessionId suffix in
  let call := {| Call.sid := sid; Call.req := buildRequest sid p;
                 Call.mode := Practice.mode p; Call.caller := Practice.instance p |} in
  setInflight (App.inflight st ++ [call])
    (setPractice (setLoadingError true None p) st).

(** A state setter of the [Practice] instance [k], called from a closure
    of that instance: it reaches the instance while it is mounted, and does
    nothing once it is unmounted (the mounted [Practice], if there is one,
    is then another instance). *)
Definition updateInstance (k : nat) (f : Practice.t -> Practice.t) (st : App.t) : App.t :=
  match App.practice st with
  | Some p => if Nat.eqb (Practice.instance p) k then setPractice (f p) st else st
  | None => st
  end.

(** Lines 226-229, from the [await] on: the call's result arrives.  With a
    response, [onAnalyzed] runs and then the [finally] clause; with an
    error, the [catch] clause and then the [finally] clause. *)
Definition resume (c : Call.t) (net : FetchOutcome) (rnd : Draws.t) (st : App.t) : App.t :=
  match outcome (analyze (Call.mode c) (Call.req c) net rnd) with
  | inr resp =>
      updateInstance (Call.caller c)
        (fun p => setLoadingError false (Practice.error p) p)
        (onAnalyzed (Call.sid c) resp st)
  | inl e =>
      updateInstance (Call.caller c) (setLoadingError false (Some e)) st
  end.

(** One step of the page.  [None]: the control is not on the page or is
    disabled, or the callback cannot fire.  The header is always there;
    the controls of a screen are there while that screen's component is
    mounted, during its exit animation too. *)
Definition step (st : App.t) (a : Action) : option App.t :=
  match a with
  | ClickTab s => Some (setScreen s st)
  | ClickToggle => Some (toggle st)
  | ClickStartPractice =>
      match App.shown st with
      | dashboard => Some (setScreen practice st)
      | _ => None
      end
  | ChangeMotion txt =>
      p ← App.practice st; Some (setPractice (setMotionTxt txt p) st)
  | ChangeSide s =>
      p ← App.practice st; Some (setPractice (setSide s p) st)
  | ClickRecord handle =>
      p ← App.practice st;
      if Practice.isRecording p then None
      else Some (setPractice (start handle p) st)
  | ClickStop =>
      p ← App.practice st;
      if Practice.isRecording p then Some (setPractice (stop p) st)
      else None
  | Tick =>
      p ← App.practice st;
      match Practice.timerRef p with
      | Some _ => Some (setPractice (tick p) st)
      | None => None
      end
  | ClickAnalyze suffix =>
      p ← App.practice st;
      if Practice.loading p then None
      else Some (onAnalyzeClick suffix p st)
  | Settle i net rnd =>
      c ← App.inflight st !! i;
      Some (resume c net rnd (setInflight (delete i (App.inflight st)) st))
  | ExitComplete =>
      if Screen_eqb (App.shown st) (App.screen st) then None
      else Some (exitComplete st)
  end.

Fixpoint run (st : App.t) (tr : list Action) : option App.t :=
  match tr with
  | [] => Some st
  | a :: tr' => st' ← step st a; run st' tr'
  end.

Definition reachable (st : App.t) : Prop := exists tr, run App.init tr = Some st.

(** ** Notions the properties are stated with *)

(** The remote call succeeded: [fetch] resolved, the status is a success
    status and the body is JSON.  [Some data] is then the decoded body. *)
Definition remote_result (net : FetchOutcome) : option JSValue :=
  match net with
  | Rejected => None
  | Resolved status body => if response_ok status then body else None
  end.

Definition nullish (v : JSValue) : bool :=
  match v with VNull | VUndefined => true | _ => false end.


(** [p] of the object [v], [undefined] where [v] has no properties. *)
Definition prop (v : JSValue) (k : string) : JSValue :=
  match JS.get v k with inr x => x | inl _ => VUndefined end.


(** The stopwatch was started at some point of a run. *)
Definition is_record (a : Action) : bool :=
  match a with ClickRecord _ => true | _ => false end.

Definition timer_ran (tr : list Action) : bool := existsb is_record tr.

(** How [Practice] is wired: its adapter cell always holds the default
    mode, nothing ever writes to it; every waiting call closed over that
    mode and asks for the session identifier it was given. *)
Definition wired (st : App.t) : Prop :=
  (forall p, App.practice st = Some p -> Practice.mode p = DEFAULT_MODE) /\
  Forall (fun c => Call.mode c = DEFAULT_MODE /\ Req.sessionId (Call.req c) = Call.sid c)
         (App.inflight st).

(** The stopwatch of the mounted [Practice] is at rest at zero. *)
Definition timer_at_rest (st : App.t) : Prop :=
  forall p, App.practice st = Some p ->
            Practice.seconds p = 0 /\ Practice.timerRef p = None.

(** [Practice] is mounted exactly while it is the child presented, and
    its stopwatch never shows a negative value. *)
Definition well_mounted (st : App.t) : Prop :=
  (App.shown st = practice <-> App.practice st <> None) /\
  (forall p, App.practice st = Some p -> 0 <= Practice.seconds p).

(** ** Sample inputs *)

Definition sample_request : AnalyzeRequest :=
  {| Req.sessionId := "sess_k3x9qa"; Req.motion := "This House would ban zoos.";
     Req.side := OO; Req.durationSec := 420; Req.gcsUri := None;
     Req.audioBlobUrl := None; Req.uid := Some "demo-user" |}.

(** A request whose [uid] is the empty string and whose [gcsUri] is absent. *)
Definition anonymous_request : AnalyzeRequest :=
  {| Req.sessionId := "sess_0aaaaa"; Req.motion := ""; Req.side := CG;
     Req.durationSec := 0; Req.gcsUri := None; Req.audioBlobUrl := None;
     Req.uid := Some "" |}.

(** Draws at the ends of the unit interval: [0], the largest double below
    [1] (twice), one half, and the smallest positive double. *)
Definition sample_draws : Draws.t :=
  {| Draws.matter := 0; Draws.manner := F64.pred_one; Draws.method := F64.pred_one;
     Draws.wpm := 2 ^ 1073; Draws.filler := 1 |}.

(** The body [{"matter":10,"manner":5,"method":3,"total":18}]. *)
Definition flat_fields : gmap string JSValue :=
  list_to_map [("matter", VNum 10); ("manner", VNum 5); ("method", VNum 3);
               ("total", VNum 18)].

(** The body [{"scores":18,"matter":10,"manner":5,"method":3,"total":18}]:
    [scores] is there, and is not an object. *)
Definition flat_fields_with_number : gmap string JSValue :=
  <["scores" := VNum 18]> flat_fields.

(** The body [{"scores":null,"matter":10,"manner":5,"method":3,"total":18}]. *)
Definition flat_fields_with_null : gmap string JSValue :=
  <["scores" := VNull]> flat_fields.

(** The body [{"message":"Workflow was started"}]: JSON, and no response. *)
Definition started_fields : gmap string JSValue :=
  list_to_map [("message", VStr "Workflow was started")].


(** The body [{"sessionId":"x","scores":{"matter":1,"manner":1,"method":1,"total":3}}]. *)
Definition nested_scores : gmap string JSValue :=
  list_to_map [("matter", VNum 1); ("manner", VNum 1); ("method", VNum 1);
               ("total", VNum 3)].

Definition nested_fields : gmap string JSValue :=
  list_to_map [("sessionId", VStr "x"); ("scores", VObj nested_scores)].

(** The page once Practice has been opened from Dashboard and Dashboard's
    exit animation has finished. *)
Definition practice_open : App.t := exitComplete (setScreen practice App.init).

(** The user flips the toggle to MOCK, opens Practice and submits. *)
Definition toggle_then_submit : list Action :=
  [ClickToggle; ClickStartPractice; ExitComplete; ClickAnalyze "k3x9qa"].

(** The user opens Practice, presses Record and submits before the first
    tick. *)
Definition record_then_submit : list Action :=
  [ClickStartPractice; ExitComplete; ClickRecord 1].

(** The user opens Practice, records for two seconds, stops, and presses
    Record again: the stopwatch restarts from zero. *)
Definition restart_then_submit : list Action :=
  [ClickStartPractice; ExitComplete; ClickRecord 1; Tick; Tick; ClickStop; ClickRecord 2].

(** The user opens Practice, records for two seconds and stops. *)
Definition two_seconds : list Action :=
  [ClickStartPractice; ExitComplete; ClickRecord 1; Tick; Tick; ClickStop].

(** The user opens Practice and submits. *)
Definition open_then_submit : list Action :=
  [ClickStartPractice; ExitComplete; ClickAnalyze "k3x9qa"].

(** The duration that "the elapsed timer value, 420 exactly when the
    timer never ran" describes. *)
Definition elapsed_or_default (ran : bool) (elapsed : Z) : Q :=
  if ran then inject_Z elapsed else 420.

(** ** Further notions: the stopwatch and the calls in flight *)

(** An interval is live exactly while [Practice] says it is recording. *)
Definition timer_consistent (st : App.t) : Prop :=
  forall p, App.practice st = Some p ->
            (Practice.isRecording p = true <-> Practice.timerRef p <> None).

(** The waiting calls that the [k]-th mounting of [Practice] started. *)
Definition calls_of (k : nat) (l : list Call.t) : list Call.t :=
  List.filter (fun c => Nat.eqb (Call.caller c) k) l.

(** Every waiting call belongs to a mounting that has happened; the
    mounted [Practice] has a call waiting exactly while it shows
    [loading]. *)
Definition one_call_each (st : App.t) : Prop :=
  Forall (fun c => (Call.caller c < App.mounted st)%nat) (App.inflight st) /\
  (forall k, (length (calls_of k (App.inflight st)) <= 1)%nat) /\
  (forall p, App.practice st = Some p ->
             (Practice.instance p < App.mounted st)%nat /\
             length (calls_of (Practice.instance p) (App.inflight st))
             = if Practice.loading p then 1%nat else 0%nat).

(** The user submits, leaves Practice, comes back once Practice has gone
    and submits again. *)
Definition submit_leave_submit : list Action :=
  [ClickStartPractice; ExitComplete; ClickAnalyze "k3x9qa"; ClickTab dashboard;
   ExitComplete; ClickTab practice; ExitComplete; ClickAnalyze "p0z7mm"].

(** The user records two seconds, changes the motion, leaves for Session
    and is back on Practice before its exit animation has finished. *)
Definition leave_and_return_at_once : list Action :=
  two_seconds ++ [ChangeMotion "THW abolish exams"; ClickTab session; ClickTab practice].

(** The same, but the exit animation finishes before the user returns. *)
Definition leave_and_return_later : list Action :=
  two_seconds ++ [ChangeMotion "THW abolish exams"; ClickTab session; ExitComplete;
                  ClickTab practice; ExitComplete].

(** ** The Session screen (lines 268-333 and 345-354)

    [Session] is a function from its props to an element tree; what it
    computes on the way is property reads and two [.map] calls, and those
    can throw.  The tree is kept as the values put into it: the props of
    the three [Meter]s and of the three [SectionList]s, and the children
    of the chips and of the list items.  (The property names read here,
    [transcript], [scores], [delivery], [timing], [feedback],
    [rubricVersion], [wpm], [fillerPerMin], [status], [justification],
    [actionables], [drills], [title], [why], [how], [name] and
    [instructions], are like those of [JS.get]: no prototype of a JSON
    value defines one.  Line 313 reads [a.how].) *)

#[global] Instance sum_ret : MRet (sum Error) := fun A a => inr a.
#[global] Instance sum_bind : MBind (sum Error) := fun A B k m =>
  match m with inl e => inl e | inr a => k a end.

Module View.
Record meter : Type := mkMeter { label : string; value : JSValue; max : Z }.

Record report : Type := mkReport {
  heading : string;                (* Session: {sessionId} *)
  rubric : JSValue;                (* Rubric {rubricVersion} *)
  meters : list meter;
  total : JSValue;
  wpm : JSValue;
  fillerPerMin : JSValue;
  timing : JSValue;
  transcript : JSValue;
  justification : list (string * JSValue);        (* title and items of a SectionList *)
  actionables : list (JSValue * JSValue * JSValue); (* title, why, how *)
  drills : list (JSValue * JSValue)                (* name, instructions *)
}.

Inductive t : Type :=
  | NoSession                      (* the card "No session yet" *)
  | Report (r : report).
End View.

(** [v.map(f)]: [v] must be an array.  On [null] and [undefined] the
    property read throws; on any other value there is no function [map] to
    call.  Both are a [TypeError]. *)
Fixpoint map_err {A B} (f : A -> Error + B) (l : list A) : Error + list B :=
  match l with
  | [] => inr []
  | x :: l' => y ← f x; ys ← map_err f l'; inr (y :: ys)
  end.

Definition js_map {B} (v : JSValue) (f : JSValue -> Error + B) : Error + list B :=
  match v with
  | VArr l => map_err f l
  | _ => inl TypeError
  end.

Definition Session (sessionId : string) (analysis : option JSValue) : Error + View.t :=
  match analysis with
  | None => inr View.NoSession
  | Some a =>
      if negb (JS.truthy a) then inr View.NoSession
      else
        transcript ← JS.get a "transcript";
        scores ← JS.get a "scores";
        feedback ← JS.get a "feedback";
        delivery ← JS.get a "delivery";
        timing ← JS.get a "timing";
        rubricVersion ← JS.get a "rubricVersion";
        matter ← JS.get scores "matter";
        manner ← JS.get scores "manner";
        method ← JS.get scores "method";
        total ← JS.get scores "total";
        wpm ← JS.get delivery "wpm";
        fillerPerMin ← JS.get delivery "fillerPerMin";
        status ← JS.get timing "status";
        justification ← JS.get feedback "justification";
        jmatter ← JS.get justification "matter";
        jmanner ← JS.get justification "manner";
        jmethod ← JS.get justification "method";
        actionables ← JS.get feedback "actionables";
        acts ← js_map actionables (fun a =>
                  title ← JS.get a "title";
                  why ← JS.get a "why";
                  how ← JS.get a "how";
                  inr (title, why, how));
        drills ← JS.get feedback "drills";
        drs ← js_map drills (fun d =>
                  name ← JS.get d "name";
                  instructions ← JS.get d "instructions";
                  inr (name, instructions));
        inr (View.Report
               {| View.heading := sessionId;
                  View.rubric := rubricVersion;
                  View.meters := [View.mkMeter "Matter" matter 40;
                                  View.mkMeter "Manner" manner 40;
                                  View.mkMeter "Method" method 20];
                  View.total := total;
                  View.wpm := wpm;
                  View.fillerPerMin := fillerPerMin;
                  View.timing := status;
                  View.transcript := transcript;
                  View.justification := [("Matter", jmatter); ("Manner", jmanner);
                                         ("Method", jmethod)];
                  View.actionables := acts;
                  View.drills := drs |})
  end.

(** [SectionList]: the children of its list items. *)
Definition SectionList (title : string) (items : JSValue) : Error + (string * list JSValue) :=
  xs ← js_map items (fun x => inr x);
  inr (title, xs).

(** What React accepts as a child: text, numbers, nothing ([null],
    [undefined], booleans) and arrays of children; an object is refused
    ("Objects are not valid as a React child"). *)
Fixpoint child_ok (v : JSValue) : bool :=
  match v with
  | VObj _ => false
  | VArr l => forallb child_ok l
  | _ => true
  end.

Inductive RenderError : Type :=
  | Thrown (e : Error)
  | ObjectAsChild.

#[global] Instance render_ret : MRet (sum RenderError) := fun A a => inr a.
#[global] Instance render_bind : MBind (sum RenderError) := fun A B k m =>
  match m with inl e => inl e | inr a => k a end.

(** React's check of the children of host elements. *)
Definition check_children (l : list JSValue) : RenderError + unit :=
  if forallb child_ok l then inr tt else inl ObjectAsChild.

(** The children of the first card, lines 276-294, in document order.
    ([Meter] puts its [value] into a [span] and computes a number from it;
    it throws nothing.) *)
Definition report_children (r : View.report) : list JSValue :=
  View.rubric r :: map View.value (View.meters r)
  ++ [View.total r; View.wpm r; View.fillerPerMin r; View.timing r; View.transcript r].

(** The children of the list items of the third card, lines 309-326. *)
Definition feedback_children (r : View.report) : list JSValue :=
  concat (map (fun a => [a.1.1; a.1.2; a.2]) (View.actionables r))
  ++ concat (map (fun d => [d.1; d.2]) (View.drills r)).

(** One [SectionList], when React reaches it: its body runs, then the
    children of its items are checked. *)
Definition renderSectionList (j : string * JSValue) : RenderError + unit :=
  match SectionList j.1 j.2 with
  | inl e => inl (Thrown e)
  | inr l => check_children l.2
  end.

Fixpoint render_each {A} (f : A -> RenderError + unit) (l : list A) : RenderError + unit :=
  match l with
  | [] => inr tt
  | x :: l' => f x;; render_each f l'
  end.

(** Rendering the Session screen.  [Session] runs first, all of it: the
    property reads and the two [.map] calls of its body.  React then goes
    through the element tree it returned in document order and stops at
    the first fault: the children of the first card, the three
    [SectionList]s of the second card one after the other, the children of
    the third card. *)
Definition renderSession (sessionId : string) (analysis : option JSValue)
  : RenderError + View.t :=
  match Session sessionId analysis with
  | inl e => inl (Thrown e)
  | inr View.NoSession => inr View.NoSession
  | inr (View.Report r) =>
      check_children (report_children r);;
      render_each renderSectionList (View.justification r);;
      check_children (feedback_children r);;
      inr (View.Report r)
  end.

(** What [Session] renders from [App]'s state: what the page shows while
    Session is the screen and the child presented. *)
Definition sessionView (st : App.t) : RenderError + View.t :=
  renderSession (App.sessionId st) (App.analysis st).

(** [Session] on the object of a typed response. *)
Definition report_of (sessionId : string) (r : AnalyzeResponse) : View.report :=
  {| View.heading := sessionId;
     View.rubric := VStr (Resp.rubricVersion r);
     View.meters :=
       [View.mkMeter "Matter" (VNum (Scores.matter (Resp.scores r))) 40;
        View.mkMeter "Manner" (VNum (Scores.manner (Resp.scores r))) 40;
        View.mkMeter "Method" (VNum (Scores.method (Resp.scores r))) 20];
     View.total := VNum (Scores.total (Resp.scores r));
     View.wpm := VNum (Delivery.wpm (Resp.delivery r));
     View.fillerPerMin := VNum (Delivery.fillerPerMin (Resp.delivery r));
     View.timing := ToJS.timingStatus (Timing.status (Resp.timing r));
     View.transcript := VStr (Resp.transcript r);
     View.justification :=
       [("Matter", ToJS.strings (Justification.matter (Feedback.justification (Resp.feedback r))));
        ("Manner", ToJS.strings (Justification.manner (Feedback.justification (Resp.feedback r))));
        ("Method", ToJS.strings (Justification.method (Feedback.justification (Resp.feedback r))))];
     View.actionables :=
       map (fun a => (VStr (Actionable.title a), VStr (Actionable.why a),
                      VStr (Actionable.how a)))
           (Feedback.actionables (Resp.feedback r));
     View.drills :=
       map (fun d => (VStr (Drill.name d), VStr (Drill.instructions d)))
           (Feedback.drills (Resp.feedback r)) |}.

(** No [analyze] call has finished during a run. *)
Definition is_settle (a : Action) : bool :=
  match a with Settle _ _ _ => true | _ => false end.

Definition settled (tr : list Action) : bool := existsb is_settle tr.

(** ** The meters (lines 108-110) *)

(** [Meter]'s [pct] (line 109) for a finite [value >= 0] and a [max >= 0],
    both doubles in units of [2^-1074]; [None] is NaN (0/0).  With
    [max = 0] and [value > 0] the quotient is Infinity, which the clamp
    turns into 100; a quotient or product that overflows to Infinity is
    clamped to 100 like the large number it stands for, so overflow needs
    no case of its own. *)
Definition Meter_pct (value max : Z) : option Z :=
  if max =? 0 then (if value =? 0 then None else Some 100)
  else Some (Z.max 0 (Z.min 100
               (F64.round (F64.mul_int (F64Div.div value max) 100)))).

(** Equality of two values of the Standard Library's IEEE 754 model. *)
Definition spec_float_eqb (a b : spec_float) : bool :=
  match a, b with
  | S754_zero s, S754_zero s' => Bool.eqb s s'
  | S754_infinity s, S754_infinity s' => Bool.eqb s s'
  | S754_nan, S754_nan => true
  | S754_finite s m e, S754_finite s' m' e' => Bool.eqb s s' && Pos.eqb m m' && Z.eqb e e'
  | _, _ => false
  end.

(** The model's quotient is the Standard Library's. *)
Definition agrees_with_SFdiv (a b : Z) : bool :=
  spec_float_eqb (SFdiv 53 1024 (F64.to_spec_float a) (F64.to_spec_float b))
                 (F64.to_spec_float (F64Div.div a b)).

(** ** The clock (line 232)

    [pretty] is what the Practice screen shows after "Timer:". *)

(** [`${n}`] and [n.toString()] for a whole number [0 <= n < 1e21]. *)
Definition decimal (n : Z) : string :=
  DecimalString.NilZero.string_of_uint (N.to_uint (Z.to_N n)).

(** [s.padStart(len, fill)] for a one-character [fill]. *)
Definition padStart (len : nat) (fill : Ascii.ascii) (s : string) : string :=
  String.concat "" (repeat (String fill "") (len - String.length s)) +:+ s.

Definition clock_mins (seconds : Z) : Z :=
  F64.floor (F64Div.div (F64.of_int seconds) (F64.of_int 60)).

Definition clock_secs (seconds : Z) : Z := seconds mod 60.

Definition pretty (seconds : Z) : string :=
  decimal (clock_mins seconds) +:+ ":" +:+ padStart 2 "0"%char (decimal (clock_secs seconds)).

(** Reading a clock back: the text before the first colon and the two
    digits after it. *)
Fixpoint split_colon (s : string) : option (string * string) :=
  match s with
  | EmptyString => None
  | String c r =>
      if Ascii.eqb c ":"%char then Some (EmptyString, r)
      else p ← split_colon r; Some (String c p.1, p.2)
  end.

Definition number_of_string (s : string) : option Z :=
  d ← DecimalString.NilZero.uint_of_string s; Some (Z.of_N (N.of_uint d)).

Definition parse_clock (s : string) : option Z :=
  p ← split_colon s;
  m ← number_of_string p.1;
  x ← number_of_string p.2;
  if Nat.eqb (String.length p.2) 2 && (x <? 60) then Some (m * 60 + x) else None.

(** * Properties *)

(** ** Rounding to binary64 *)
Module F64Facts.
Import F64.

Lemma round53_small n : n < 2 ^ 53 -> round53 n = n.
Proof.
  intros H. unfold round53.
  destruct (Z.ltb_spec n (2 ^ 53)) as [_ | Hge]; [reflexivity | lia].
Qed.

(** The binade of a value of at least [2^53] units: its quantum [2^s],
    and the position of the value between two neighbouring doubles. *)
Lemma binade n :
  2 ^ 53 <= n ->
  let s := Z.log2 n - 52 in
  let q := n / 2 ^ s in
  1 <= s /\ 2 ^ 52 <= q < 2 ^ 53 /\
  n = q * 2 ^ s + n mod 2 ^ s /\ 0 <= n mod 2 ^ s < 2 ^ s /\
  2 ^ Z.log2 n = 2 ^ 52 * 2 ^ s /\ 2 ^ s = 2 * 2 ^ (s - 1).
Proof.
  intros Hn s q.
  assert (Hpos : 0 < n) by (pose proof (Z.pow_pos_nonneg 2 53); lia).
  assert (HL : 53 <= Z.log2 n).
  { apply Z.log2_le_pow2; lia. }
  destruct (Z.log2_spec n Hpos) as [Hlo Hhi].
  assert (Hs : 1 <= s) by (subst s; lia).
  assert (Hp : 0 < 2 ^ s) by (apply Z.pow_pos_nonneg; lia).
  assert (Hsplit : 2 ^ Z.log2 n = 2 ^ 52 * 2 ^ s).
  { rewrite <- Z.pow_add_r by lia. f_equal. subst s. lia. }
  assert (Hsucc : 2 ^ Z.succ (Z.log2 n) = 2 ^ 53 * 2 ^ s).
  { rewrite <- Z.pow_add_r by lia. f_equal. subst s. lia. }
  assert (Hhalf : 2 ^ s = 2 * 2 ^ (s - 1)).
  { replace s with (Z.succ (s - 1)) at 1 by lia. apply Z.pow_succ_r. lia. }
  pose proof (Z.div_mod n (2 ^ s) ltac:(lia)) as Hdm.
  pose proof (Z.mod_pos_bound n (2 ^ s) Hp) as Hmod.
  repeat split; try lia.
  - subst q. apply Z.div_le_lower_bound; lia.
  - subst q. apply Z.div_lt_upper_bound; lia.
Qed.

(** A value is rounded to the double below it or to the double above it,
    and to the nearer of the two. *)
Lemma round53_cases n :
  2 ^ 53 <= n ->
  let s := Z.log2 n - 52 in
  let q := n / 2 ^ s in
  let r := n mod 2 ^ s in
  (round53 n = q * 2 ^ s /\ 2 * r <= 2 ^ s) \/
  (round53 n = (q + 1) * 2 ^ s /\ 2 ^ s <= 2 * r).
Proof.
  intros Hn s q r.
  destruct (binade n Hn) as (Hs & Hq & Hdm & Hr & _ & Hhalf).
  fold s in Hs, Hq, Hdm, Hr, Hhalf. fold q in Hq, Hdm. fold r in Hdm, Hr.
  unfold round53.
  destruct (Z.ltb_spec n (2 ^ 53)) as [Hlt | _]; [lia |].
  fold s. fold q. fold r.
  destruct (Z.ltb_spec r (2 ^ (s - 1))) as [Hlt | Hge]; cbn [orb].
  - left. split; [reflexivity | lia].
  - destruct (Z.eqb_spec r (2 ^ (s - 1))) as [Heq | Hne]; cbn [andb].
    + destruct (Z.even q); [left | right]; split; try reflexivity; lia.
    + right. split; [reflexivity | lia].
Qed.

Lemma round53_nonneg n : 0 <= n -> 0 <= round53 n.
Proof.
  intros Hn. destruct (Z_lt_le_dec n (2 ^ 53)) as [Hlt | Hge].
  - rewrite round53_small; lia.
  - destruct (binade n Hge) as (Hs & Hq & _ & _ & _ & _).
    destruct (round53_cases n Hge) as [[-> _] | [-> _]]; nia.
Qed.

(** Rounding is monotone. *)
Lemma round53_mono n m : n <= m -> round53 n <= round53 m.
Proof.
  intros Hle.
  destruct (Z.eq_dec n m) as [-> | Hne]; [lia |].
  assert (Hnm : n < m) by lia. clear Hle Hne.
  destruct (Z_lt_le_dec m (2 ^ 53)) as [Hm | Hm].
  { rewrite !round53_small; lia. }
  destruct (binade m Hm) as (Hsm & Hqm & Hdmm & Hrm & HLm & _).
  destruct (round53_cases m Hm) as [[Em Dm] | [Em Dm]];
  (destruct (Z_lt_le_dec n (2 ^ 53)) as [Hn | Hn];
   [ rewrite (round53_small n Hn), Em;
     assert (2 ^ 53 <= 2 ^ Z.log2 m)
       by (apply Z.pow_le_mono_r; [lia | apply Z.log2_le_pow2; lia]);
     nia | ]).
  all: destruct (binade n Hn) as (Hsn & Hqn & Hdmn & Hrn & HLn & _).
  all: assert (HLL : Z.log2 n <= Z.log2 m) by (apply Z.log2_le_mono; lia).
  all: destruct (Z_lt_le_dec (Z.log2 n) (Z.log2 m)) as [Hlt | Hge].
  (* a lower binade: everything in it rounds to at most the next power of two *)
  all: try (assert (Hstep : 2 * 2 ^ Z.log2 n <= 2 ^ Z.log2 m)
         by (rewrite <- Z.pow_succ_r by apply Z.log2_nonneg;
             apply Z.pow_le_mono_r; lia);
       destruct (round53_cases n Hn) as [[En Dn] | [En Dn]]; rewrite En, Em; nia).
  (* the same binade: compare quotients, then remainders *)
  all: assert (HL : Z.log2 n = Z.log2 m) by lia.
  all: rewrite HL in *.
  all: set (P := 2 ^ (Z.log2 m - 52)) in *.
  all: assert (Hq : n / P <= m / P) by (apply Z.div_le_mono; lia).
  all: destruct (round53_cases n Hn) as [[En Dn] | [En Dn]];
    rewrite HL in En, Dn; fold P in En, Dn.
  all: rewrite En, Em.
  all: set (qn := n / P) in *; set (qm := m / P) in *.
  all: set (rn := n mod P) in *; set (rm := m mod P) in *.
  all: destruct (Z_lt_le_dec qn qm) as [Hqlt | Hqge];
    [ assert ((qn + 1) * P <= qm * P) by (apply Z.mul_le_mono_nonneg_r; lia); lia
    | assert (qn * P = qm * P) by (f_equal; lia); lia ].
Qed.

Lemma one_split : one = 2 ^ 53 * 2 ^ 1021.
Proof. reflexivity. Qed.

(** A double below [1.0] is at most the largest double below [1.0]. *)
Lemma random_le_pred_one r : is_random r = true -> 0 <= r <= pred_one.
Proof.
  unfold is_random, representable.
  rewrite !andb_true_iff, Z.leb_le, Z.eqb_eq, Z.ltb_lt.
  intros [[H0 Hfix] Hlt]. split; [exact H0 |].
  unfold pred_one. rewrite one_split in *.
  set (U := 2 ^ 1021) in *.
  assert (HU : 0 < U) by (apply Z.pow_pos_nonneg; lia).
  destruct (Z_lt_le_dec r (2 ^ 52 * U)) as [Hlow | Hhigh]; [lia |].
  assert (H53 : 2 ^ 53 <= r).
  { assert (2 <= U) by (subst U; apply (Z.pow_le_mono_r 2 1 1021); lia). nia. }
  assert (HL : Z.log2 r = 1073).
  { apply Z.log2_unique; [lia |]. split.
    - replace (2 ^ 1073) with (2 ^ 52 * U) by reflexivity. lia.
    - replace (2 ^ Z.succ 1073) with (2 ^ 53 * U) by reflexivity. lia. }
  pose proof (round53_cases r H53) as Hc. cbv zeta in Hc.
  rewrite HL, Hfix in Hc. change (2 ^ (1073 - 52)) with U in Hc.
  destruct Hc as [[E _] | [E _]]; nia.
Qed.

(** [Math.floor(Math.random() * c)] is at most what it is at the largest
    double below [1.0]. *)
Lemma floor_mul_int_bounds r c :
  is_random r = true -> 0 <= c ->
  0 <= floor (mul_int r c) <= floor (mul_int pred_one c).
Proof.
  intros Hr Hc. apply random_le_pred_one in Hr.
  assert (H1 : 0 < one) by reflexivity.
  unfold floor, mul_int. split.
  - apply Z.div_pos; [| exact H1]. apply round53_nonneg. nia.
  - apply Z.div_le_mono; [exact H1 |]. apply round53_mono. nia.
Qed.

Lemma floor_random_times_10 r :
  is_random r = true -> 0 <= floor (mul_int r 10) <= 9.
Proof.
  intros Hr. pose proof (floor_mul_int_bounds r 10 Hr ltac:(lia)) as H.
  replace (floor (mul_int pred_one 10)) with 9 in H by (vm_compute; reflexivity).
  exact H.
Qed.

Lemma floor_random_times_8 r :
  is_random r = true -> 0 <= floor (mul_int r 8) <= 7.
Proof.
  intros Hr. pose proof (floor_mul_int_bounds r 8 Hr ltac:(lia)) as H.
  replace (floor (mul_int pred_one 8)) with 7 in H by (vm_compute; reflexivity).
  exact H.
Qed.

(** The model computes what the Standard Library's IEEE 754 operations
    compute: at the largest double below [1.0], where the product with 10
    is rounded down to the double below 10; at a double with a full
    significand; and at a subnormal. *)
Example agrees_with_SFmul :
  SFmul 53 1024 (to_spec_float pred_one) (to_spec_float (of_int 10))
  = to_spec_float (mul_int pred_one 10)
  /\ SFmul 53 1024 (to_spec_float third) (to_spec_float (of_int 10))
     = to_spec_float (mul_int third 10)
  /\ SFmul 53 1024 (to_spec_float third) (to_spec_float (of_int 8))
     = to_spec_float (mul_int third 8)
  /\ SFmul 53 1024 (to_spec_float 7) (to_spec_float (of_int 10))
     = to_spec_float (mul_int 7 10).
Proof. repeat split; vm_compute; reflexivity. Qed.

(** Two ties: the exact product lies halfway between two doubles, and goes
    to the one with the even significand, once down and once up. *)
Example agrees_with_SFmul_on_ties :
  (2 ^ 52 + 2) * 10 = (5 * 2 ^ 50 + 2) * 8 + 4
  /\ mul_int (2 ^ 52 + 2) 10 = (5 * 2 ^ 50 + 2) * 8
  /\ SFmul 53 1024 (to_spec_float (2 ^ 52 + 2)) (to_spec_float (of_int 10))
     = to_spec_float (mul_int (2 ^ 52 + 2) 10)
  /\ (2 ^ 52 + 6) * 10 = (5 * 2 ^ 50 + 7) * 8 + 4
  /\ mul_int (2 ^ 52 + 6) 10 = (5 * 2 ^ 50 + 8) * 8
  /\ SFmul 53 1024 (to_spec_float (2 ^ 52 + 6)) (to_spec_float (of_int 10))
     = to_spec_float (mul_int (2 ^ 52 + 6) 10).
Proof. repeat split; vm_compute; reflexivity. Qed.

Example agrees_with_SFadd :
  SFadd 53 1024 (to_spec_float (of_int 120))
    (SFmul 53 1024 (to_spec_float third) (to_spec_float (of_int 80)))
  = to_spec_float (add_int 120 (mul_int third 80)).
Proof. vm_compute. reflexivity. Qed.

Example pred_one_is_random : is_random pred_one = true /\ is_random one = false.
Proof. split; vm_compute; reflexivity. Qed.

End F64Facts.

(** ** Division *)
Module F64DivFacts.
Import F64 F64Div.

(** Where the quotient lies: its quantum [2^s], the double below it
    [q * 2^s] and the remainder, and which neighbour it is rounded to. *)
Lemma round_quot_spec n d :
  0 <= n -> 0 < d ->
  let s := Z.max 0 (Z.log2 (n / d) - 52) in
  let q := n / (d * 2 ^ s) in
  let r := n mod (d * 2 ^ s) in
  0 <= s /\ 0 < 2 ^ s /\
  n = q * (d * 2 ^ s) + r /\ 0 <= r < d * 2 ^ s /\
  0 <= q < 2 ^ 53 /\
  (0 < s -> 2 ^ 52 <= q /\ 2 ^ Z.log2 (n / d) = 2 ^ 52 * 2 ^ s) /\
  (s = 0 -> q = n / d /\ n / d < 2 ^ 53) /\
  ((round_quot n d = q * 2 ^ s /\ 2 * r <= d * 2 ^ s) \/
   (round_quot n d = (q + 1) * 2 ^ s /\ d * 2 ^ s <= 2 * r)).
Proof.
  intros Hn Hd s q r.
  assert (Hs : 0 <= s) by (subst s; lia).
  assert (Hp : 0 < 2 ^ s) by (apply Z.pow_pos_nonneg; lia).
  assert (Hg : 0 < d * 2 ^ s) by nia.
  assert (Hf : 0 <= n / d) by (apply Z.div_pos; lia).
  pose proof (Z.div_mod n (d * 2 ^ s) ltac:(lia)) as Hdm.
  pose proof (Z.mod_pos_bound n (d * 2 ^ s) Hg) as Hr.
  assert (Hq : q = (n / d) / 2 ^ s) by (subst q; rewrite Z.div_div by lia; reflexivity).
  assert (Hcases :
    (0 < s -> 2 ^ 52 <= q < 2 ^ 53 /\ 2 ^ Z.log2 (n / d) = 2 ^ 52 * 2 ^ s) /\
    (s = 0 -> q = n / d /\ n / d < 2 ^ 53)).
  { split.
    - intros Hpos.
      assert (H53 : 2 ^ 53 <= n / d).
      { assert (Hne : n / d <> 0).
        { intros E. unfold s in Hpos. rewrite E in Hpos. cbn in Hpos. lia. }
        apply Z.log2_le_pow2; [lia |]. unfold s in Hpos. lia. }
      destruct (F64Facts.binade (n / d) H53) as (_ & Hb & _ & _ & Hl & _).
      replace (Z.log2 (n / d) - 52) with s in Hb, Hl by (subst s; lia).
      rewrite <- Hq in Hb. split; assumption.
    - intros H0. rewrite H0, Z.pow_0_r, Z.div_1_r in Hq. split; [exact Hq |].
      destruct (Z.eq_dec (n / d) 0) as [E | E]; [rewrite E; reflexivity |].
      apply Z.log2_lt_pow2; [lia |]. subst s. lia. }
  destruct Hcases as [Hc1 Hc2].
  assert (Hqb : 0 <= q < 2 ^ 53).
  { split; [subst q; apply Z.div_pos; lia |].
    destruct (Z.eq_dec s 0) as [E | E].
    - destruct (Hc2 E) as [-> ?]. assumption.
    - destruct (Hc1 ltac:(lia)) as [[_ ?] _]. assumption. }
  split; [exact Hs |]. split; [exact Hp |].
  split; [fold q r in Hdm; lia |]. split; [exact Hr |].
  split; [exact Hqb |].
  split; [intros H; destruct (Hc1 H) as [[? _] ?]; split; assumption |].
  split; [exact Hc2 |].
  unfold round_quot. fold s. fold q. fold r.
  destruct (Z.ltb_spec (2 * r) (d * 2 ^ s)) as [Hlt | Hge]; cbn [orb].
  - left. split; [reflexivity | lia].
  - destruct (Z.eqb_spec (2 * r) (d * 2 ^ s)) as [Heq | Hne]; cbn [andb].
    + destruct (Z.even q); [left | right]; split; try reflexivity; lia.
    + right. split; [reflexivity | lia].
Qed.

Lemma round_quot_nonneg n d : 0 <= n -> 0 < d -> 0 <= round_quot n d.
Proof.
  intros Hn Hd.
  destruct (round_quot_spec n d Hn Hd) as (_ & Hp & _ & _ & Hq & _ & _ & [[-> _] | [-> _]]);
    nia.
Qed.

(** Rounding a quotient is monotone in the numerator. *)
Lemma round_quot_mono n m d :
  0 <= n -> 0 < d -> n <= m -> round_quot n d <= round_quot m d.
Proof.
  intros Hn Hd Hle.
  destruct (Z.eq_dec n m) as [-> | Hne]; [lia |].
  assert (Hnm : n < m) by lia. clear Hle Hne.
  assert (Hf : n / d <= m / d) by (apply Z.div_le_mono; lia).
  assert (Hf0 : 0 <= n / d) by (apply Z.div_pos; lia).
  assert (Hlog : Z.log2 (n / d) <= Z.log2 (m / d)) by (apply Z.log2_le_mono, Hf).
  pose proof (round_quot_spec n d Hn Hd) as Sn.
  pose proof (round_quot_spec m d ltac:(lia) Hd) as Sm.
  cbv zeta in Sn, Sm.
  set (sn := Z.max 0 (Z.log2 (n / d) - 52)) in *.
  set (sm := Z.max 0 (Z.log2 (m / d) - 52)) in *.
  assert (Hs : sn <= sm) by (subst sn sm; lia).
  destruct Sn as (Hsn & Hpn & Hdn & Hrn & Hqn & Hbn & Hzn & Hcn).
  destruct Sm as (Hsm & Hpm & Hdm & Hrm & Hqm & Hbm & Hzm & Hcm).
  destruct (Z.eq_dec sn sm) as [Heq | Hlt].
  - (* the same quantum: compare quotients, then remainders *)
    rewrite Heq in *. set (P := 2 ^ sm) in *.
    set (qn := n / (d * P)) in *. set (qm := m / (d * P)) in *.
    set (rn := n mod (d * P)) in *. set (rm := m mod (d * P)) in *.
    assert (Hq : qn <= qm) by (apply Z.div_le_mono; nia).
    destruct (Z_lt_le_dec qn qm) as [Hqlt | Hqge].
    + assert ((qn + 1) * P <= qm * P) by (apply Z.mul_le_mono_nonneg_r; lia).
      destruct Hcn as [[-> _] | [-> _]]; destruct Hcm as [[-> _] | [-> _]]; nia.
    + assert (E : qn = qm) by lia.
      assert (E' : qn * (d * P) = qm * (d * P)) by (rewrite E; reflexivity).
      assert (E'' : qn * P = qm * P) by (rewrite E; reflexivity).
      destruct Hcn as [[-> Dn] | [-> Dn]]; destruct Hcm as [[-> Dm] | [-> Dm]]; nia.
  - (* a smaller quantum: everything below rounds to at most the next power of two *)
    assert (Hpos : 0 < sm) by lia.
    destruct (Hbm Hpos) as [Hqm52 Hlm].
    assert (Hlo : 2 ^ Z.log2 (m / d) <= round_quot m d).
    { rewrite Hlm. destruct Hcm as [[-> _] | [-> _]]; nia. }
    assert (Hhi : round_quot n d <= 2 ^ Z.log2 (m / d)).
    { destruct (Z.eq_dec sn 0) as [E0 | E0].
      - destruct (Hzn E0) as [Hqf Hf53]. rewrite E0, Z.pow_0_r in *.
        assert (2 ^ 53 <= 2 ^ Z.log2 (m / d))
          by (apply Z.pow_le_mono_r; subst sm; lia).
        destruct Hcn as [[-> _] | [-> _]]; lia.
      - destruct (Hbn ltac:(lia)) as [Hqn52 Hln].
        assert (Hstep : 2 * 2 ^ Z.log2 (n / d) <= 2 ^ Z.log2 (m / d)).
        { rewrite <- Z.pow_succ_r by apply Z.log2_nonneg.
          apply Z.pow_le_mono_r; [lia |]. subst sn sm. lia. }
        destruct Hcn as [[-> _] | [-> _]]; nia. }
    lia.
Qed.

(** A multiple of a power of two with fewer than 54 bits is a double. *)
Lemma round53_scaled z j : 0 <= z < 2 ^ 53 -> 0 <= j -> round53 (z * 2 ^ j) = z * 2 ^ j.
Proof.
  intros Hz Hj.
  assert (Hpj : 0 < 2 ^ j) by (apply Z.pow_pos_nonneg; lia).
  destruct (Z_lt_le_dec (z * 2 ^ j) (2 ^ 53)) as [Hlt | Hge];
    [apply F64Facts.round53_small, Hlt |].
  destruct (F64Facts.binade _ Hge) as (Hs & Hq & Hdm & Hr & Hl & _).
  set (s := Z.log2 (z * 2 ^ j) - 52) in *.
  assert (Hsj : s <= j).
  { assert (Z.log2 (z * 2 ^ j) < 53 + j); [| subst s; lia].
    apply Z.log2_lt_pow2; [nia |]. rewrite Z.pow_add_r by lia. nia. }
  assert (Hsplit : 2 ^ j = 2 ^ (j - s) * 2 ^ s)
    by (rewrite <- Z.pow_add_r by lia; f_equal; lia).
  assert (Hmod : (z * 2 ^ j) mod 2 ^ s = 0).
  { rewrite Hsplit, Z.mul_assoc. apply Z.mod_mul. lia. }
  destruct (F64Facts.round53_cases _ Hge) as [[E _] | [E D]]; fold s in E.
  - rewrite E. rewrite Hmod in Hdm. lia.
  - fold s in D. rewrite Hmod in D. lia.
Qed.

(** A rounded quotient is a double. *)
Lemma round_quot_representable n d :
  0 <= n -> 0 < d -> round53 (round_quot n d) = round_quot n d.
Proof.
  intros Hn Hd.
  destruct (round_quot_spec n d Hn Hd) as (Hs & _ & _ & _ & Hq & _ & _ & [[-> _] | [-> _]]).
  - apply round53_scaled; assumption.
  - destruct (Z.eq_dec (n / (d * 2 ^ Z.max 0 (Z.log2 (n / d) - 52)) + 1) (2 ^ 53))
      as [E | E].
    + rewrite E.
      replace (2 ^ 53 * 2 ^ Z.max 0 (Z.log2 (n / d) - 52))
        with (2 ^ 52 * 2 ^ (Z.max 0 (Z.log2 (n / d) - 52) + 1))
        by (rewrite (Z.pow_add_r 2 _ 1) by lia; change (2 ^ 53) with (2 ^ 52 * 2); ring).
      apply round53_scaled; lia.
    + apply round53_scaled; lia.
Qed.

(** A quotient that is a double is left as it is. *)
Lemma round_quot_exact y d :
  0 <= y -> 0 < d -> round53 y = y -> round_quot (y * d) d = y.
Proof.
  intros Hy Hd Hfix.
  pose proof (round_quot_spec (y * d) d ltac:(nia) Hd) as S. cbv zeta in S.
  rewrite Z.div_mul in S by lia.
  set (s := Z.max 0 (Z.log2 y - 52)) in *.
  destruct S as (Hs & Hp & Hdm & Hr & Hq & Hb & Hz & Hc).
  assert (Hmul : exists k, y = k * 2 ^ s).
  { destruct (Z.eq_dec s 0) as [E | E];
      [exists y; rewrite E, Z.pow_0_r; lia |].
    assert (H53 : 2 ^ 53 <= y).
    { destruct (Hb ltac:(lia)) as [H52 _].
      assert (y * d / (d * 2 ^ s) = y / 2 ^ s).
      { rewrite (Z.mul_comm y d), Z.div_mul_cancel_l by lia. reflexivity. }
      assert (y / 2 ^ s * 2 ^ s <= y) by (rewrite Z.mul_comm; apply Z.mul_div_le; lia).
      assert (2 <= 2 ^ s) by (apply (Z.pow_le_mono_r 2 1 s); lia). nia. }
    assert (Es : s = Z.log2 y - 52) by (subst s; lia).
    destruct (F64Facts.round53_cases y H53) as [[E' _] | [E' _]];
      rewrite <- Es, Hfix in E'; eexists; exact E'. }
  destruct Hmul as [k Hk].
  assert (Hrem : (y * d) mod (d * 2 ^ s) = 0).
  { rewrite Hk. replace (k * 2 ^ s * d) with (k * (d * 2 ^ s)) by ring.
    apply Z.mod_mul. nia. }
  rewrite Hrem in *.
  destruct Hc as [[-> _] | [_ D]]; [| nia].
  assert (Hdiv : y * d / (d * 2 ^ s) = k).
  { rewrite Hk. replace (k * 2 ^ s * d) with (k * (d * 2 ^ s)) by ring.
    apply Z.div_mul. nia. }
  rewrite Hdiv. lia.
Qed.

End F64DivFacts.

(** ** The simulated analyzer *)

Lemma mockAnalyze_outcome req rnd :
  outcome (mockAnalyze req rnd) = inr (ToJS.response (mockResponse req rnd)).
Proof. reflexivity. Qed.

Lemma inject_Z_between (a z b : Z) :
  a <= z <= b -> (inject_Z a <= inject_Z z <= inject_Z b)%Q.
Proof. intros [H1 H2]. split; rewrite <- Zle_Qle; assumption. Qed.

(** C3: whatever [Math.random()] returns, the simulated analyzer's scores
    satisfy matter in [24,33], manner in [22,31], method in [12,19], and
    [total] is exactly matter + manner + method. *)
Theorem mock_scores_in_range (req : AnalyzeRequest) (rnd : Draws.t) :
  Draws.valid rnd = true ->
  exists r : AnalyzeResponse,
    outcome (mockAnalyze req rnd) = inr (ToJS.response r) /\
    let s := Resp.scores r in
    (24 <= Scores.matter s <= 33)%Q /\
    (22 <= Scores.manner s <= 31)%Q /\
    (12 <= Scores.method s <= 19)%Q /\
    Scores.total s = (Scores.matter s + Scores.manner s + Scores.method s)%Q.
Proof.
  unfold Draws.valid. rewrite !andb_true_iff.
  intros [[[[H1 H2] H3] _] _].
  exists (mockResponse req rnd). split; [apply mockAnalyze_outcome |].
  pose proof (F64Facts.floor_random_times_10 _ H1) as B1.
  pose proof (F64Facts.floor_random_times_10 _ H2) as B2.
  pose proof (F64Facts.floor_random_times_8 _ H3) as B3.
  cbn [mockResponse Resp.scores Scores.matter Scores.manner Scores.method Scores.total].
  repeat split.
  1-2: apply (inject_Z_between 24 _ 33); lia.
  1-2: apply (inject_Z_between 22 _ 31); lia.
  1-2: apply (inject_Z_between 12 _ 19); lia.
  unfold Qplus, inject_Z. cbn [Qnum Qden]. f_equal. lia.
Qed.

Lemma mock_scores_in_range_witness :
  exists r : AnalyzeResponse,
    outcome (mockAnalyze sample_request sample_draws) = inr (ToJS.response r) /\
    let s := Resp.scores r in
    (24 <= Scores.matter s <= 33)%Q /\
    (22 <= Scores.manner s <= 31)%Q /\
    (12 <= Scores.method s <= 19)%Q /\
    Scores.total s = (Scores.matter s + Scores.manner s + Scores.method s)%Q.
Proof. apply (mock_scores_in_range sample_request sample_draws). vm_compute. reflexivity. Defined.

(** The ends of the ranges are reached. *)
Example mock_scores_extremes :
  Resp.scores (mockResponse sample_request sample_draws)
  = {| Scores.matter := 24; Scores.manner := 31; Scores.method := 19; Scores.total := 74 |}.
Proof. vm_compute. reflexivity. Qed.

Lemma timingStatus_undertime d : timingStatus d = undertime <-> (d < 390)%Q.
Proof.
  unfold timingStatus.
  destruct (Qlt_le_dec d 390) as [Hlt | Hge]; [tauto |].
  split.
  - destruct (Qlt_le_dec 435 d); discriminate.
  - intros Hlt. exfalso. exact (Qlt_not_le _ _ Hlt Hge).
Qed.

Lemma timingStatus_overtime d : timingStatus d = overtime <-> (435 < d)%Q.
Proof.
  unfold timingStatus.
  destruct (Qlt_le_dec d 390) as [Hlt | Hge].
  - split; [discriminate |]. intros Hgt. exfalso.
    apply (Qlt_irrefl d). apply Qlt_trans with 390%Q; [exact Hlt |].
    apply Qlt_trans with 435%Q; [reflexivity | exact Hgt].
  - destruct (Qlt_le_dec 435 d) as [Hgt | Hle]; [tauto |].
    split; [discriminate |]. intros Hgt. exfalso. exact (Qlt_not_le _ _ Hgt Hle).
Qed.

Lemma timingStatus_ok d : timingStatus d = ok <-> (390 <= d <= 435)%Q.
Proof.
  unfold timingStatus.
  destruct (Qlt_le_dec d 390) as [Hlt | Hge].
  - split; [discriminate |]. intros [Hge _]. exfalso. exact (Qlt_not_le _ _ Hlt Hge).
  - destruct (Qlt_le_dec 435 d) as [Hgt | Hle].
    + split; [discriminate |]. intros [_ Hle]. exfalso. exact (Qlt_not_le _ _ Hgt Hle).
    + tauto.
Qed.

(** C4: the simulated analyzer's [timing.status] depends on the request's
    [durationSec] alone: it is ['undertime'] exactly below 390,
    ['overtime'] exactly above 435 and ['ok'] otherwise, so ['ok'] at 390,
    420 and 435. *)
Theorem mock_timing_status (req : AnalyzeRequest) (rnd : Draws.t) :
  let st := Timing.status (Resp.timing (mockResponse req rnd)) in
  let d := Req.durationSec req in
  outcome (mockAnalyze req rnd) = inr (ToJS.response (mockResponse req rnd)) /\
  st = timingStatus d /\
  (st = undertime <-> (d < 390)%Q) /\
  (st = overtime <-> (435 < d)%Q) /\
  (st = ok <-> ~ (d < 390)%Q /\ ~ (435 < d)%Q) /\
  timingStatus 390 = ok /\ timingStatus 420 = ok /\ timingStatus 435 = ok /\
  timingStatus 100 = undertime /\ timingStatus 500 = overtime.
Proof.
  cbn zeta. cbn [mockResponse Resp.timing Timing.status].
  split; [reflexivity |]. split; [reflexivity |].
  split; [apply timingStatus_undertime |].
  split; [apply timingStatus_overtime |].
  split.
  - rewrite timingStatus_ok. split.
    + intros [H1 H2]. split; intros H; eapply Qlt_not_le; eauto.
    + intros [H1 H2]. split; apply Qnot_lt_le; assumption.
  - repeat split; reflexivity.
Qed.

(** ** The remote analyzer *)

Lemma cloudAnalyze_effects req net :
  effects (cloudAnalyze req net) = [Post ANALYZE_URL (requestBody req)].
Proof.
  unfold cloudAnalyze, normalize.
  destruct net as [| status [data |]]; [reflexivity | | ].
  - cbn. destruct (response_ok status); [| reflexivity]. cbn.
    destruct data as [| | b | q | s | l | o]; try reflexivity.
    cbn. destruct (JS.truthy (default VUndefined (o !! "scores"))); [reflexivity |].
    cbn. destruct (JS.is_undefined (default VUndefined (o !! "matter"))); reflexivity.
  - cbn. destruct (response_ok status); reflexivity.
Qed.

Lemma outcome_perform_then {A} (ef : Effect) (m : M A) :
  outcome (perform ef;; m) = outcome m.
Proof. destruct m as [tr r]. reflexivity. Qed.

Lemma effects_perform_then {A} (ef : Effect) (m : M A) :
  effects (perform ef;; m) = ef :: effects m.
Proof. destruct m as [tr r]. reflexivity. Qed.

(** What the remote analyzer makes of a call that succeeded. *)
Lemma cloudAnalyze_succeeded req net data :
  remote_result net = Some data ->
  outcome (cloudAnalyze req net) = outcome (normalize data).
Proof.
  unfold cloudAnalyze. rewrite outcome_perform_then.
  destruct net as [| status body]; unfold remote_result; [discriminate |].
  destruct (response_ok status); [| discriminate].
  intros ->. reflexivity.
Qed.

Lemma cloudAnalyze_not_succeeded req net :
  remote_result net = None ->
  exists e, outcome (cloudAnalyze req net) = inl e.
Proof.
  destruct net as [| status [d |]]; cbn.
  - eauto.
  - destruct (response_ok status); cbn; [discriminate | eauto].
  - destruct (response_ok status); cbn; eauto.
Qed.

(** The shim, case by case on the decoded body. *)
Lemma normalize_object o :
  outcome (normalize (VObj o)) =
  inr (if JS.truthy (default VUndefined (o !! "scores")) then VObj o
       else if JS.is_undefined (default VUndefined (o !! "matter")) then VObj o
       else VObj (<["scores" :=
                    ToJS.obj [("matter", default VUndefined (o !! "matter"));
                              ("manner", default VUndefined (o !! "manner"));
                              ("method", default VUndefined (o !! "method"));
                              ("total", default VUndefined (o !! "total"))]]> o)).
Proof.
  unfold normalize. cbn.
  destruct (JS.truthy (default VUndefined (o !! "scores"))); [reflexivity |].
  cbn. destruct (JS.is_undefined (default VUndefined (o !! "matter"))); reflexivity.
Qed.

Lemma normalize_nullish v : nullish v = true -> outcome (normalize v) = inl TypeError.
Proof. destruct v; try discriminate; reflexivity. Qed.

Lemma normalize_other v :
  nullish v = false -> (forall o, v <> VObj o) -> outcome (normalize v) = inr v.
Proof.
  destruct v as [| | b | q | s | l | o]; try discriminate; intros _ Hobj;
    try reflexivity.
  exfalso. exact (Hobj o eq_refl).
Qed.

Lemma normalize_not_nullish v :
  nullish v = false -> exists w, outcome (normalize v) = inr w.
Proof.
  intros Hv. destruct v as [| | b | q | s | l | o]; try discriminate.
  1-4: eexists; apply normalize_other; [reflexivity | discriminate].
  eexists. apply normalize_object.
Qed.

(** C5, as stated, fails: the body
    [{"scores":18,"matter":10,"manner":5,"method":3,"total":18}] has no
    [scores] object and has the four top-level fields, and it comes back
    as it is, with the number still in [scores]. *)
Lemma number_in_scores_is_kept :
  remote_result (Resolved 200 (Some (VObj flat_fields_with_number)))
  = Some (VObj flat_fields_with_number) /\
  (forall s, flat_fields_with_number !! "scores" <> Some (VObj s)) /\
  flat_fields_with_number !! "matter" = Some (VNum 10) /\
  flat_fields_with_number !! "manner" = Some (VNum 5) /\
  flat_fields_with_number !! "method" = Some (VNum 3) /\
  flat_fields_with_number !! "total" = Some (VNum 18) /\
  outcome (cloudAnalyze sample_request (Resolved 200 (Some (VObj flat_fields_with_number))))
  = inr (VObj flat_fields_with_number) /\
  prop (VObj flat_fields_with_number) "scores" = VNum 18 /\
  prop (VObj flat_fields_with_number) "scores"
  <> ToJS.obj [("matter", VNum 10); ("manner", VNum 5); ("method", VNum 3);
               ("total", VNum 18)].
Proof.
  split; [reflexivity |].
  split; [intros s H; vm_compute in H; discriminate H |].
  do 4 (split; [vm_compute; reflexivity |]).
  split; [vm_compute; reflexivity |].
  split; [vm_compute; reflexivity |].
  intros H. vm_compute in H. discriminate H.
Qed.

(** C5, amended: a decoded body whose [scores] is missing or falsy
    ([null], [0], [''], [false]) and that carries the four top-level
    fields comes back with a [scores] object made of those fields (and is
    otherwise the same object); a body whose [scores] is truthy comes back
    unchanged, a [scores] object in particular, and a [scores] that is a
    number or a text just as well. *)
Theorem remote_normalizes_flat_scores (req : AnalyzeRequest) (net : FetchOutcome)
    (o : gmap string JSValue) :
  remote_result net = Some (VObj o) ->
  (forall a b c t,
      JS.truthy (prop (VObj o) "scores") = false ->
      o !! "matter" = Some a -> JS.is_undefined a = false ->
      o !! "manner" = Some b -> o !! "method" = Some c -> o !! "total" = Some t ->
      exists scores,
        scores = ToJS.obj [("matter", a); ("manner", b); ("method", c); ("total", t)] /\
        outcome (cloudAnalyze req net) = inr (VObj (<["scores" := scores]> o)) /\
        prop (VObj (<["scores" := scores]> o)) "scores" = scores /\
        prop scores "matter" = a /\ prop scores "manner" = b /\
        prop scores "method" = c /\ prop scores "total" = t) /\
  (o !! "scores" = None -> JS.truthy (prop (VObj o) "scores") = false) /\
  (JS.truthy (prop (VObj o) "scores") = true ->
   outcome (cloudAnalyze req net) = inr (VObj o)) /\
  (forall s,
      o !! "scores" = Some (VObj s) ->
      outcome (cloudAnalyze req net) = inr (VObj o)).
Proof.
  intros Hnet. rewrite (cloudAnalyze_succeeded _ _ _ Hnet), normalize_object.
  unfold prop, JS.get.
  split; [| split; [| split]].
  - intros a b c t Hs Ha Hdef Hb Hc Ht.
    rewrite Hs, Ha, Hb, Hc, Ht. cbn [from_option id]. rewrite Hdef.
    eexists. split; [reflexivity |]. split; [reflexivity |].
    split; [rewrite lookup_insert_eq; reflexivity |].
    repeat split; vm_compute; reflexivity.
  - intros ->. reflexivity.
  - intros ->. reflexivity.
  - intros s Hs. rewrite Hs. reflexivity.
Qed.

Lemma remote_normalizes_flat_scores_witness :
  outcome (cloudAnalyze sample_request (Resolved 200 (Some (VObj flat_fields))))
  = inr (VObj (<["scores" := VObj flat_fields]> flat_fields))
  /\ outcome (cloudAnalyze sample_request (Resolved 200 (Some (VObj flat_fields_with_null))))
     = inr (VObj (<["scores" := VObj flat_fields]> flat_fields_with_null))
  /\ outcome (cloudAnalyze sample_request (Resolved 200 (Some (VObj nested_fields))))
     = inr (VObj nested_fields).
Proof.
  split; [| split].
  - destruct (remote_normalizes_flat_scores sample_request
                (Resolved 200 (Some (VObj flat_fields))) flat_fields eq_refl)
      as [H _].
    destruct (H (VNum 10) (VNum 5) (VNum 3) (VNum 18)
                eq_refl eq_refl eq_refl eq_refl eq_refl eq_refl)
      as (scores & -> & Hout & _).
    exact Hout.
  - destruct (remote_normalizes_flat_scores sample_request
                (Resolved 200 (Some (VObj flat_fields_with_null))) flat_fields_with_null
                eq_refl)
      as [H _].
    destruct (H (VNum 10) (VNum 5) (VNum 3) (VNum 18)
                eq_refl eq_refl eq_refl eq_refl eq_refl eq_refl)
      as (scores & -> & Hout & _).
    exact Hout.
  - destruct (remote_normalizes_flat_scores sample_request
                (Resolved 200 (Some (VObj nested_fields))) nested_fields eq_refl)
      as (_ & _ & _ & H).
    exact (H nested_scores eq_refl).
Defined.



(** C9: in the body that is posted, [uid] is ['demo-user'] when the
    request's [uid] is the empty string (as when it is absent), and
    [gcsUri] is [''] when the request's [gcsUri] is absent or empty;
    any other string is sent as it is. *)
Theorem request_body_placeholders (req : AnalyzeRequest) (net : FetchOutcome) :
  effects (cloudAnalyze req net) = [Post ANALYZE_URL (requestBody req)] /\
  let body := requestBody req in
  (Req.uid req = Some "" -> Body.uid body = "demo-user") /\
  (Req.uid req = None -> Body.uid body = "demo-user") /\
  (Req.gcsUri req = None \/ Req.gcsUri req = Some "" -> Body.gcsUri body = "") /\
  (forall s, s <> "" -> Req.uid req = Some s -> Body.uid body = s) /\
  (forall s, s <> "" -> Req.gcsUri req = Some s -> Body.gcsUri body = s) /\
  Body.sessionId body = Req.sessionId req /\ Body.motion body = Req.motion req /\
  Body.side body = Req.side req /\ Body.durationSec body = Req.durationSec req.
Proof.
  split; [apply cloudAnalyze_effects |].
  cbn zeta. unfold requestBody. cbn [Body.uid Body.gcsUri Body.sessionId Body.motion
                                      Body.side Body.durationSec].
  assert (Hne : forall s d, s <> "" -> JS.or_string (Some s) d = s).
  { intros s d Hs. unfold JS.or_string.
    destruct (String.eqb_spec s ""); [contradiction | reflexivity]. }
  repeat split.
  - intros ->. reflexivity.
  - intros ->. reflexivity.
  - intros [-> | ->]; reflexivity.
  - intros s Hs ->. apply Hne, Hs.
  - intros s Hs ->. apply Hne, Hs.
Qed.

Lemma request_body_placeholders_witness :
  Body.uid (requestBody anonymous_request) = "demo-user" /\
  Body.gcsUri (requestBody anonymous_request) = "".
Proof.
  destruct (request_body_placeholders anonymous_request Rejected)
    as (_ & Huid & _ & Hgcs & _).
  split; [apply Huid; reflexivity | apply Hgcs; left; reflexivity].
Defined.

(** C8, as stated, fails: a call that succeeds with the JSON body [null]
    (status 200) makes the remote analyzer throw, at [data.scores]. *)
Lemma remote_failure_iff_not_succeeded_fails :
  ~ (forall (req : AnalyzeRequest) (net : FetchOutcome),
        (exists e, outcome (cloudAnalyze req net) = inl e) <-> remote_result net = None).
Proof.
  intros H.
  destruct (H sample_request (Resolved 200 (Some VNull))) as [Hfail _].
  assert (Hnone : remote_result (Resolved 200 (Some VNull)) = None).
  { apply Hfail. exists TypeError. reflexivity. }
  discriminate Hnone.
Qed.

(** C8, amended: the remote analyzer fails exactly when the call does not
    succeed or the decoded body is [null].  A rejected [fetch], every
    status outside 200-299 and every body that is not JSON make it fail;
    every decoded body other than [null] yields a response. *)
Theorem remote_failure_characterised (req : AnalyzeRequest) (net : FetchOutcome) :
  ((exists e, outcome (cloudAnalyze req net) = inl e) <->
   (remote_result net = None \/
    exists data, remote_result net = Some data /\ nullish data = true)) /\
  (net = Rejected -> outcome (cloudAnalyze req net) = inl FetchRejected) /\
  (forall status body,
      net = Resolved status body -> response_ok status = false ->
      outcome (cloudAnalyze req net) = inl (CloudAnalyzeFailed status)) /\
  (forall status,
      net = Resolved status None -> response_ok status = true ->
      outcome (cloudAnalyze req net) = inl JsonRejected).
Proof.
  split; [| split; [| split]].
  - split.
    + intros [e He].
      destruct (remote_result net) as [data |] eqn:Hnet; [| left; reflexivity].
      right. exists data. split; [reflexivity |].
      rewrite (cloudAnalyze_succeeded _ _ _ Hnet) in He.
      destruct (nullish data) eqn:Hn; [reflexivity |].
      destruct (normalize_not_nullish data Hn) as [w Hw]. congruence.
    + intros [Hnone | (data & Hnet & Hn)].
      * apply cloudAnalyze_not_succeeded, Hnone.
      * exists TypeError.
        rewrite (cloudAnalyze_succeeded _ _ _ Hnet). apply normalize_nullish, Hn.
  - intros ->. reflexivity.
  - intros status body -> Hok. unfold cloudAnalyze.
    rewrite outcome_perform_then, Hok. reflexivity.
  - intros status -> Hok. unfold cloudAnalyze.
    rewrite outcome_perform_then, Hok. reflexivity.
Qed.

Lemma remote_failure_characterised_witness :
  outcome (cloudAnalyze sample_request (Resolved 503 (Some (VObj flat_fields))))
  = inl (CloudAnalyzeFailed 503)
  /\ outcome (cloudAnalyze sample_request (Resolved 200 None)) = inl JsonRejected
  /\ outcome (cloudAnalyze sample_request Rejected) = inl FetchRejected.
Proof.
  split; [| split].
  - destruct (remote_failure_characterised sample_request
                (Resolved 503 (Some (VObj flat_fields)))) as (_ & _ & H & _).
    exact (H 503 _ eq_refl eq_refl).
  - destruct (remote_failure_characterised sample_request (Resolved 200 None))
      as (_ & _ & _ & H).
    exact (H 200 eq_refl eq_refl).
  - destruct (remote_failure_characterised sample_request Rejected) as (_ & H & _).
    exact (H eq_refl).
Defined.

(** ** The adapter *)

Lemma try_catch_value {A} (m : M A) (h : Error -> M A) (a : A) :
  outcome m = inr a -> try_catch m h = m.
Proof. destruct m as [tr [e | a']]; cbn; [discriminate | reflexivity]. Qed.

Lemma try_catch_caught {A} (m : M A) (h : Error -> M A) (e : Error) :
  outcome m = inl e ->
  outcome (try_catch m h) = outcome (h e) /\
  effects (try_catch m h) = effects m ++ effects (h e).
Proof.
  destruct m as [tr [e' | a]]; cbn; [| discriminate].
  intros [= ->]. destruct (h e) as [tr' r]. split; reflexivity.
Qed.

Lemma analyze_mock req net rnd : analyze mock req net rnd = mockAnalyze req rnd.
Proof. reflexivity. Qed.

Lemma response_has_scores (r : AnalyzeResponse) :
  prop (ToJS.response r) "scores" = ToJS.scores (Resp.scores r).
Proof. vm_compute. reflexivity. Qed.

Lemma normalize_valid_response v :
  valid_response v -> outcome (normalize v) = inr v.
Proof.
  intros [r ->]. pose proof (response_has_scores r) as Hs.
  unfold ToJS.response, ToJS.obj in *. rewrite normalize_object.
  unfold prop, JS.get in Hs. rewrite Hs. reflexivity.
Qed.

Lemma analyze_caught req net rnd e :
  outcome (cloudAnalyze req net) = inl e ->
  outcome (analyze cloud req net rnd) = outcome (mockAnalyze req rnd) /\
  effects (analyze cloud req net rnd)
  = [Post ANALYZE_URL (requestBody req); Warn e; Timeout 800].
Proof.
  intros He. unfold analyze.
  destruct (try_catch_caught _ (fun e => perform (Warn e);; mockAnalyze req rnd) _ He)
    as [Ho Hf].
  rewrite Ho, Hf, cloudAnalyze_effects. split; reflexivity.
Qed.

Lemma analyze_passes_on req net rnd v :
  outcome (cloudAnalyze req net) = inr v ->
  analyze cloud req net rnd = cloudAnalyze req net.
Proof. intros Hv. unfold analyze. apply (try_catch_value _ _ _ Hv). Qed.

(** [analyze] always returns a value. *)
Lemma analyze_returns mode req net rnd :
  exists v, outcome (analyze mode req net rnd) = inr v.
Proof.
  destruct mode.
  - eexists. rewrite analyze_mock. apply mockAnalyze_outcome.
  - destruct (outcome (cloudAnalyze req net)) as [e | v] eqn:Hc.
    + eexists. rewrite (proj1 (analyze_caught req net rnd e Hc)).
      apply mockAnalyze_outcome.
    + exists v. rewrite (analyze_passes_on _ _ _ _ Hc). exact Hc.
Qed.

(** C1, as stated, fails: a call that succeeds with the JSON body
    [{"message":"Workflow was started"}] is not a failure of the remote
    analyzer, so nothing is logged and nothing is substituted; [analyze]
    hands that body to its caller, and it is not an [AnalyzeResponse]. *)
Lemma malformed_body_reaches_caller :
  remote_result (Resolved 200 (Some (VObj started_fields))) = Some (VObj started_fields) /\
  outcome (analyze cloud sample_request (Resolved 200 (Some (VObj started_fields)))
             sample_draws)
  = inr (VObj started_fields) /\
  effects (analyze cloud sample_request (Resolved 200 (Some (VObj started_fields)))
             sample_draws)
  = [Post ANALYZE_URL (requestBody sample_request)] /\
  outcome (analyze cloud sample_request (Resolved 200 (Some (VObj started_fields)))
             sample_draws)
  <> outcome (mockAnalyze sample_request sample_draws) /\
  ~ valid_response (VObj started_fields).
Proof.
  split; [reflexivity |]. split; [vm_compute; reflexivity |].
  split; [vm_compute; reflexivity |]. split.
  - intros H. apply (f_equal (fun r => match r with
                                       | inr v => prop v "message"
                                       | inl _ => VUndefined
                                       end)) in H.
    vm_compute in H. discriminate H.
  - intros [r Hr]. apply (f_equal (fun v => prop v "message")) in Hr.
    vm_compute in Hr. discriminate Hr.
Qed.

(** C1, amended: [analyze] never throws.  In cloud mode, when the remote
    analyzer throws (a rejected [fetch], a status outside 200-299, a body
    that is not JSON, the JSON body [null]), the error is logged and the
    caller gets the simulated analyzer's result for the same request, a
    valid [AnalyzeResponse].  When the call succeeds with any other JSON
    body, the caller gets what the remote analyzer made of that body,
    unchecked: the body itself unless the shim applies, a valid
    [AnalyzeResponse] if the body was one. *)
Theorem analyze_never_throws (mode : Mode) (req : AnalyzeRequest)
    (net : FetchOutcome) (rnd : Draws.t) :
  (exists v, outcome (analyze mode req net rnd) = inr v) /\
  (forall e,
      outcome (cloudAnalyze req net) = inl e ->
      outcome (analyze cloud req net rnd) = outcome (mockAnalyze req rnd) /\
      outcome (analyze cloud req net rnd) = inr (ToJS.response (mockResponse req rnd)) /\
      valid_response (ToJS.response (mockResponse req rnd)) /\
      effects (analyze cloud req net rnd)
      = [Post ANALYZE_URL (requestBody req); Warn e; Timeout 800]) /\
  (remote_result net = None -> exists e, outcome (cloudAnalyze req net) = inl e) /\
  (forall data,
      remote_result net = Some data -> nullish data = true ->
      outcome (cloudAnalyze req net) = inl TypeError) /\
  (forall v,
      outcome (cloudAnalyze req net) = inr v ->
      outcome (analyze cloud req net rnd) = inr v /\
      effects (analyze cloud req net rnd) = [Post ANALYZE_URL (requestBody req)]) /\
  (forall data,
      remote_result net = Some data -> nullish data = false ->
      exists v,
        outcome (cloudAnalyze req net) = inr v /\
        (JS.truthy (prop data "scores") = true \/
         JS.is_undefined (prop data "matter") = true -> v = data)) /\
  (forall data,
      remote_result net = Some data -> valid_response data ->
      outcome (analyze cloud req net rnd) = inr data).
Proof.
  split; [apply analyze_returns |]. split; [| split; [| split; [| split; [| split]]]].
  - intros e He. destruct (analyze_caught req net rnd e He) as [Ho Hf].
    split; [exact Ho |]. split; [rewrite Ho; apply mockAnalyze_outcome |].
    split; [eexists; reflexivity | exact Hf].
  - apply cloudAnalyze_not_succeeded.
  - intros data Hnet Hn.
    rewrite (cloudAnalyze_succeeded _ _ _ Hnet). apply normalize_nullish, Hn.
  - intros v Hv. rewrite (analyze_passes_on _ _ _ _ Hv).
    split; [exact Hv | apply cloudAnalyze_effects].
  - intros data Hnet Hn. rewrite (cloudAnalyze_succeeded _ _ _ Hnet).
    destruct data as [| | b | q | s | l | o]; try discriminate Hn.
    1-4: eexists; split; [apply normalize_other; [reflexivity | discriminate] | reflexivity].
    rewrite normalize_object. unfold prop, JS.get.
    eexists. split; [reflexivity |].
    intros [-> | Hm]; [reflexivity |].
    destruct (JS.truthy _); [reflexivity |]. rewrite Hm. reflexivity.
  - intros data Hnet Hvalid.
    assert (Hv : outcome (cloudAnalyze req net) = inr data).
    { rewrite (cloudAnalyze_succeeded _ _ _ Hnet).
      apply normalize_valid_response, Hvalid. }
    rewrite (analyze_passes_on _ _ _ _ Hv). exact Hv.
Qed.

Lemma analyze_never_throws_witness :
  outcome (analyze cloud sample_request (Resolved 503 None) sample_draws)
  = inr (ToJS.response (mockResponse sample_request sample_draws))
  /\ effects (analyze cloud sample_request (Resolved 503 None) sample_draws)
     = [Post ANALYZE_URL (requestBody sample_request); Warn (CloudAnalyzeFailed 503);
        Timeout 800]
  /\ outcome (analyze cloud sample_request (Resolved 200 (Some (VStr "ok"))) sample_draws)
     = inr (VStr "ok").
Proof.
  destruct (analyze_never_throws cloud sample_request (Resolved 503 None) sample_draws)
    as (_ & H & _).
  destruct (H (CloudAnalyzeFailed 503) eq_refl) as (_ & Ho & _ & Hf).
  split; [exact Ho |]. split; [exact Hf |].
  destruct (analyze_never_throws cloud sample_request (Resolved 200 (Some (VStr "ok")))
              sample_draws) as (_ & _ & _ & _ & H' & _).
  exact (proj1 (H' (VStr "ok") eq_refl)).
Defined.

(** ** The page *)

Lemma run_snoc st tr a :
  run st (tr ++ [a]) = st' ← run st tr; step st' a.
Proof.
  revert st. induction tr as [| b tr IH]; intros st; cbn.
  - destruct (step st a); reflexivity.
  - destruct (step st b) as [st1 |]; cbn; [apply IH | reflexivity].
Qed.

(** A property that holds initially and that every step keeps holds in
    every state of every run. *)
Lemma run_invariant (P : App.t -> Prop) :
  (forall st a st', P st -> step st a = Some st' -> P st') ->
  forall tr st st', P st -> run st tr = Some st' -> P st'.
Proof.
  intros Hstep tr. induction tr as [| a tr IH]; intros st st' HP Hrun; cbn in Hrun.
  - injection Hrun as <-. exact HP.
  - destruct (step st a) as [st1 |] eqn:Hs; cbn in Hrun; [| discriminate].
    exact (IH st1 st' (Hstep st a st1 HP Hs) Hrun).
Qed.

Lemma Screen_eqb_eq a b : Screen_eqb a b = true <-> a = b.
Proof. destruct a, b; cbn; split; congruence. Qed.

(** Case analysis on an enabled step. *)
Ltac step_cases Hs :=
  match type of Hs with
  | step ?st ?a = Some _ =>
      destruct a; cbn [step] in Hs;
      repeat match type of Hs with
        | context [Screen_eqb ?a ?b] =>
            let He := fresh "Hexit" in destruct (Screen_eqb a b) eqn:He
        | context [App.practice st] =>
            let Hp := fresh "Hp" in
            destruct (App.practice st) as [?p |] eqn:Hp; cbn [mbind option_bind] in Hs
        | context [App.shown st] =>
            let Hc := fresh "Hshown" in
            destruct (App.shown st) eqn:Hc
        | context [Practice.isRecording ?p] =>
            let Hr := fresh "Hrec" in destruct (Practice.isRecording p) eqn:Hr
        | context [Practice.timerRef ?p] =>
            let Ht := fresh "Htimer" in destruct (Practice.timerRef p) eqn:Ht
        | context [Practice.loading ?p] =>
            let Hl := fresh "Hload" in destruct (Practice.loading p) eqn:Hl
        | context [App.inflight st !! ?i] =>
            let Hi := fresh "Hcall" in
            destruct (App.inflight st !! i) as [?c |] eqn:Hi; cbn [mbind option_bind] in Hs
        end;
      try discriminate Hs;
      try (injection Hs as <-)
  end.

(** A setter of the instance [k] finds no [Practice] mounted, or another
    instance, or its own. *)
Lemma updateInstance_cases k f st :
  (App.practice st = None /\ updateInstance k f st = st) \/
  (exists p, App.practice st = Some p /\ Practice.instance p <> k /\
             updateInstance k f st = st) \/
  (exists p, App.practice st = Some p /\ Practice.instance p = k /\
             updateInstance k f st = setPractice (f p) st).
Proof.
  unfold updateInstance. destruct (App.practice st) as [p |] eqn:Hp; [| left; split; reflexivity].
  right. destruct (Nat.eqb_spec (Practice.instance p) k) as [E | E];
    [right | left]; exists p; repeat split; assumption.
Qed.

Lemma updateInstance_frame k f st :
  App.screen (updateInstance k f st) = App.screen st /\
  App.sessionId (updateInstance k f st) = App.sessionId st /\
  App.analysis (updateInstance k f st) = App.analysis st /\
  App.mode (updateInstance k f st) = App.mode st /\
  App.shown (updateInstance k f st) = App.shown st /\
  App.mounted (updateInstance k f st) = App.mounted st /\
  App.inflight (updateInstance k f st) = App.inflight st.
Proof.
  unfold updateInstance. destruct (App.practice st) as [p |]; [| repeat split].
  destruct (Nat.eqb (Practice.instance p) k); repeat split.
Qed.

Lemma wired_init : wired App.init.
Proof. split; [intros p [=] | constructor]. Qed.

Lemma wired_setPractice p st :
  Practice.mode p = DEFAULT_MODE -> wired st -> wired (setPractice p st).
Proof. intros Hm [_ Hc]. split; cbn; [intros q [= <-]; exact Hm | exact Hc]. Qed.

Lemma wired_setInflight l st :
  Forall (fun c => Call.mode c = DEFAULT_MODE /\ Req.sessionId (Call.req c) = Call.sid c) l ->
  wired st -> wired (setInflight l st).
Proof. intros Hl [Hp _]. split; cbn; [exact Hp | exact Hl]. Qed.

Lemma wired_updateInstance k f st :
  (forall p, Practice.mode (f p) = Practice.mode p) ->
  wired st -> wired (updateInstance k f st).
Proof.
  intros Hf Hw. unfold updateInstance.
  destruct (App.practice st) as [p |] eqn:Hp; [| exact Hw].
  destruct (Nat.eqb (Practice.instance p) k); [| exact Hw].
  apply wired_setPractice; [| exact Hw]. rewrite Hf. exact (proj1 Hw p Hp).
Qed.

Lemma wired_step st a st' : wired st -> step st a = Some st' -> wired st'.
Proof.
  intros Hw Hs. pose proof Hw as [Hp Hc]. step_cases Hs.
  - split; cbn; assumption.
  - split; cbn; assumption.
  - split; cbn; assumption.
  - apply wired_setPractice; [cbn; auto | exact Hw].
  - apply wired_setPractice; [cbn; auto | exact Hw].
  - apply wired_setPractice; [cbn; auto | exact Hw].
  - apply wired_setPractice; [cbn; auto | exact Hw].
  - apply wired_setPractice; [cbn; auto | exact Hw].
  - unfold onAnalyzeClick. apply wired_setInflight.
    + apply Forall_app. split; [exact Hc |]. constructor; [| constructor].
      cbn. split; [auto | reflexivity].
    + apply wired_setPractice; [cbn; auto | exact Hw].
  - assert (Hw' : wired (setInflight (delete i (App.inflight st)) st)).
    { apply wired_setInflight; [| exact Hw]. apply Forall_delete, Hc. }
    unfold resume.
    destruct (outcome (analyze (Call.mode c) (Call.req c) net rnd)) as [e | resp];
      apply wired_updateInstance; try reflexivity; [exact Hw' |].
    destruct Hw' as [Hp' Hc']. split; cbn; assumption.
  - split; cbn; [| exact Hc].
    destruct (App.screen st); intros q [=]; subst; reflexivity.
Qed.

(** Every call that [Practice] has issued runs in cloud mode, and asks for
    the session identifier that travels with it. *)
Lemma reachable_wired tr st : run App.init tr = Some st -> wired st.
Proof. apply run_invariant; [exact wired_step | exact wired_init]. Qed.

Lemma well_mounted_setPractice p q st :
  App.practice st = Some q -> 0 <= Practice.seconds p ->
  well_mounted st -> well_mounted (setPractice p st).
Proof.
  intros Hq Hp [Hm _]. split; cbn.
  - rewrite Hm, Hq. split; discriminate.
  - intros r [= <-]. exact Hp.
Qed.

Lemma well_mounted_updateInstance k f st :
  (forall p, Practice.seconds (f p) = Practice.seconds p) ->
  well_mounted st -> well_mounted (updateInstance k f st).
Proof.
  intros Hf Hw. unfold updateInstance.
  destruct (App.practice st) as [p |] eqn:Hp; [| exact Hw].
  destruct (Nat.eqb (Practice.instance p) k); [| exact Hw].
  apply (well_mounted_setPractice _ p); [exact Hp | | exact Hw].
  rewrite Hf. exact (proj2 Hw p Hp).
Qed.

Lemma well_mounted_step st a st' : well_mounted st -> step st a = Some st' -> well_mounted st'.
Proof.
  intros Hw Hs. pose proof Hw as [Hm Hsec]. step_cases Hs.
  - split; cbn; assumption.
  - split; cbn; assumption.
  - split; cbn; [rewrite Hshown |]; assumption.
  - eapply well_mounted_setPractice; eauto. cbn. auto.
  - eapply well_mounted_setPractice; eauto. cbn. auto.
  - eapply well_mounted_setPractice; eauto. cbn. lia.
  - eapply well_mounted_setPractice; eauto. cbn. auto.
  - eapply well_mounted_setPractice; eauto. cbn. specialize (Hsec _ eq_refl). lia.
  - unfold onAnalyzeClick.
    assert (H : well_mounted (setPractice (setLoadingError true None p) st))
      by (eapply well_mounted_setPractice; eauto; cbn; auto).
    destruct H as [H1 H2]. split; cbn in *; assumption.
  - assert (Hw' : well_mounted (setInflight (delete i (App.inflight st)) st))
      by (split; cbn; assumption).
    unfold resume.
    destruct (outcome (analyze (Call.mode c) (Call.req c) net rnd)) as [e | resp];
      apply well_mounted_updateInstance; try reflexivity; [exact Hw' |].
    destruct Hw' as [H1 H2]. split; cbn in *; assumption.
  - split; cbn.
    + destruct (App.screen st); split; try discriminate; try reflexivity;
        intros H; contradiction.
    + destruct (App.screen st); intros q [=]; subst; cbn; lia.
Qed.

Lemma well_mounted_init : well_mounted App.init.
Proof. split; cbn; [split; [discriminate | intros H; contradiction] | intros p [=]]. Qed.

Lemma reachable_well_mounted tr st : run App.init tr = Some st -> well_mounted st.
Proof. apply run_invariant; [exact well_mounted_step | exact well_mounted_init]. Qed.

Lemma timer_at_rest_updateInstance k f st :
  (forall p, Practice.seconds (f p) = Practice.seconds p /\
             Practice.timerRef (f p) = Practice.timerRef p) ->
  timer_at_rest st -> timer_at_rest (updateInstance k f st).
Proof.
  intros Hf Hr q Hq.
  destruct (updateInstance_cases k f st)
    as [[_ E] | [(p & _ & _ & E) | (p & Hp & _ & E)]]; rewrite E in Hq.
  - exact (Hr q Hq).
  - exact (Hr q Hq).
  - injection Hq as <-. destruct (Hf p) as [-> ->]. exact (Hr p Hp).
Qed.

Lemma timer_at_rest_step st a st' :
  timer_at_rest st -> is_record a = false -> step st a = Some st' -> timer_at_rest st'.
Proof.
  intros Hr Ha Hs. unfold timer_at_rest in *. step_cases Hs; try discriminate Ha.
  - cbn. exact Hr.
  - cbn. exact Hr.
  - cbn. exact Hr.
  - cbn. intros q [= <-]. cbn. auto.
  - cbn. intros q [= <-]. cbn. auto.
  - cbn. intros q [= <-]. cbn. destruct (Hr _ eq_refl). auto.
  - destruct (Hr _ eq_refl) as [_ Hnone]. congruence.
  - cbn. intros q [= <-]. cbn. auto.
  - unfold resume.
    destruct (outcome (analyze (Call.mode c) (Call.req c) net rnd)) as [e | resp];
      apply timer_at_rest_updateInstance; try (intros; split; reflexivity);
      cbn; exact Hr.
  - cbn. destruct (App.screen st); intros q [=]; subst; cbn; auto.
Qed.

(** While the stopwatch has never been started, it shows zero. *)
Lemma timer_at_rest_run tr : forall st st',
  timer_at_rest st -> timer_ran tr = false -> run st tr = Some st' -> timer_at_rest st'.
Proof.
  induction tr as [| a tr IH]; intros st st' Hr Hn Hrun; cbn in Hrun.
  - injection Hrun as <-. exact Hr.
  - cbn in Hn. apply orb_false_iff in Hn as [Ha Hn].
    destruct (step st a) as [st1 |] eqn:Hs; cbn in Hrun; [| discriminate].
    exact (IH st1 st' (timer_at_rest_step _ _ _ Hr Ha Hs) Hn Hrun).
Qed.

Lemma timer_at_rest_init : timer_at_rest App.init.
Proof. intros p [=]. Qed.

Lemma submit_enabled st p suffix :
  App.practice st = Some p -> Practice.loading p = false ->
  step st (ClickAnalyze suffix) = Some (onAnalyzeClick suffix p st).
Proof. intros Hp Hl. cbn [step]. rewrite Hp. cbn. rewrite Hl. reflexivity. Qed.

(** What the completion of a call does to [App]'s state. *)
Lemma settle_app st i c net rnd resp :
  App.inflight st !! i = Some c ->
  outcome (analyze (Call.mode c) (Call.req c) net rnd) = inr resp ->
  exists st',
    step st (Settle i net rnd) = Some st' /\
    App.screen st' = session /\
    App.sessionId st' = Call.sid c /\
    App.analysis st' = Some resp /\
    App.shown st' = App.shown st /\
    App.inflight st' = delete i (App.inflight st).
Proof.
  intros Hc Hresp. eexists.
  split; [cbn [step]; rewrite Hc; cbn; unfold resume; rewrite Hresp; reflexivity |].
  destruct (updateInstance_frame (Call.caller c)
              (fun p => setLoadingError false (Practice.error p) p)
              (onAnalyzed (Call.sid c) resp (setInflight (delete i (App.inflight st)) st)))
    as (-> & -> & -> & _ & -> & _ & ->).
  repeat split.
Qed.

(** C6: the page starts on Dashboard; "start practice" there makes
    Practice the active screen, and Practice is on the page once
    Dashboard's exit animation has finished; a submission on Practice
    starts a call under a fresh session identifier and leaves the screen
    as it is; and when a call completes, Session becomes the active
    screen, holding that call's session identifier and the response
    [analyze] produced, which is what Session is rendered from. *)
Theorem screen_transitions :
  App.screen App.init = dashboard /\
  (exists st st',
      step App.init ClickStartPractice = Some st /\ App.screen st = practice /\
      step st ExitComplete = Some st' /\ App.screen st' = practice /\
      App.shown st' = practice /\ App.practice st' = Some (Practice.init 0)) /\
  (forall tr st p suffix,
      run App.init tr = Some st ->
      App.practice st = Some p -> Practice.loading p = false ->
      exists st1 c,
        step st (ClickAnalyze suffix) = Some st1 /\
        App.screen st1 = App.screen st /\
        App.inflight st1 = App.inflight st ++ [c] /\
        Call.sid c = newSessionId suffix /\
        Req.sessionId (Call.req c) = newSessionId suffix) /\
  (forall tr st i c net rnd,
      run App.init tr = Some st ->
      App.inflight st !! i = Some c ->
      exists st' resp,
        step st (Settle i net rnd) = Some st' /\
        outcome (analyze (Call.mode c) (Call.req c) net rnd) = inr resp /\
        App.screen st' = session /\
        App.sessionId st' = Call.sid c /\
        App.analysis st' = Some resp /\
        Req.sessionId (Call.req c) = Call.sid c /\
        sessionView st' = renderSession (Call.sid c) (Some resp)).
Proof.
  split; [reflexivity |].
  split; [do 2 eexists; repeat split; reflexivity |]. split.
  - intros tr st p suffix Hrun Hp Hl.
    exists (onAnalyzeClick suffix p st). eexists.
    split; [apply submit_enabled; assumption |].
    repeat split; reflexivity.
  - intros tr st i c net rnd Hrun Hc.
    destruct (reachable_wired _ _ Hrun) as [_ Hcalls].
    rewrite Forall_lookup in Hcalls. destruct (Hcalls i c Hc) as [_ Hsid].
    destruct (analyze_returns (Call.mode c) (Call.req c) net rnd) as [resp Hresp].
    destruct (settle_app st i c net rnd resp Hc Hresp)
      as (st' & Hstep & Hscreen & Hid & Han & _).
    exists st', resp.
    split; [exact Hstep |]. split; [exact Hresp |]. split; [exact Hscreen |].
    split; [exact Hid |]. split; [exact Han |]. split; [exact Hsid |].
    unfold sessionView. rewrite Hid, Han. reflexivity.
Qed.

Lemma screen_transitions_witness :
  exists st,
    run App.init (open_then_submit ++ [Settle 0 (Resolved 500 None) sample_draws]) = Some st /\
    App.screen st = session /\
    App.sessionId st = "sess_k3x9qa" /\
    App.analysis st
    = Some (ToJS.response
              (mockResponse
                 {| Req.sessionId := "sess_k3x9qa";
                    Req.motion := Practice.motionTxt (Practice.init 0);
                    Req.side := OG; Req.durationSec := 420; Req.gcsUri := None;
                    Req.audioBlobUrl := None; Req.uid := Some "demo-user" |}
                 sample_draws)).
Proof.
  destruct screen_transitions as (_ & _ & _ & H).
  destruct (H open_then_submit
              (onAnalyzeClick "k3x9qa" (Practice.init 0) practice_open)
              0%nat _ (Resolved 500 None) sample_draws eq_refl eq_refl)
    as (st' & resp & Hstep & Hresp & Hscreen & Hsid & Han & _).
  exists st'. rewrite run_snoc.
  split; [exact Hstep |]. split; [exact Hscreen |]. split; [exact Hsid |].
  rewrite Han. f_equal. injection Hresp as <-. reflexivity.
Defined.

(** C7, as stated, fails: after Record and before the first tick the
    stopwatch has run and shows 0 elapsed seconds, yet the request says
    420. *)
Lemma submit_while_recording_sends_420 :
  exists st p st' c,
    run App.init record_then_submit = Some st /\
    timer_ran record_then_submit = true /\
    App.practice st = Some p /\
    Practice.isRecording p = true /\ Practice.timerRef p = Some 1%positive /\
    Practice.seconds p = 0 /\
    step st (ClickAnalyze "k3x9qa") = Some st' /\
    App.inflight st' = [c] /\
    Req.durationSec (Call.req c) = 420%Q /\
    ~ (Req.durationSec (Call.req c)
       == elapsed_or_default (timer_ran record_then_submit) (Practice.seconds p))%Q.
Proof.
  do 4 eexists.
  split; [reflexivity |]. split; [reflexivity |]. split; [reflexivity |].
  split; [reflexivity |]. split; [reflexivity |]. split; [reflexivity |].
  split; [reflexivity |]. split; [reflexivity |]. split; [reflexivity |].
  intros H. vm_compute in H. discriminate H.
Qed.

(** The same after a restart: the stopwatch has counted two seconds, was
    stopped and started again, and the request says 420. *)
Example submit_after_restart_sends_420 :
  exists st p st' c,
    run App.init restart_then_submit = Some st /\
    App.practice st = Some p /\
    Practice.isRecording p = true /\ Practice.seconds p = 0 /\
    step st (ClickAnalyze "k3x9qa") = Some st' /\
    App.inflight st' = [c] /\
    Req.durationSec (Call.req c) = 420%Q.
Proof. do 4 eexists. repeat split; reflexivity. Qed.

(** C7, amended: the request of a submission carries the identifier
    generated at the click, the current motion text and the selected side,
    and its [durationSec] is the stopwatch's value, or 420 exactly when
    that value is 0.  The value is 0 when the stopwatch never ran, and
    also when it was started and has not ticked yet. *)
Theorem submit_builds_request (tr : list Action) (st : App.t) (p : Practice.t)
    (suffix : string) :
  run App.init tr = Some st ->
  App.practice st = Some p ->
  Practice.loading p = false ->
  exists st' c,
    step st (ClickAnalyze suffix) = Some st' /\
    App.inflight st' = App.inflight st ++ [c] /\
    Call.sid c = newSessionId suffix /\
    Req.sessionId (Call.req c) = newSessionId suffix /\
    Req.motion (Call.req c) = Practice.motionTxt p /\
    Req.side (Call.req c) = Practice.side p /\
    Req.durationSec (Call.req c)
    = inject_Z (if Practice.seconds p =? 0 then 420 else Practice.seconds p) /\
    0 <= Practice.seconds p /\
    (timer_ran tr = false -> Practice.seconds p = 0 /\ Req.durationSec (Call.req c) = 420%Q).
Proof.
  intros Hrun Hp Hl.
  exists (onAnalyzeClick suffix p st).
  exists {| Call.sid := newSessionId suffix;
            Call.req := buildRequest (newSessionId suffix) p;
            Call.mode := Practice.mode p; Call.caller := Practice.instance p |}.
  split; [apply submit_enabled; assumption |].
  cbn [Call.sid Call.req buildRequest Req.sessionId Req.motion Req.side Req.durationSec].
  do 6 (split; [reflexivity |]).
  split.
  - destruct (reachable_well_mounted _ _ Hrun) as [_ Hsec]. exact (Hsec p Hp).
  - intros Hnever.
    destruct (timer_at_rest_run tr _ _ timer_at_rest_init Hnever Hrun p Hp) as [H0 _].
    split; [exact H0 |]. rewrite H0. reflexivity.
Qed.

Lemma submit_builds_request_witness :
  exists st' c,
    step (setPractice
            (stop (tick (tick (start 1 (Practice.init 0)))))
            practice_open)
         (ClickAnalyze "k3x9qa") = Some st' /\
    App.inflight st' = [c] /\
    Req.sessionId (Call.req c) = "sess_k3x9qa" /\
    Req.durationSec (Call.req c) = 2%Q.
Proof.
  destruct (submit_builds_request two_seconds
              (setPractice (stop (tick (tick (start 1 (Practice.init 0)))))
                 practice_open)
              (stop (tick (tick (start 1 (Practice.init 0)))))
              "k3x9qa" eq_refl eq_refl eq_refl)
    as (st' & c & Hstep & Hin & _ & Hsid & _ & _ & Hd & _).
  exists st', c. split; [exact Hstep |]. split; [exact Hin |].
  split; [exact Hsid | exact Hd].
Defined.

(** ** The mode toggle *)

Lemma analyze_mock_is_local req net rnd :
  remote_calls (analyze mock req net rnd) = 0%nat.
Proof. reflexivity. Qed.

Lemma analyze_cloud_is_remote req net rnd :
  remote_calls (analyze cloud req net rnd) = 1%nat.
Proof.
  unfold remote_calls.
  destruct (outcome (cloudAnalyze req net)) as [e | v] eqn:Hc.
  - rewrite (proj2 (analyze_caught req net rnd e Hc)). reflexivity.
  - rewrite (analyze_passes_on _ _ _ _ Hc), cloudAnalyze_effects. reflexivity.
Qed.

(** C2 at its failing input: the user flips the toggle, so that the
    indicator reads MOCK, opens Practice and submits.  The call that
    [Practice] starts is in cloud mode and posts to the remote service: the
    toggle writes [App]'s adapter cell, and [Practice] reads its own. *)
Theorem toggle_does_not_reach_practice :
  exists st c,
    run App.init toggle_then_submit = Some st /\
    App.mode st = mock /\
    App.inflight st = [c] /\
    Call.mode c = cloud /\
    (forall net rnd, remote_calls (analyze (Call.mode c) (Call.req c) net rnd) = 1%nat) /\
    (forall net rnd, remote_calls (analyze (App.mode st) (Call.req c) net rnd) = 0%nat).
Proof.
  do 2 eexists.
  split; [reflexivity |]. split; [reflexivity |]. split; [reflexivity |].
  split; [reflexivity |]. split; intros net rnd.
  - apply analyze_cloud_is_remote.
  - apply analyze_mock_is_local.
Qed.

(** Whatever the user does, every call that [Practice] starts is in cloud
    mode and issues one remote call, whatever the indicator shows. *)
Theorem practice_calls_are_always_remote (tr : list Action) (st : App.t) :
  run App.init tr = Some st ->
  forall i c, App.inflight st !! i = Some c ->
    Call.mode c = cloud /\
    forall net rnd, remote_calls (analyze (Call.mode c) (Call.req c) net rnd) = 1%nat.
Proof.
  intros Hrun i c Hc.
  destruct (reachable_wired _ _ Hrun) as [_ Hcalls].
  rewrite Forall_lookup in Hcalls. destruct (Hcalls i c Hc) as [Hmode _].
  split; [exact Hmode |]. intros net rnd. rewrite Hmode.
  apply analyze_cloud_is_remote.
Qed.

Lemma practice_calls_are_always_remote_witness :
  remote_calls
    (analyze cloud (buildRequest "sess_k3x9qa" (Practice.init 0))
       (Resolved 200 (Some (VObj flat_fields))) sample_draws) = 1%nat.
Proof.
  destruct (practice_calls_are_always_remote toggle_then_submit _ eq_refl 0%nat _ eq_refl)
    as [_ H].
  exact (H (Resolved 200 (Some (VObj flat_fields))) sample_draws).
Defined.

(** ** Further properties of the simulated analyzer *)

Lemma mul_int_bounds r c :
  F64.is_random r = true -> 0 <= c ->
  0 <= F64.mul_int r c <= F64.mul_int F64.pred_one c.
Proof.
  intros Hr Hc. apply F64Facts.random_le_pred_one in Hr. unfold F64.mul_int. split.
  - apply F64Facts.round53_nonneg. nia.
  - apply F64Facts.round53_mono. nia.
Qed.

Lemma round_mono x y : x <= y -> F64.round x <= F64.round y.
Proof.
  intros H. unfold F64.round. apply Z.div_le_mono; [reflexivity | lia].
Qed.

Lemma toFixed2_mono x y : x <= y -> F64.toFixed2 x <= F64.toFixed2 y.
Proof.
  intros H. unfold F64.toFixed2. apply Z.div_le_mono; [reflexivity | lia].
Qed.

(** Reading hundredths back: monotone, and exact at 0.00 and 2.00. *)
Lemma of_hundredths_mono n m :
  0 <= n -> n <= m -> F64Div.of_hundredths n <= F64Div.of_hundredths m.
Proof.
  intros Hn Hle. unfold F64Div.of_hundredths.
  assert (0 < F64.one) by reflexivity.
  apply F64DivFacts.round_quot_mono; nia.
Qed.

Lemma of_hundredths_0 : F64Div.of_hundredths 0 = 0.
Proof. reflexivity. Qed.

Lemma of_hundredths_200 : F64Div.of_hundredths 200 = F64.of_int 2.
Proof.
  unfold F64Div.of_hundredths.
  replace (200 * F64.one) with (F64.of_int 2 * 100) by (unfold F64.of_int; ring).
  apply F64DivFacts.round_quot_exact; [discriminate | lia | vm_compute; reflexivity].
Qed.

Lemma to_Q_between x k :
  0 <= x <= F64.of_int k -> (0 <= F64.to_Q x <= inject_Z k)%Q.
Proof.
  intros [H0 Hk]. unfold F64.to_Q, F64.of_int in *.
  assert (Hone : Z.pos (Z.to_pos F64.one) = F64.one) by reflexivity.
  split; rewrite Qred_correct; unfold Qle, inject_Z; cbn [Qnum Qden]; rewrite ?Hone; lia.
Qed.

(** The delivery figures of the simulated analyzer, whatever
    [Math.random()] returns: [wpm] is a whole number from 120 to 200, and
    [fillerPerMin] is a double from 0 to 2, the one nearest to a number of
    hundredths from 0.00 to 2.00, both ends included.  (At the largest
    double below 1 the sum 120 + r*80 rounds to 200, and r*2 prints as
    2.00.) *)
Theorem mock_delivery_in_range (req : AnalyzeRequest) (rnd : Draws.t) :
  Draws.valid rnd = true ->
  exists w f : Z,
    Resp.delivery (mockResponse req rnd)
    = {| Delivery.wpm := inject_Z w;
         Delivery.fillerPerMin := F64.to_Q (F64Div.of_hundredths f) |} /\
    120 <= w <= 200 /\ 0 <= f <= 200 /\
    F64.representable (F64Div.of_hundredths f) = true /\
    0 <= F64Div.of_hundredths f <= F64.of_int 2 /\
    (0 <= Delivery.fillerPerMin (Resp.delivery (mockResponse req rnd)) <= 2)%Q.
Proof.
  unfold Draws.valid. rewrite !andb_true_iff.
  intros [[_ Hw] Hf].
  destruct (mul_int_bounds _ 80 Hw ltac:(lia)) as [Hw0 Hw1].
  destruct (mul_int_bounds _ 2 Hf ltac:(lia)) as [Hf0 Hf1].
  set (f := F64.toFixed2 (F64.mul_int (Draws.filler rnd) 2)).
  assert (Hfr : 0 <= f <= 200).
  { split.
    - apply Z.le_trans with (F64.toFixed2 0); [vm_compute; discriminate |].
      apply toFixed2_mono, Hf0.
    - apply Z.le_trans with (F64.toFixed2 (F64.mul_int F64.pred_one 2));
        [| vm_compute; discriminate].
      apply toFixed2_mono, Hf1. }
  assert (Hv : 0 <= F64Div.of_hundredths f <= F64.of_int 2).
  { rewrite <- of_hundredths_0 at 1. rewrite <- of_hundredths_200.
    split; apply of_hundredths_mono; lia. }
  exists (F64.round (F64.add_int 120 (F64.mul_int (Draws.wpm rnd) 80))), f.
  split; [reflexivity |]. split; [split |].
  - apply Z.le_trans with (F64.round (F64.add_int 120 0)); [vm_compute; discriminate |].
    apply round_mono, F64Facts.round53_mono. lia.
  - apply Z.le_trans with (F64.round (F64.add_int 120 (F64.mul_int F64.pred_one 80)));
      [| vm_compute; discriminate].
    apply round_mono, F64Facts.round53_mono. lia.
  - split; [exact Hfr |]. split; [| split; [exact Hv |]].
    + unfold F64.representable. apply andb_true_intro. split; [apply Z.leb_le, Hv |].
      apply Z.eqb_eq. unfold F64Div.of_hundredths.
      assert (0 < F64.one) by reflexivity.
      apply F64DivFacts.round_quot_representable; nia.
    + exact (to_Q_between _ 2 Hv).
Qed.

Lemma mock_delivery_in_range_witness :
  exists w f : Z,
    Resp.delivery (mockResponse sample_request sample_draws)
    = {| Delivery.wpm := inject_Z w;
         Delivery.fillerPerMin := F64.to_Q (F64Div.of_hundredths f) |} /\
    120 <= w <= 200 /\ 0 <= f <= 200.
Proof.
  destruct (mock_delivery_in_range sample_request sample_draws) as (w & f & H1 & H2 & H3 & _);
    [vm_compute; reflexivity |].
  exists w, f. split; [exact H1 |]. split; [exact H2 | exact H3].
Defined.

(** Both ends of both ranges are reached. *)
Example mock_delivery_extremes :
  Resp.delivery (mockResponse sample_request (Draws.mk 0 0 0 0 0))
  = {| Delivery.wpm := 120; Delivery.fillerPerMin := 0 |}
  /\ Resp.delivery (mockResponse sample_request
                      (Draws.mk 0 0 0 F64.pred_one F64.pred_one))
     = {| Delivery.wpm := 200; Delivery.fillerPerMin := 2 |}.
Proof. split; vm_compute; reflexivity. Qed.

(** In between, the number is not the decimal that was printed: for the
    draw 0.065, [toFixed(2)] prints 0.13 and [fillerPerMin] is the double
    1170935903116329 / 2^53, a little above thirteen hundredths.  The
    Standard Library's division of 13 by 100 gives the same double. *)
Example mock_filler_is_a_double :
  F64.is_random (F64Div.div (F64.of_int 65) (F64.of_int 1000)) = true /\
  F64.toFixed2 (F64.mul_int (F64Div.div (F64.of_int 65) (F64.of_int 1000)) 2) = 13 /\
  Delivery.fillerPerMin
    (Resp.delivery
       (mockResponse sample_request
          (Draws.mk 0 0 0 0 (F64Div.div (F64.of_int 65) (F64.of_int 1000)))))
  = (1170935903116329 # 9007199254740992)%Q /\
  ~ (1170935903116329 # 9007199254740992 == 13 # 100)%Q /\
  F64.to_spec_float (F64Div.of_hundredths 13)
  = SFdiv 53 1024 (F64.to_spec_float (F64.of_int 13)) (F64.to_spec_float (F64.of_int 100)).
Proof.
  split; [vm_compute; reflexivity |]. split; [vm_compute; reflexivity |].
  split; [vm_compute; reflexivity |]. split; [| vm_compute; reflexivity].
  intros H. vm_compute in H. discriminate H.
Qed.

(** At the upper end the model's sum is the Standard Library's. *)
Example agrees_with_SFadd_at_pred_one :
  SFadd 53 1024 (F64.to_spec_float (F64.of_int 120))
    (SFmul 53 1024 (F64.to_spec_float F64.pred_one) (F64.to_spec_float (F64.of_int 80)))
  = F64.to_spec_float (F64.add_int 120 (F64.mul_int F64.pred_one 80))
  /\ F64.add_int 120 (F64.mul_int F64.pred_one 80) = F64.of_int 200.
Proof. split; vm_compute; reflexivity. Qed.

(** ** Further properties of the remote analyzer *)

Lemma normalize_fixed_point data v :
  outcome (normalize data) = inr v -> outcome (normalize v) = inr v.
Proof.
  intros H.
  destruct (nullish data) eqn:Hn;
    [rewrite (normalize_nullish _ Hn) in H; discriminate |].
  destruct data as [| | b | q | s | l | o]; try discriminate Hn.
  1-4: rewrite normalize_other in H by (reflexivity || discriminate);
       injection H as <-; apply normalize_other; [reflexivity | discriminate].
  rewrite normalize_object in H.
  destruct (JS.truthy (default VUndefined (o !! "scores"))) eqn:Hs.
  - injection H as <-. rewrite normalize_object, Hs. reflexivity.
  - destruct (JS.is_undefined (default VUndefined (o !! "matter"))) eqn:Hm.
    + injection H as <-. rewrite normalize_object, Hs, Hm. reflexivity.
    + injection H as <-. rewrite normalize_object, lookup_insert_eq. reflexivity.
Qed.

(** The remote analyzer's normalization is idempotent: a response that
    the analyzer returned, sent again as the body of a successful call,
    is returned as it is.  After one pass [scores] is truthy or [matter]
    is undefined. *)
Theorem cloudAnalyze_idempotent (req req' : AnalyzeRequest) (net net' : FetchOutcome)
    (v : JSValue) :
  outcome (cloudAnalyze req net) = inr v ->
  remote_result net' = Some v ->
  outcome (cloudAnalyze req' net') = inr v /\
  (JS.truthy (prop v "scores") = true \/ JS.is_undefined (prop v "matter") = true).
Proof.
  intros Hv Hnet'.
  destruct (remote_result net) as [data |] eqn:Hnet.
  - rewrite (cloudAnalyze_succeeded _ _ _ Hnet) in Hv.
    split.
    + rewrite (cloudAnalyze_succeeded _ _ _ Hnet'). exact (normalize_fixed_point _ _ Hv).
    + pose proof (normalize_fixed_point _ _ Hv) as Hfix.
      destruct v as [| | b | q | s | l | o]; try (right; reflexivity).
      rewrite normalize_object in Hfix. unfold prop, JS.get.
      destruct (JS.truthy (default VUndefined (o !! "scores"))) eqn:Hs; [left; reflexivity |].
      destruct (JS.is_undefined (default VUndefined (o !! "matter"))) eqn:Hm;
        [right; reflexivity |].
      exfalso. injection Hfix as Hfix.
      apply (f_equal (fun m => m !! "scores")) in Hfix.
      rewrite lookup_insert_eq in Hfix.
      rewrite <- Hfix in Hs. discriminate Hs.
  - destruct (cloudAnalyze_not_succeeded req net Hnet) as [e He]. congruence.
Qed.

Lemma cloudAnalyze_idempotent_witness :
  outcome (cloudAnalyze sample_request
             (Resolved 200 (Some (VObj (<["scores" := VObj flat_fields]> flat_fields)))))
  = inr (VObj (<["scores" := VObj flat_fields]> flat_fields)).
Proof.
  apply (cloudAnalyze_idempotent sample_request sample_request
           (Resolved 200 (Some (VObj flat_fields)))
           (Resolved 200 (Some (VObj (<["scores" := VObj flat_fields]> flat_fields))))
           (VObj (<["scores" := VObj flat_fields]> flat_fields))
           eq_refl eq_refl).
Defined.

(** The remote analyzer changes nothing but [scores]: every other
    property of the returned value is the decoded body's, and a body that
    is not an object (a number, a string, a boolean, an array) is returned
    as it is, unchecked.  A falsy [scores] (null, 0, false, '') beside a
    defined [matter] is overwritten. *)
Theorem cloudAnalyze_frame (req : AnalyzeRequest) (net : FetchOutcome)
    (data v : JSValue) :
  remote_result net = Some data ->
  outcome (cloudAnalyze req net) = inr v ->
  (forall k, k <> "scores" -> prop v k = prop data k) /\
  ((forall o, data <> VObj o) -> v = data) /\
  (JS.truthy (prop data "scores") = true -> v = data) /\
  (JS.truthy (prop data "scores") = false ->
   JS.is_undefined (prop data "matter") = false ->
   exists s, prop v "scores" = VObj s /\
             s !! "matter" = Some (prop data "matter") /\
             s !! "total" = Some (prop data "total")).
Proof.
  intros Hnet Hv. rewrite (cloudAnalyze_succeeded _ _ _ Hnet) in Hv.
  destruct (nullish data) eqn:Hn;
    [rewrite (normalize_nullish _ Hn) in Hv; discriminate |].
  destruct data as [| | b | q | s | l | o]; try discriminate Hn.
  1-4: rewrite normalize_other in Hv by (reflexivity || discriminate);
       injection Hv as <-; repeat split; auto; discriminate.
  rewrite normalize_object in Hv. unfold prop, JS.get.
  destruct (JS.truthy (default VUndefined (o !! "scores"))) eqn:Hs;
    [injection Hv as <-; repeat split; auto; discriminate |].
  destruct (JS.is_undefined (default VUndefined (o !! "matter"))) eqn:Hm;
    [injection Hv as <-; repeat split; auto; discriminate |].
  injection Hv as <-. split; [| split; [| split]].
  - intros k Hk. rewrite lookup_insert_ne by congruence. reflexivity.
  - intros Hobj. destruct (Hobj o eq_refl).
  - discriminate.
  - intros _ _. eexists. rewrite lookup_insert_eq. split; [reflexivity |].
    split; vm_compute; reflexivity.
Qed.

Lemma cloudAnalyze_frame_witness :
  prop (VObj (<["scores" := VObj flat_fields]> flat_fields)) "total" = VNum 18
  /\ outcome (cloudAnalyze sample_request (Resolved 200 (Some (VNum 7)))) = inr (VNum 7).
Proof.
  split.
  - destruct (cloudAnalyze_frame sample_request (Resolved 200 (Some (VObj flat_fields)))
                (VObj flat_fields) (VObj (<["scores" := VObj flat_fields]> flat_fields))
                eq_refl eq_refl) as [H _].
    rewrite (H "total"); [reflexivity | discriminate].
  - destruct (cloudAnalyze_frame sample_request (Resolved 200 (Some (VNum 7)))
                (VNum 7) (VNum 7) eq_refl eq_refl) as (_ & H & _).
    reflexivity.
Defined.

(** ** Further properties of the adapter *)

(** What one [analyze] call does, in order: in mock mode it only waits;
    in cloud mode it posts once, and when the remote analyzer fails it
    logs that error once and then waits for the simulated analyzer.  The
    remote service is never contacted twice and nothing is retried. *)
Theorem analyze_single_attempt (mode : Mode) (req : AnalyzeRequest)
    (net : FetchOutcome) (rnd : Draws.t) :
  effects (analyze mode req net rnd)
  = match mode, outcome (cloudAnalyze req net) with
    | mock, _ => [Timeout 800]
    | cloud, inr _ => [Post ANALYZE_URL (requestBody req)]
    | cloud, inl e => [Post ANALYZE_URL (requestBody req); Warn e; Timeout 800]
    end
  /\ outcome (analyze mode req net rnd)
     = match mode, outcome (cloudAnalyze req net) with
       | cloud, inr v => inr v
       | _, _ => inr (ToJS.response (mockResponse req rnd))
       end
  /\ (remote_calls (analyze mode req net rnd) <= 1)%nat.
Proof.
  destruct mode.
  - rewrite analyze_mock_is_local. repeat split. lia.
  - rewrite analyze_cloud_is_remote.
    destruct (outcome (cloudAnalyze req net)) as [e | v] eqn:Hc.
    + destruct (analyze_caught req net rnd e Hc) as [Ho Hf].
      rewrite Ho, Hf. repeat split. lia.
    + rewrite (analyze_passes_on _ _ _ _ Hc), cloudAnalyze_effects, Hc.
      repeat split. lia.
Qed.

(** ** Further properties of the page *)

Lemma timer_consistent_step st a st' :
  timer_consistent st -> step st a = Some st' -> timer_consistent st'.
Proof.
  intros Hr Hs. unfold timer_consistent in *. step_cases Hs.
  - cbn. exact Hr.
  - cbn. exact Hr.
  - cbn. exact Hr.
  - cbn. intros q [= <-]. cbn. auto.
  - cbn. intros q [= <-]. cbn. auto.
  - cbn. intros q [= <-]. cbn. split; [discriminate | reflexivity].
  - cbn. intros q [= <-]. cbn. split; [discriminate | intros H; contradiction].
  - cbn. intros q [= <-]. cbn. auto.
  - cbn. intros q [= <-]. cbn. auto.
  - unfold resume.
    destruct (outcome (analyze (Call.mode c) (Call.req c) net rnd)) as [e | resp];
      intros q Hq;
      match type of Hq with
      | App.practice (updateInstance ?k ?f ?s) = _ =>
          destruct (updateInstance_cases k f s)
            as [[_ E] | [(p & _ & _ & E) | (p & Hp & _ & E)]];
            rewrite E in Hq; cbn in Hq
      end;
      try exact (Hr q Hq);
      injection Hq as <-; exact (Hr p Hp).
  - cbn. destruct (App.screen st); intros q [=]; subst; cbn;
      split; [discriminate | intros H; contradiction].
Qed.

Lemma timer_consistent_init : timer_consistent App.init.
Proof. intros p [=]. Qed.

(** The stopwatch and its interval agree in every state the page can
    reach: an interval is live exactly while [isRecording] is set.  So the
    interval's callback can fire exactly while recording, and of the
    Record and Stop buttons exactly one is enabled. *)
Theorem timer_live_iff_recording (tr : list Action) (st : App.t) (p : Practice.t)
    (handle : positive) :
  run App.init tr = Some st ->
  App.practice st = Some p ->
  (Practice.isRecording p = true <-> Practice.timerRef p <> None) /\
  (Practice.isRecording p = true <-> step st Tick <> None) /\
  (Practice.isRecording p = true <-> step st ClickStop <> None) /\
  (Practice.isRecording p = false <-> step st (ClickRecord handle) <> None).
Proof.
  intros Hrun Hp.
  pose proof (run_invariant _ timer_consistent_step tr _ _ timer_consistent_init Hrun p Hp)
    as Hc.
  split; [exact Hc |]. cbn [step]. rewrite Hp. cbn.
  split; [| split].
  - rewrite Hc. destruct (Practice.timerRef p); split; congruence.
  - destruct (Practice.isRecording p); split; congruence.
  - destruct (Practice.isRecording p); split; congruence.
Qed.

Lemma timer_live_iff_recording_witness :
  step (setPractice (stop (tick (tick (start 1 (Practice.init 0)))))
          practice_open) Tick = None.
Proof.
  destruct (timer_live_iff_recording two_seconds _ _ 1%positive eq_refl eq_refl)
    as (_ & [_ H] & _).
  destruct (step _ Tick) as [st' |] eqn:E; [| reflexivity].
  discriminate (H ltac:(discriminate)).
Defined.

Lemma calls_of_delete k i l :
  (length (calls_of k (delete i l)) <= length (calls_of k l))%nat.
Proof.
  unfold calls_of. revert i.
  induction l as [| c l IH]; intros [| i].
  - reflexivity.
  - reflexivity.
  - change (delete 0%nat (c :: l)) with l. cbn [List.filter].
    destruct (Nat.eqb (Call.caller c) k); cbn [length]; lia.
  - change (delete (S i) (c :: l)) with (c :: delete i l). cbn [List.filter].
    specialize (IH i). destruct (Nat.eqb (Call.caller c) k); cbn [length]; lia.
Qed.

(** Taking a call away leaves the calls of the other instances, and takes
    one from those of its caller. *)
Lemma calls_of_delete_other k i l c :
  l !! i = Some c -> Call.caller c <> k -> calls_of k (delete i l) = calls_of k l.
Proof.
  unfold calls_of. revert i.
  induction l as [| d l IH]; intros [| i] Hc Hk; try discriminate Hc.
  - injection Hc as ->. change (delete 0%nat (c :: l)) with l. cbn [List.filter].
    destruct (Nat.eqb_spec (Call.caller c) k); [contradiction | reflexivity].
  - change (delete (S i) (d :: l)) with (d :: delete i l). cbn [List.filter].
    rewrite (IH i Hc Hk). reflexivity.
Qed.

Lemma calls_of_delete_own k i l c :
  l !! i = Some c -> Call.caller c = k ->
  S (length (calls_of k (delete i l))) = length (calls_of k l).
Proof.
  unfold calls_of. revert i.
  induction l as [| d l IH]; intros [| i] Hc Hk; try discriminate Hc.
  - injection Hc as ->. change (delete 0%nat (c :: l)) with l. cbn [List.filter].
    rewrite (proj2 (Nat.eqb_eq _ _) Hk). reflexivity.
  - change (delete (S i) (d :: l)) with (d :: delete i l). cbn [List.filter].
    specialize (IH i Hc Hk).
    destruct (Nat.eqb (Call.caller d) k); cbn [length]; lia.
Qed.

Lemma calls_of_app k l1 l2 :
  calls_of k (l1 ++ l2) = calls_of k l1 ++ calls_of k l2.
Proof. apply List.filter_app. Qed.

Lemma calls_of_fresh k l :
  Forall (fun c => (Call.caller c < k)%nat) l -> calls_of k l = [].
Proof.
  induction 1 as [| c l Hc _ IH]; [reflexivity |]. cbn.
  destruct (Nat.eqb_spec (Call.caller c) k); [lia | exact IH].
Qed.

Lemma one_call_each_init : one_call_each App.init.
Proof. split; [constructor |]. split; [intros k; cbn; lia | intros p [=]]. Qed.

Lemma one_call_each_same st st' :
  one_call_each st ->
  App.mounted st' = App.mounted st -> App.inflight st' = App.inflight st ->
  App.practice st' = App.practice st -> one_call_each st'.
Proof.
  intros H Hm Hi Hp. unfold one_call_each in *. rewrite Hm, Hi, Hp. exact H.
Qed.

Lemma one_call_each_same_calls st st' p p' :
  one_call_each st ->
  App.mounted st' = App.mounted st -> App.inflight st' = App.inflight st ->
  App.practice st = Some p -> App.practice st' = Some p' ->
  Practice.instance p' = Practice.instance p ->
  Practice.loading p' = Practice.loading p -> one_call_each st'.
Proof.
  intros (H1 & H2 & H3) Hm Hi Hp Hp' Hinst Hload. unfold one_call_each.
  rewrite Hm, Hi, Hp'. split; [exact H1 |]. split; [exact H2 |].
  intros q [= <-]. rewrite Hinst, Hload. exact (H3 p Hp).
Qed.

Lemma one_call_each_exitComplete st : one_call_each st -> one_call_each (exitComplete st).
Proof.
  intros (H1 & H2 & _). unfold one_call_each, exitComplete.
  cbn [App.inflight App.mounted App.practice].
  destruct (App.screen st).
  - split; [exact H1 |]. split; [exact H2 | intros q [=]].
  - split; [eapply Forall_impl; [exact H1 | cbn; intros; lia] |].
    split; [exact H2 |].
    intros q [= <-]. cbn [Practice.instance Practice.init Practice.loading].
    split; [lia |]. rewrite (calls_of_fresh _ _ H1). reflexivity.
  - split; [exact H1 |]. split; [exact H2 | intros q [=]].
Qed.

(** The completion of the call at [i], whose caller [f] then updates by
    clearing [loading]. *)
Lemma one_call_each_settle st st1 i c f :
  one_call_each st ->
  App.inflight st !! i = Some c ->
  App.mounted st1 = App.mounted st ->
  App.inflight st1 = delete i (App.inflight st) ->
  App.practice st1 = App.practice st ->
  (forall p, Practice.instance (f p) = Practice.instance p /\ Practice.loading (f p) = false) ->
  one_call_each (updateInstance (Call.caller c) f st1).
Proof.
  intros (H1 & H2 & H3) Hc Hm Hi Hp Hf.
  assert (G1 : Forall (fun c => (Call.caller c < App.mounted st1)%nat) (App.inflight st1))
    by (rewrite Hm, Hi; apply Forall_delete, H1).
  assert (G2 : forall k, (length (calls_of k (App.inflight st1)) <= 1)%nat).
  { intros k. rewrite Hi. pose proof (calls_of_delete k i (App.inflight st)).
    specialize (H2 k). lia. }
  destruct (updateInstance_cases (Call.caller c) f st1)
    as [[Hnone ->] | [(p & Hq & Hne & ->) | (p & Hq & He & ->)]].
  - split; [exact G1 |]. split; [exact G2 |]. rewrite Hnone. intros q [=].
  - split; [exact G1 |]. split; [exact G2 |]. rewrite Hq. intros q [= <-].
    rewrite Hp in Hq. destruct (H3 p Hq) as [Hlt Hcount].
    rewrite Hm, Hi. split; [exact Hlt |].
    rewrite (calls_of_delete_other _ _ _ _ Hc) by congruence. exact Hcount.
  - unfold one_call_each. cbn [setPractice App.inflight App.mounted App.practice].
    split; [exact G1 |]. split; [exact G2 |]. intros q [= <-].
    destruct (Hf p) as [-> ->].
    rewrite Hp in Hq. destruct (H3 p Hq) as [Hlt _].
    rewrite Hm, Hi. split; [exact Hlt |].
    pose proof (calls_of_delete_own _ _ _ _ Hc (eq_sym He)) as Hown.
    specialize (H2 (Practice.instance p)). lia.
Qed.

Lemma one_call_each_step st a st' : one_call_each st -> step st a = Some st' -> one_call_each st'.
Proof.
  intros Hw Hs. pose proof Hw as (H1 & H2 & H3).
  destruct a; cbn [step] in Hs.
  - injection Hs as <-. apply (one_call_each_same st); auto.
  - injection Hs as <-. apply (one_call_each_same st); auto.
  - destruct (App.shown st); try discriminate Hs. injection Hs as <-.
    apply (one_call_each_same st); auto.
  - destruct (App.practice st) as [p |] eqn:Hp; cbn in Hs; [| discriminate].
    injection Hs as <-. eapply (one_call_each_same_calls st _ p); try reflexivity; assumption.
  - destruct (App.practice st) as [p |] eqn:Hp; cbn in Hs; [| discriminate].
    injection Hs as <-. eapply (one_call_each_same_calls st _ p); try reflexivity; assumption.
  - destruct (App.practice st) as [p |] eqn:Hp; cbn in Hs; [| discriminate].
    destruct (Practice.isRecording p); [discriminate |].
    injection Hs as <-. eapply (one_call_each_same_calls st _ p); try reflexivity; assumption.
  - destruct (App.practice st) as [p |] eqn:Hp; cbn in Hs; [| discriminate].
    destruct (Practice.isRecording p); [| discriminate].
    injection Hs as <-. eapply (one_call_each_same_calls st _ p); try reflexivity; assumption.
  - destruct (App.practice st) as [p |] eqn:Hp; cbn in Hs; [| discriminate].
    destruct (Practice.timerRef p); [| discriminate].
    injection Hs as <-. eapply (one_call_each_same_calls st _ p); try reflexivity; assumption.
  - destruct (App.practice st) as [p |] eqn:Hp; cbn in Hs; [| discriminate].
    destruct (Practice.loading p) eqn:Hl; [discriminate |].
    injection Hs as <-. destruct (H3 p eq_refl) as [Hlt Hnone]. rewrite Hl in Hnone.
    unfold one_call_each, onAnalyzeClick.
    cbn [setInflight setPractice App.inflight App.mounted App.practice].
    split; [apply Forall_app; split; [exact H1 | repeat constructor; exact Hlt] |].
    split.
    + intros k. rewrite calls_of_app, length_app.
      unfold calls_of at 2. cbn [List.filter Call.caller].
      destruct (Nat.eqb_spec (Practice.instance p) k) as [<- | Hne]; cbn [length].
      * rewrite Hnone. lia.
      * specialize (H2 k). lia.
    + intros q [= <-]. cbn [setLoadingError Practice.instance Practice.loading].
      split; [exact Hlt |].
      rewrite calls_of_app, length_app, Hnone.
      unfold calls_of. cbn [List.filter Call.caller]. rewrite Nat.eqb_refl. reflexivity.
  - destruct (App.inflight st !! i) as [c |] eqn:Hc; cbn in Hs; [| discriminate].
    injection Hs as <-. unfold resume.
    destruct (outcome (analyze (Call.mode c) (Call.req c) net rnd)) as [e | resp];
      apply (one_call_each_settle st _ i c); try assumption; try reflexivity;
      intros p; split; reflexivity.
  - destruct (Screen_eqb (App.shown st) (App.screen st)); [discriminate |].
    injection Hs as <-. apply one_call_each_exitComplete, Hw.
Qed.

Lemma calls_of_nonempty k l :
  (exists c, In c l /\ Call.caller c = k) <-> calls_of k l <> [].
Proof.
  unfold calls_of. split.
  - intros (c & Hin & Hk) Hnil.
    assert (Hc : In c (List.filter (fun c => Nat.eqb (Call.caller c) k) l)).
    { apply List.filter_In. split; [exact Hin | apply Nat.eqb_eq, Hk]. }
    rewrite Hnil in Hc. destruct Hc.
  - intros Hne.
    destruct (List.filter (fun c => Nat.eqb (Call.caller c) k) l) as [| c l'] eqn:E;
      [contradiction |].
    assert (Hc : In c (List.filter (fun c => Nat.eqb (Call.caller c) k) l))
      by (rewrite E; left; reflexivity).
    apply List.filter_In in Hc as [Hin Hk]. exists c. split; [exact Hin |].
    apply Nat.eqb_eq, Hk.
Qed.

(** Each mounting of [Practice] has at most one [analyze] call waiting,
    and the mounted one has a call waiting exactly while it shows
    [loading], which is exactly while its Analyze button is disabled.
    The guard is per mounting: calls of earlier mountings may still be
    waiting, so after leaving Practice and coming back to a fresh
    mounting a second call can be started while the first is in flight. *)
Theorem one_call_per_mounting :
  (forall (tr : list Action) (st : App.t),
      run App.init tr = Some st ->
      (forall k, (length (calls_of k (App.inflight st)) <= 1)%nat) /\
      (forall p suffix,
          App.practice st = Some p ->
          (Practice.loading p = true <->
           exists c, In c (App.inflight st) /\ Call.caller c = Practice.instance p) /\
          (Practice.loading p = true <-> step st (ClickAnalyze suffix) = None))) /\
  (exists st,
      run App.init submit_leave_submit = Some st /\
      length (App.inflight st) = 2%nat /\
      map Call.caller (App.inflight st) = [0%nat; 1%nat]).
Proof.
  split.
  - intros tr st Hrun.
    destruct (run_invariant _ one_call_each_step tr _ _ one_call_each_init Hrun)
      as (_ & H2 & H3).
    split; [exact H2 |]. intros p suffix Hp. destruct (H3 p Hp) as [_ Hcount].
    split.
    + rewrite calls_of_nonempty.
      destruct (Practice.loading p);
        destruct (calls_of (Practice.instance p) (App.inflight st));
        cbn in Hcount; split; congruence.
    + cbn [step]. rewrite Hp. cbn.
      destruct (Practice.loading p); split; congruence.
  - eexists. split; [vm_compute; reflexivity |]. split; reflexivity.
Qed.

Lemma one_call_per_mounting_witness :
  step (onAnalyzeClick "k3x9qa" (Practice.init 0) practice_open)
       (ClickAnalyze "p0z7mm") = None.
Proof.
  destruct one_call_per_mounting as [H _].
  destruct (H open_then_submit _ eq_refl) as [_ H'].
  destruct (H' _ "p0z7mm" eq_refl) as [_ [Hdis _]].
  exact (Hdis eq_refl).
Defined.

Lemma iter_tick_timerRef n p :
  Practice.timerRef (Nat.iter n tick p) = Practice.timerRef p.
Proof. induction n as [| n IH]; [reflexivity | exact IH]. Qed.

Lemma iter_tick_seconds n p :
  Practice.seconds (Nat.iter n tick p) = Practice.seconds p + Z.of_nat n.
Proof.
  induction n as [| n IH]; [cbn; lia |].
  cbn [Nat.iter nat_rect tick Practice.seconds]. change (nat_rect _ _ _ n) with (Nat.iter n tick p).
  rewrite IH. lia.
Qed.

Lemma run_ticks n : forall p st0 tl handle,
  Practice.timerRef p = Some handle ->
  run (setPractice p st0) (repeat Tick n ++ tl)
  = run (setPractice (Nat.iter n tick p) st0) tl.
Proof.
  induction n as [| n IH]; intros p st0 tl handle Ht; [reflexivity |].
  cbn [repeat app run step setPractice App.practice mbind option_bind].
  rewrite Ht. cbn [mbind option_bind].
  change (setPractice (tick p) (setPractice p st0)) with (setPractice (tick p) st0).
  rewrite (IH (tick p) st0 tl handle Ht).
  rewrite Nat.iter_succ_r. reflexivity.
Qed.

Lemma iter_tick_isRecording n p :
  Practice.isRecording (Nat.iter n tick p) = Practice.isRecording p.
Proof. induction n as [| n IH]; [reflexivity | exact IH]. Qed.

Lemma iter_tick_fields n p :
  Practice.motionTxt (Nat.iter n tick p) = Practice.motionTxt p /\
  Practice.side (Nat.iter n tick p) = Practice.side p /\
  Practice.loading (Nat.iter n tick p) = Practice.loading p /\
  Practice.mode (Nat.iter n tick p) = Practice.mode p /\
  Practice.instance (Nat.iter n tick p) = Practice.instance p.
Proof. induction n as [| n IH]; [repeat split | exact IH]. Qed.

(** The stopwatch: Record sets the counter to zero whatever it showed,
    each tick adds one, and Stop keeps the count.  After Record, [n] ticks
    and Stop the counter shows [n], and a submission then sends [n]
    seconds, or 420 when [n] is 0; the motion and the side are untouched. *)
Theorem stopwatch_counts_ticks (st : App.t) (p : Practice.t) (handle : positive)
    (n : nat) (suffix : string) :
  App.practice st = Some p ->
  Practice.isRecording p = false ->
  Practice.loading p = false ->
  exists st' p' st'' c,
    run st (ClickRecord handle :: repeat Tick n ++ [ClickStop]) = Some st' /\
    App.practice st' = Some p' /\
    Practice.seconds p' = Z.of_nat n /\
    Practice.isRecording p' = false /\ Practice.timerRef p' = None /\
    Practice.motionTxt p' = Practice.motionTxt p /\ Practice.side p' = Practice.side p /\
    App.screen st' = App.screen st /\
    step st' (ClickAnalyze suffix) = Some st'' /\
    App.inflight st'' = App.inflight st ++ [c] /\
    Req.durationSec (Call.req c)
    = inject_Z (match n with O => 420 | S _ => Z.of_nat n end).
Proof.
  intros Hp Hrec Hload.
  set (q := Nat.iter n tick (start handle p)).
  destruct (iter_tick_fields n (start handle p)) as (Hm & Hs & Hl & _).
  exists (setPractice (stop q) st), (stop q).
  exists (onAnalyzeClick suffix (stop q) (setPractice (stop q) st)).
  exists {| Call.sid := newSessionId suffix;
            Call.req := buildRequest (newSessionId suffix) (stop q);
            Call.mode := Practice.mode (stop q); Call.caller := Practice.instance (stop q) |}.
  split.
  { cbn [run step]. rewrite Hp. cbn [mbind option_bind]. rewrite Hrec.
    cbn [mbind option_bind].
    rewrite (run_ticks n (start handle p) st [ClickStop] handle eq_refl). fold q.
    cbn [run step setPractice App.practice mbind option_bind].
    unfold q at 1. rewrite iter_tick_isRecording. reflexivity. }
  split; [reflexivity |].
  assert (Hsec : Practice.seconds (stop q) = Z.of_nat n).
  { cbn [stop Practice.seconds]. unfold q. rewrite iter_tick_seconds. cbn. lia. }
  split; [exact Hsec |]. split; [reflexivity |]. split; [reflexivity |].
  split; [exact Hm |]. split; [exact Hs |]. split; [reflexivity |].
  split.
  { apply submit_enabled; [reflexivity |]. cbn [stop Practice.loading].
    fold q in Hl. rewrite Hl. exact Hload. }
  split; [reflexivity |].
  cbn [Call.req buildRequest Req.durationSec]. rewrite Hsec. unfold JS.or_Z.
  destruct n as [| n]; [reflexivity |].
  destruct (Z.eqb_spec (Z.of_nat (S n)) 0); [lia | reflexivity].
Qed.

Lemma stopwatch_counts_ticks_witness :
  exists st' p',
    run practice_open (ClickRecord 1 :: repeat Tick 425 ++ [ClickStop])
    = Some st' /\
    App.practice st' = Some p' /\ Practice.seconds p' = 425.
Proof.
  destruct (stopwatch_counts_ticks practice_open (Practice.init 0)
              1%positive 425 "k3x9qa" eq_refl eq_refl eq_refl)
    as (st' & p' & _ & _ & Hrun & Hp & Hsec & _).
  exists st', p'. split; [exact Hrun |]. split; [exact Hp | exact Hsec].
Defined.

(** [Practice]'s state lasts as long as its mounting.  While another
    child is presented nothing of [Practice] is kept, and when that
    child's exit animation ends on the Practice screen a fresh [Practice]
    is mounted: the default motion, side OG, the stopwatch at rest at 0, no
    error, and an enabled Analyze button, even if a call of an earlier
    mounting is waiting.  Leaving the Practice screen does not unmount
    [Practice] at once: it stays as it is until its exit animation
    finishes, and if the user is back on Practice before that it simply
    stays, with its motion, its count and its [loading]. *)
Theorem practice_state_is_reset (tr : list Action) (st : App.t) :
  run App.init tr = Some st ->
  (App.shown st <> practice -> App.practice st = None) /\
  (App.shown st <> practice -> App.screen st = practice ->
   exists st',
     step st ExitComplete = Some st' /\
     App.screen st' = practice /\ App.shown st' = practice /\
     App.practice st' = Some (Practice.init (App.mounted st)) /\
     App.inflight st' = App.inflight st /\
     forall suffix, step st' (ClickAnalyze suffix) <> None) /\
  (forall p s,
      App.practice st = Some p -> s <> practice ->
      exists st1 st2 st3,
        step st (ClickTab s) = Some st1 /\
        App.screen st1 = s /\ App.practice st1 = Some p /\
        step st1 (ClickTab practice) = Some st2 /\
        App.screen st2 = practice /\ App.practice st2 = Some p /\
        step st2 ExitComplete = None /\
        step st1 ExitComplete = Some st3 /\ App.practice st3 = None).
Proof.
  intros Hrun.
  destruct (reachable_well_mounted _ _ Hrun) as [Hm _].
  split; [| split].
  - intros Hshown. destruct (App.practice st) as [p |] eqn:Hp; [| reflexivity].
    exfalso. apply Hshown, Hm. discriminate.
  - intros Hshown Hscreen. exists (exitComplete st).
    split.
    { cbn [step]. rewrite Hscreen.
      destruct (App.shown st); try contradiction; reflexivity. }
    unfold exitComplete. rewrite Hscreen. cbn.
    repeat split; discriminate.
  - intros p s Hp Hs.
    assert (Hshown : App.shown st = practice) by (apply Hm; rewrite Hp; discriminate).
    exists (setScreen s st), (setScreen practice (setScreen s st)),
           (exitComplete (setScreen s st)).
    split; [reflexivity |]. split; [reflexivity |]. split; [exact Hp |].
    split; [reflexivity |]. split; [reflexivity |]. split; [exact Hp |].
    split; [cbn; rewrite Hshown; reflexivity |].
    split; [cbn; rewrite Hshown; destruct s; try contradiction; reflexivity |].
    cbn. destruct s; try contradiction; reflexivity.
Qed.

Lemma practice_state_is_reset_witness :
  (exists st p,
      run App.init leave_and_return_at_once = Some st /\
      App.practice st = Some p /\
      Practice.seconds p = 2 /\ Practice.motionTxt p = "THW abolish exams") /\
  (exists st,
      run App.init leave_and_return_later = Some st /\
      App.practice st = Some (Practice.init 1)).
Proof.
  split.
  - eassert (Hrun : run App.init (two_seconds ++ [ChangeMotion "THW abolish exams"]) = Some _)
      by (vm_compute; reflexivity).
    destruct (practice_state_is_reset _ _ Hrun) as (_ & _ & H).
    destruct (H _ session eq_refl ltac:(discriminate))
      as (st1 & st2 & _ & Hs1 & _ & _ & Hs2 & _ & Hp & _).
    exists st2. eexists. split; [| split; [exact Hp |]].
    + unfold leave_and_return_at_once.
      change (two_seconds ++ [ChangeMotion "THW abolish exams"; ClickTab session;
                              ClickTab practice])
        with (((two_seconds ++ [ChangeMotion "THW abolish exams"])
                 ++ [ClickTab session]) ++ [ClickTab practice]).
      do 2 rewrite run_snoc. rewrite Hrun. cbn [mbind option_bind]. rewrite Hs1.
      cbn [mbind option_bind]. exact Hs2.
    + split; reflexivity.
  - eassert (Hrun : run App.init
                      (two_seconds ++ [ChangeMotion "THW abolish exams"; ClickTab session;
                                       ExitComplete; ClickTab practice]) = Some _)
      by (vm_compute; reflexivity).
    destruct (practice_state_is_reset _ _ Hrun) as (_ & H & _).
    destruct (H ltac:(discriminate) eq_refl) as (st' & Hstep & _ & _ & Hp & _).
    exists st'. split; [| exact Hp].
    unfold leave_and_return_later.
    change (two_seconds ++ [ChangeMotion "THW abolish exams"; ClickTab session;
                            ExitComplete; ClickTab practice; ExitComplete])
      with ((two_seconds ++ [ChangeMotion "THW abolish exams"; ClickTab session;
                             ExitComplete; ClickTab practice]) ++ [ExitComplete]).
    rewrite run_snoc, Hrun. exact Hstep.
Defined.

(** ** The Session screen *)

Lemma map_err_total {A B} (f : A -> B) (g : A -> Error + B) (l : list A) :
  (forall x, g x = inr (f x)) -> map_err g l = inr (map f l).
Proof.
  intros Hg. induction l as [| x l IH]; [reflexivity |].
  cbn [map_err map]. rewrite Hg, IH. reflexivity.
Qed.

Lemma map_err_map {A B C} (h : A -> B) (g : B -> Error + C) (l : list A) :
  map_err g (map h l) = map_err (fun x => g (h x)) l.
Proof.
  induction l as [| x l IH]; [reflexivity |]. cbn [map_err map]. rewrite IH. reflexivity.
Qed.

Lemma get_response r :
  JS.get (ToJS.response r) "transcript" = inr (VStr (Resp.transcript r)) /\
  JS.get (ToJS.response r) "scores" = inr (ToJS.scores (Resp.scores r)) /\
  JS.get (ToJS.response r) "feedback" = inr (ToJS.feedback (Resp.feedback r)) /\
  JS.get (ToJS.response r) "delivery" = inr (ToJS.delivery (Resp.delivery r)) /\
  JS.get (ToJS.response r) "timing" = inr (ToJS.timing (Resp.timing r)) /\
  JS.get (ToJS.response r) "rubricVersion" = inr (VStr (Resp.rubricVersion r)) /\
  JS.get (ToJS.response r) "sessionId" = inr (VStr (Resp.sessionId r)) /\
  JS.get (ToJS.response r) "status" = inr (ToJS.status (Resp.status r)).
Proof. repeat split; vm_compute; reflexivity. Qed.

Lemma get_scores s :
  JS.get (ToJS.scores s) "matter" = inr (VNum (Scores.matter s)) /\
  JS.get (ToJS.scores s) "manner" = inr (VNum (Scores.manner s)) /\
  JS.get (ToJS.scores s) "method" = inr (VNum (Scores.method s)) /\
  JS.get (ToJS.scores s) "total" = inr (VNum (Scores.total s)).
Proof. repeat split; vm_compute; reflexivity. Qed.

Lemma get_delivery d :
  JS.get (ToJS.delivery d) "wpm" = inr (VNum (Delivery.wpm d)) /\
  JS.get (ToJS.delivery d) "fillerPerMin" = inr (VNum (Delivery.fillerPerMin d)).
Proof. repeat split; vm_compute; reflexivity. Qed.

Lemma get_timing t :
  JS.get (ToJS.timing t) "status" = inr (ToJS.timingStatus (Timing.status t)).
Proof. unfold ToJS.timing. destruct (Timing.notes t); vm_compute; reflexivity. Qed.

Lemma get_feedback f :
  JS.get (ToJS.feedback f) "justification"
  = inr (ToJS.justification (Feedback.justification f)) /\
  JS.get (ToJS.feedback f) "actionables"
  = inr (VArr (map ToJS.actionable (Feedback.actionables f))) /\
  JS.get (ToJS.feedback f) "drills" = inr (VArr (map ToJS.drill (Feedback.drills f))).
Proof. repeat split; vm_compute; reflexivity. Qed.

Lemma get_justification j :
  JS.get (ToJS.justification j) "matter" = inr (ToJS.strings (Justification.matter j)) /\
  JS.get (ToJS.justification j) "manner" = inr (ToJS.strings (Justification.manner j)) /\
  JS.get (ToJS.justification j) "method" = inr (ToJS.strings (Justification.method j)).
Proof. repeat split; vm_compute; reflexivity. Qed.

Lemma get_actionable a :
  JS.get (ToJS.actionable a) "title" = inr (VStr (Actionable.title a)) /\
  JS.get (ToJS.actionable a) "why" = inr (VStr (Actionable.why a)) /\
  JS.get (ToJS.actionable a) "how" = inr (VStr (Actionable.how a)).
Proof. repeat split; vm_compute; reflexivity. Qed.

Lemma get_drill d :
  JS.get (ToJS.drill d) "name" = inr (VStr (Drill.name d)) /\
  JS.get (ToJS.drill d) "instructions" = inr (VStr (Drill.instructions d)).
Proof. repeat split; vm_compute; reflexivity. Qed.

Lemma Session_typed sid r :
  Session sid (Some (ToJS.response r)) = inr (View.Report (report_of sid r)).
Proof.
  unfold Session. change (JS.truthy (ToJS.response r)) with true. cbn [negb].
  destruct (get_response r) as (-> & -> & -> & -> & -> & -> & _).
  cbn [mbind sum_bind].
  destruct (get_scores (Resp.scores r)) as (-> & -> & -> & ->).
  destruct (get_delivery (Resp.delivery r)) as (-> & ->).
  rewrite get_timing.
  destruct (get_feedback (Resp.feedback r)) as (-> & -> & ->).
  cbn [mbind sum_bind].
  destruct (get_justification (Feedback.justification (Resp.feedback r))) as (-> & -> & ->).
  cbn [mbind sum_bind js_map].
  rewrite !map_err_map.
  rewrite (map_err_total
             (fun a => (VStr (Actionable.title a), VStr (Actionable.why a),
                        VStr (Actionable.how a)))).
  2: { intros a. destruct (get_actionable a) as (-> & -> & ->). reflexivity. }
  rewrite (map_err_total
             (fun d => (VStr (Drill.name d), VStr (Drill.instructions d)))).
  2: { intros d. destruct (get_drill d) as (-> & ->). reflexivity. }
  reflexivity.
Qed.

Lemma SectionList_strings title l :
  SectionList title (ToJS.strings l) = inr (title, map VStr l).
Proof.
  unfold SectionList, ToJS.strings, js_map.
  rewrite (map_err_total (fun x => x)) by reflexivity. rewrite map_id. reflexivity.
Qed.

Lemma forallb_child_ok_strings l : forallb child_ok (map VStr l) = true.
Proof. induction l as [| x l IH]; [reflexivity | exact IH]. Qed.

Lemma forallb_concat_map {A} (f : A -> list JSValue) (l : list A) :
  (forall x, forallb child_ok (f x) = true) ->
  forallb child_ok (concat (map f l)) = true.
Proof.
  intros Hf. induction l as [| x l IH]; [reflexivity |].
  cbn [map concat]. rewrite forallb_app, Hf, IH. reflexivity.
Qed.

Lemma renderSectionList_strings title l :
  renderSectionList (title, ToJS.strings l) = inr tt.
Proof.
  unfold renderSectionList. cbn [fst snd]. rewrite SectionList_strings. cbn [snd].
  unfold check_children. rewrite forallb_child_ok_strings. reflexivity.
Qed.

(** Rendering the object of a typed response. *)
Lemma renderSession_typed (sid : string) (r : AnalyzeResponse) :
  renderSession sid (Some (ToJS.response r)) = inr (View.Report (report_of sid r)).
Proof.
  unfold renderSession. rewrite Session_typed.
  assert (H1 : check_children (report_children (report_of sid r)) = inr tt).
  { unfold check_children, report_children, report_of.
    cbn [View.rubric View.meters View.total View.wpm View.fillerPerMin View.timing
         View.transcript View.value map app forallb child_ok andb].
    destruct (Timing.status (Resp.timing r)); reflexivity. }
  assert (H2 : render_each renderSectionList (View.justification (report_of sid r)) = inr tt).
  { cbn [report_of View.justification render_each].
    rewrite !renderSectionList_strings. reflexivity. }
  assert (H3 : check_children (feedback_children (report_of sid r)) = inr tt).
  { unfold check_children, feedback_children, report_of.
    cbn [View.actionables View.drills].
    rewrite !map_map, forallb_app, !forallb_concat_map by reflexivity. reflexivity. }
  rewrite H1. cbn [mbind render_bind]. rewrite H2. cbn [mbind render_bind].
  rewrite H3. reflexivity.
Qed.

(** The Session screen renders every well-typed response: for the object
    of any [AnalyzeResponse], neither [Session] nor a [SectionList] throws,
    no child is refused, and the screen shows the session identifier it
    was given, the three scores against 40, 40 and 20, the total, the
    delivery figures, the timing status, the transcript and the feedback
    lists in their order. *)
Theorem session_renders_typed_response (sid : string) (v : JSValue) :
  valid_response v ->
  exists r,
    v = ToJS.response r /\
    renderSession sid (Some v) = inr (View.Report (report_of sid r)) /\
    View.heading (report_of sid r) = sid /\
    map View.max (View.meters (report_of sid r)) = [40; 40; 20] /\
    map View.value (View.meters (report_of sid r))
    = [VNum (Scores.matter (Resp.scores r)); VNum (Scores.manner (Resp.scores r));
       VNum (Scores.method (Resp.scores r))] /\
    length (View.actionables (report_of sid r))
    = length (Feedback.actionables (Resp.feedback r)) /\
    length (View.drills (report_of sid r)) = length (Feedback.drills (Resp.feedback r)).
Proof.
  intros [r ->]. exists r. split; [reflexivity |].
  split; [apply renderSession_typed |].
  cbn [report_of View.heading View.meters View.actionables View.drills map
       View.max View.value].
  rewrite !length_map. repeat split.
Qed.

Lemma session_renders_typed_response_witness :
  exists r,
    renderSession "sess_k3x9qa"
      (Some (ToJS.response (mockResponse sample_request sample_draws)))
    = inr (View.Report (report_of "sess_k3x9qa" r)).
Proof.
  destruct (session_renders_typed_response "sess_k3x9qa"
              (ToJS.response (mockResponse sample_request sample_draws))
              (ex_intro _ _ eq_refl))
    as (r & _ & Hrender & _).
  exists r. exact Hrender.
Defined.

Lemma Session_without_scores sid v :
  JS.truthy v = true -> nullish (prop v "scores") = true ->
  Session sid (Some v) = inl TypeError.
Proof.
  intros Ht Hs. unfold Session. rewrite Ht. cbn [negb].
  destruct v as [| | b | q | s | l | o]; try discriminate Ht;
    try reflexivity.
  unfold prop in Hs. cbn [JS.get mbind sum_bind] in *.
  destruct (default VUndefined (o !! "scores")); try discriminate Hs; reflexivity.
Qed.

Lemma Session_not_placeholder sid v :
  JS.truthy v = true -> Session sid (Some v) <> inr View.NoSession.
Proof.
  intros Ht. unfold Session. rewrite Ht. cbn [negb].
  repeat match goal with
  | |- context [mbind _ ?m] =>
      let E := fresh "E" in
      destruct m as [? | ?] eqn:E; cbn [mbind sum_bind]; [discriminate |]
  end.
  discriminate.
Qed.

(** The Session screen shows the card "No session yet" exactly when the
    analysis it is given is [null] or a falsy value; otherwise it shows a
    report or it throws. *)
Theorem session_placeholder (sid : string) (analysis : option JSValue) :
  renderSession sid analysis = inr View.NoSession <->
  analysis = None \/ exists v, analysis = Some v /\ JS.truthy v = false.
Proof.
  unfold renderSession. split.
  - destruct analysis as [v |]; [| left; reflexivity].
    destruct (JS.truthy v) eqn:Ht; [| right; exists v; split; reflexivity || exact Ht].
    intros H. exfalso.
    destruct (Session sid (Some v)) as [e | [| r]] eqn:E; try discriminate H.
    + exact (Session_not_placeholder sid v Ht E).
    + destruct (check_children (report_children r)); [discriminate H |].
      cbn [mbind render_bind] in H.
      destruct (render_each _ _); [discriminate H |].
      cbn [mbind render_bind] in H.
      destruct (check_children (feedback_children r)); discriminate H.
  - intros [-> | (v & -> & Ht)]; [reflexivity |].
    unfold Session. rewrite Ht. reflexivity.
Qed.

Lemma settle_step st i c net rnd resp :
  App.inflight st !! i = Some c ->
  outcome (analyze (Call.mode c) (Call.req c) net rnd) = inr resp ->
  exists st',
    step st (Settle i net rnd) = Some st' /\
    App.screen st' = session /\
    App.analysis st' = Some resp /\
    sessionView st' = renderSession (Call.sid c) (Some resp) /\
    App.sessionId st' = Call.sid c.
Proof.
  intros Hc Hresp.
  destruct (settle_app st i c net rnd resp Hc Hresp)
    as (st' & Hstep & Hscreen & Hid & Han & _).
  exists st'. split; [exact Hstep |]. split; [exact Hscreen |]. split; [exact Han |].
  split; [| exact Hid]. unfold sessionView. rewrite Hid, Han. reflexivity.
Qed.

Lemma analyze_without_remote mode req net rnd :
  remote_result net = None ->
  outcome (analyze mode req net rnd) = inr (ToJS.response (mockResponse req rnd)).
Proof.
  intros Hnet. destruct mode; [reflexivity |].
  destruct (cloudAnalyze_not_succeeded req net Hnet) as [e He].
  rewrite (proj1 (analyze_caught req net rnd e He)). apply mockAnalyze_outcome.
Qed.

(** When the remote call does not succeed, the user still gets a report:
    completing the call shows the Session screen with the identifier
    generated at the click as its heading and the simulated analyzer's
    figures, three scores within their ranges against 40, 40 and 20 and
    their sum as the total.  Nothing on the screen tells that the remote
    service failed. *)
Theorem failed_remote_shows_simulated_report (tr : list Action) (st : App.t) (i : nat)
    (c : Call.t) (net : FetchOutcome) (rnd : Draws.t) :
  run App.init tr = Some st ->
  App.inflight st !! i = Some c ->
  remote_result net = None ->
  Draws.valid rnd = true ->
  exists st' rep m1 m2 m3,
    step st (Settle i net rnd) = Some st' /\
    App.screen st' = session /\
    sessionView st' = inr (View.Report rep) /\
    rep = report_of (Call.sid c) (mockResponse (Call.req c) rnd) /\
    View.heading rep = Call.sid c /\
    View.meters rep = [View.mkMeter "Matter" (VNum (inject_Z m1)) 40;
                       View.mkMeter "Manner" (VNum (inject_Z m2)) 40;
                       View.mkMeter "Method" (VNum (inject_Z m3)) 20] /\
    24 <= m1 <= 33 /\ 22 <= m2 <= 31 /\ 12 <= m3 <= 19 /\
    View.total rep = VNum (inject_Z (m1 + m2 + m3)).
Proof.
  intros Hrun Hc Hnet Hrnd.
  destruct (settle_step st i c net rnd _ Hc (analyze_without_remote _ _ _ rnd Hnet))
    as (st' & Hstep & Hscreen & _ & Hview & _).
  rewrite renderSession_typed in Hview.
  unfold Draws.valid in Hrnd. rewrite !andb_true_iff in Hrnd.
  destruct Hrnd as [[[[H1 H2] H3] _] _].
  pose proof (F64Facts.floor_random_times_10 _ H1) as B1.
  pose proof (F64Facts.floor_random_times_10 _ H2) as B2.
  pose proof (F64Facts.floor_random_times_8 _ H3) as B3.
  exists st'. eexists _, _, _, _.
  split; [exact Hstep |]. split; [exact Hscreen |]. split; [exact Hview |].
  split; [reflexivity |]. split; [reflexivity |]. split; [reflexivity |].
  repeat split; try lia.
Qed.

Lemma failed_remote_shows_simulated_report_witness :
  exists st' rep,
    run App.init (open_then_submit ++ [Settle 0 Rejected sample_draws]) = Some st' /\
    sessionView st' = inr (View.Report rep) /\
    View.heading rep = "sess_k3x9qa".
Proof.
  destruct (failed_remote_shows_simulated_report open_then_submit _ 0%nat _
              Rejected sample_draws eq_refl eq_refl eq_refl eq_refl)
    as (st' & rep & m1 & m2 & m3 & Hstep & _ & Hview & _ & Hhead & _).
  exists st', rep. rewrite run_snoc.
  split; [exact Hstep |]. split; [exact Hview | exact Hhead].
Defined.

Lemma analyze_cloud_succeeded req net rnd data v :
  remote_result net = Some data ->
  outcome (normalize data) = inr v ->
  outcome (analyze cloud req net rnd) = inr v.
Proof.
  intros Hnet Hv.
  assert (Hc : outcome (cloudAnalyze req net) = inr v)
    by (rewrite (cloudAnalyze_succeeded _ _ _ Hnet); exact Hv).
  rewrite (analyze_passes_on _ _ _ _ Hc). exact Hc.
Qed.

Lemma inflight_is_cloud tr st i c :
  run App.init tr = Some st -> App.inflight st !! i = Some c -> Call.mode c = cloud.
Proof.
  intros Hrun Hc. destruct (reachable_wired _ _ Hrun) as [_ Hcalls].
  rewrite Forall_lookup in Hcalls. exact (proj1 (Hcalls i c Hc)).
Qed.

(** A successful response whose body has neither [scores] nor [matter]
    (an empty object, an error payload, a response that is only "queued")
    passes the remote analyzer and the adapter unchanged and is handed to
    the Session screen, where reading [scores.matter] throws a
    [TypeError]: the fallback does not cover it. *)
Theorem body_without_scores_breaks_session (tr : list Action) (st : App.t) (i : nat)
    (c : Call.t) (net : FetchOutcome) (rnd : Draws.t) (o : gmap string JSValue) :
  run App.init tr = Some st ->
  App.inflight st !! i = Some c ->
  remote_result net = Some (VObj o) ->
  o !! "scores" = None -> o !! "matter" = None ->
  exists st',
    step st (Settle i net rnd) = Some st' /\
    effects (analyze (Call.mode c) (Call.req c) net rnd)
    = [Post ANALYZE_URL (requestBody (Call.req c))] /\
    App.screen st' = session /\
    App.analysis st' = Some (VObj o) /\
    sessionView st' = inl (Thrown TypeError).
Proof.
  intros Hrun Hc Hnet Hs Hm.
  pose proof (inflight_is_cloud _ _ _ _ Hrun Hc) as Hmode.
  assert (Hnorm : outcome (normalize (VObj o)) = inr (VObj o)).
  { rewrite normalize_object, Hs, Hm. reflexivity. }
  assert (Hresp : outcome (analyze (Call.mode c) (Call.req c) net rnd) = inr (VObj o)).
  { rewrite Hmode. exact (analyze_cloud_succeeded _ _ rnd _ _ Hnet Hnorm). }
  destruct (settle_step st i c net rnd _ Hc Hresp)
    as (st' & Hstep & Hscreen & Han & Hview & _).
  exists st'. split; [exact Hstep |]. split.
  { rewrite Hmode.
    assert (Hcl : outcome (cloudAnalyze (Call.req c) net) = inr (VObj o))
      by (rewrite (cloudAnalyze_succeeded _ _ _ Hnet); exact Hnorm).
    rewrite (analyze_passes_on _ _ _ _ Hcl). apply cloudAnalyze_effects. }
  split; [exact Hscreen |]. split; [exact Han |].
  rewrite Hview. unfold renderSession.
  rewrite Session_without_scores; [reflexivity | reflexivity |].
  unfold prop, JS.get. rewrite Hs. reflexivity.
Qed.

Lemma body_without_scores_breaks_session_witness :
  exists st',
    run App.init (open_then_submit ++ [Settle 0 (Resolved 200 (Some (VObj ∅))) sample_draws])
    = Some st' /\
    sessionView st' = inl (Thrown TypeError).
Proof.
  destruct (body_without_scores_breaks_session open_then_submit _ 0%nat _
              (Resolved 200 (Some (VObj ∅))) sample_draws ∅
              eq_refl eq_refl eq_refl (lookup_empty _) (lookup_empty _))
    as (st' & Hstep & _ & _ & _ & Hview).
  exists st'. rewrite run_snoc. split; [exact Hstep | exact Hview].
Defined.

(** A successful response whose body is a falsy JSON value other than
    [null] (the number 0, the empty string, [false]) is accepted as the
    analysis; the page moves to Session, and Session shows "No session
    yet" although a call has just completed. *)
Theorem falsy_body_shows_no_session (tr : list Action) (st : App.t) (i : nat)
    (c : Call.t) (net : FetchOutcome) (rnd : Draws.t) (v : JSValue) :
  run App.init tr = Some st ->
  App.inflight st !! i = Some c ->
  remote_result net = Some v ->
  JS.truthy v = false -> nullish v = false ->
  exists st',
    step st (Settle i net rnd) = Some st' /\
    App.screen st' = session /\
    App.sessionId st' = Call.sid c /\
    App.analysis st' = Some v /\
    sessionView st' = inr View.NoSession.
Proof.
  intros Hrun Hc Hnet Ht Hn.
  pose proof (inflight_is_cloud _ _ _ _ Hrun Hc) as Hmode.
  assert (Hnorm : outcome (normalize v) = inr v).
  { apply normalize_other; [exact Hn |]. intros o ->. discriminate Ht. }
  assert (Hresp : outcome (analyze (Call.mode c) (Call.req c) net rnd) = inr v).
  { rewrite Hmode. exact (analyze_cloud_succeeded _ _ rnd _ _ Hnet Hnorm). }
  destruct (settle_step st i c net rnd _ Hc Hresp)
    as (st' & Hstep & Hscreen & Han & Hview & Hid).
  exists st'. split; [exact Hstep |]. split; [exact Hscreen |].
  split; [exact Hid |]. split; [exact Han |].
  rewrite Hview. unfold renderSession, Session. rewrite Ht. reflexivity.
Qed.

Lemma falsy_body_shows_no_session_witness :
  exists st',
    run App.init (open_then_submit ++ [Settle 0 (Resolved 200 (Some (VNum 0))) sample_draws])
    = Some st' /\
    App.analysis st' = Some (VNum 0) /\
    sessionView st' = inr View.NoSession.
Proof.
  destruct (falsy_body_shows_no_session open_then_submit _ 0%nat _
              (Resolved 200 (Some (VNum 0))) sample_draws (VNum 0)
              eq_refl eq_refl eq_refl eq_refl eq_refl)
    as (st' & Hstep & _ & _ & Han & Hview).
  exists st'. rewrite run_snoc. split; [exact Hstep |]. split; [exact Han | exact Hview].
Defined.

Lemma analysis_unset_step st a st' :
  App.analysis st = None -> is_settle a = false -> step st a = Some st' ->
  App.analysis st' = None.
Proof.
  intros Hnone Ha Hs. step_cases Hs; try discriminate Ha; exact Hnone.
Qed.

(** Until the first call completes there is no analysis: whatever else
    the user does (the Session tab is always enabled), the Session screen
    shows "No session yet" and does not throw. *)
Theorem no_session_before_first_result (tr : list Action) (st : App.t) :
  run App.init tr = Some st ->
  settled tr = false ->
  App.analysis st = None /\
  sessionView st = inr View.NoSession /\
  exists st', step st (ClickTab session) = Some st' /\
              App.screen st' = session /\ sessionView st' = inr View.NoSession.
Proof.
  intros Hrun Hno.
  assert (Hnone : App.analysis st = None).
  { revert Hrun Hno. generalize (eq_refl : App.analysis App.init = None).
    generalize App.init. induction tr as [| a tr IH]; intros s0 H0 Hrun Hno; cbn in Hrun.
    - injection Hrun as <-. exact H0.
    - cbn in Hno. apply orb_false_iff in Hno as [Ha Hno].
      destruct (step s0 a) as [s1 |] eqn:Hs; cbn in Hrun; [| discriminate].
      exact (IH s1 (analysis_unset_step _ _ _ H0 Ha Hs) Hrun Hno). }
  split; [exact Hnone |].
  split; [unfold sessionView; rewrite Hnone; reflexivity |].
  exists (setScreen session st). split; [reflexivity |]. split; [reflexivity |].
  unfold sessionView. cbn. rewrite Hnone. reflexivity.
Qed.

Lemma no_session_before_first_result_witness :
  sessionView (onAnalyzeClick "k3x9qa" (Practice.init 0) practice_open)
  = inr View.NoSession.
Proof.
  destruct (no_session_before_first_result open_then_submit _ eq_refl eq_refl)
    as (_ & H & _).
  exact H.
Defined.

(** ** The meters *)

Lemma one_representable : F64.round53 F64.one = F64.one.
Proof. vm_compute. reflexivity. Qed.

Lemma div_mono a a' b : 0 <= a -> a <= a' -> 0 < b -> F64Div.div a b <= F64Div.div a' b.
Proof.
  intros Ha Hle Hb. unfold F64Div.div.
  assert (0 < F64.one) by reflexivity.
  apply F64DivFacts.round_quot_mono; nia.
Qed.

Lemma div_nonneg a b : 0 <= a -> 0 < b -> 0 <= F64Div.div a b.
Proof.
  intros Ha Hb. unfold F64Div.div. assert (0 < F64.one) by reflexivity.
  apply F64DivFacts.round_quot_nonneg; nia.
Qed.

Lemma div_self b : 0 < b -> F64Div.div b b = F64.one.
Proof.
  intros Hb. unfold F64Div.div. rewrite Z.mul_comm.
  apply F64DivFacts.round_quot_exact; [discriminate | exact Hb | exact one_representable].
Qed.

Lemma div_zero b : 0 < b -> F64Div.div 0 b = 0.
Proof.
  intros Hb. unfold F64Div.div.
  apply (F64DivFacts.round_quot_exact 0 b); [lia | exact Hb | reflexivity].
Qed.

(** The percentage before the clamp. *)
Lemma percent_mono a a' b :
  0 <= a -> a <= a' -> 0 < b ->
  F64.round (F64.mul_int (F64Div.div a b) 100)
  <= F64.round (F64.mul_int (F64Div.div a' b) 100).
Proof.
  intros Ha Hle Hb. apply round_mono. unfold F64.mul_int.
  apply F64Facts.round53_mono. pose proof (div_mono a a' b Ha Hle Hb). lia.
Qed.

(** The width of a meter's bar: for a finite [value >= 0] and a
    [max > 0] it is a whole percentage from 0 to 100, it is 0 for the
    value 0 and 100 for every value from [max] on, and it never decreases
    when the value grows. *)
Theorem meter_pct_clamped_and_monotone (value value' max : Z) :
  0 <= value -> value <= value' -> 0 < max ->
  exists p p',
    Meter_pct value max = Some p /\ Meter_pct value' max = Some p' /\
    0 <= p <= p' /\ p' <= 100 /\
    (value = 0 -> p = 0) /\
    (max <= value -> p = 100).
Proof.
  intros Hv Hle Hm. unfold Meter_pct.
  destruct (Z.eqb_spec max 0) as [E | _]; [lia |].
  eexists _, _. split; [reflexivity |]. split; [reflexivity |].
  pose proof (percent_mono value value' max Hv Hle Hm) as Hmono.
  split; [lia |]. split; [lia |]. split.
  - intros ->. rewrite (div_zero max Hm). vm_compute. reflexivity.
  - intros Hge.
    pose proof (percent_mono max value max ltac:(lia) Hge Hm) as H.
    rewrite (div_self max Hm) in H.
    replace (F64.round (F64.mul_int F64.one 100)) with 100 in H
      by (vm_compute; reflexivity).
    lia.
Qed.

Lemma meter_pct_clamped_and_monotone_witness :
  exists p p',
    Meter_pct (F64.of_int 24) (F64.of_int 40) = Some p /\
    Meter_pct (F64.of_int 33) (F64.of_int 40) = Some p' /\
    0 <= p <= p' /\ p' <= 100.
Proof.
  destruct (meter_pct_clamped_and_monotone (F64.of_int 24) (F64.of_int 33) (F64.of_int 40))
    as (p & p' & H1 & H2 & H3 & H4 & _); try (vm_compute; congruence).
  exists p, p'. repeat split; try assumption; lia.
Defined.

Lemma in_range_enumerated (P : Z -> bool) (n : nat) :
  forallb P (map Z.of_nat (seq 0 n)) = true ->
  forall v, 0 <= v < Z.of_nat n -> P v = true.
Proof.
  intros Hall v Hv. rewrite forallb_forall in Hall. apply Hall.
  apply in_map_iff. exists (Z.to_nat v). split; [lia |].
  apply in_seq. lia.
Qed.

(** The bars for whole scores.  Out of 20 the bar is exactly 5 percent
    per point.  Out of 40 it is 2.5 percent per point rounded half up,
    except for the score 23: 23/40*100 is 57.49999999999999 in binary64,
    so the bar shows 57 percent and not 58. *)
Theorem meter_pct_of_whole_scores (v : Z) :
  (0 <= v <= 40 ->
   Meter_pct (F64.of_int v) (F64.of_int 40)
   = Some (if v =? 23 then 57 else (5 * v + 1) / 2)) /\
  (0 <= v <= 20 -> Meter_pct (F64.of_int v) (F64.of_int 20) = Some (5 * v)).
Proof.
  split; intros Hv.
  - pose proof (in_range_enumerated
      (fun v => match Meter_pct (F64.of_int v) (F64.of_int 40) with
                | Some p => p =? (if v =? 23 then 57 else (5 * v + 1) / 2)
                | None => false
                end) 41 ltac:(vm_compute; reflexivity) v ltac:(lia)) as H.
    cbv beta in H.
    destruct (Meter_pct (F64.of_int v) (F64.of_int 40)) as [p |]; [| discriminate H].
    apply Z.eqb_eq in H. rewrite H. reflexivity.
  - pose proof (in_range_enumerated
      (fun v => match Meter_pct (F64.of_int v) (F64.of_int 20) with
                | Some p => p =? 5 * v
                | None => false
                end) 21 ltac:(vm_compute; reflexivity) v ltac:(lia)) as H.
    cbv beta in H.
    destruct (Meter_pct (F64.of_int v) (F64.of_int 20)) as [p |]; [| discriminate H].
    apply Z.eqb_eq in H. rewrite H. reflexivity.
Qed.

Lemma meter_pct_of_whole_scores_witness :
  Meter_pct (F64.of_int 23) (F64.of_int 40) = Some 57 /\
  Meter_pct (F64.of_int 33) (F64.of_int 40) = Some 83 /\
  Meter_pct (F64.of_int 19) (F64.of_int 20) = Some 95.
Proof.
  split; [| split].
  - exact (proj1 (meter_pct_of_whole_scores 23) ltac:(lia)).
  - exact (proj1 (meter_pct_of_whole_scores 33) ltac:(lia)).
  - exact (proj2 (meter_pct_of_whole_scores 19) ltac:(lia)).
Defined.

(** The model's division computes what the Standard Library's [SFdiv]
    computes, on quotients of the kind the page forms (scores over 40 and
    over 20, seconds over 60) and on some others, subnormal results and
    ties included. *)
Example agrees_with_SFdiv_on_samples :
  forallb (fun v => agrees_with_SFdiv (F64.of_int v) (F64.of_int 40))
          [0; 1; 3; 7; 11; 13; 19; 22; 23; 24; 29; 31; 33; 37; 39; 40] = true
  /\ forallb (fun v => agrees_with_SFdiv (F64.of_int v) (F64.of_int 20))
             [0; 1; 3; 7; 11; 12; 13; 19; 20] = true
  /\ forallb (fun v => agrees_with_SFdiv (F64.of_int v) (F64.of_int 60))
             [0; 1; 59; 60; 61; 119; 425; 3599; 3600] = true
  /\ forallb (fun ab => agrees_with_SFdiv ab.1 ab.2)
             [(1, F64.of_int 3); (5, F64.of_int 2); (7, F64.of_int 2);
              (F64.third, F64.pred_one); (F64.pred_one, F64.third);
              (2 ^ 54 + 4, 8); (2 ^ 54 + 12, 8)] = true.
Proof.
  split; [vm_compute; reflexivity |].
  split; [vm_compute; reflexivity |].
  split; vm_compute; reflexivity.
Qed.

(** 23/40*100 in the Standard Library's model: just below 57.5. *)
Example percent_of_23_over_40 :
  SFmul 53 1024
    (SFdiv 53 1024 (F64.to_spec_float (F64.of_int 23)) (F64.to_spec_float (F64.of_int 40)))
    (F64.to_spec_float (F64.of_int 100))
  = F64.to_spec_float (F64.mul_int (F64Div.div (F64.of_int 23) (F64.of_int 40)) 100)
  /\ 2 * F64.mul_int (F64Div.div (F64.of_int 23) (F64.of_int 40)) 100 < F64.of_int 115.
Proof. split; vm_compute; reflexivity. Qed.

(** ** The clock *)

Lemma one_is_64U : F64.one = 64 * 2 ^ 1068.
Proof. reflexivity. Qed.

(** [Math.floor(seconds/60)] is the whole number of minutes. *)
Lemma clock_mins_exact s : 0 <= s < 2 ^ 52 -> clock_mins s = s / 60.
Proof.
  intros Hs. unfold clock_mins, F64.floor, F64Div.div, F64.of_int.
  set (k := s / 60).
  assert (Hk : 60 * k <= s < 60 * k + 60).
  { pose proof (Z.div_mod s 60 ltac:(lia)). pose proof (Z.mod_pos_bound s 60 ltac:(lia)).
    subst k. lia. }
  assert (Hk0 : 0 <= k) by lia.
  assert (Hk52 : 64 * k + 63 < 2 ^ 53) by lia.
  pose proof one_is_64U as HO.
  set (O := F64.one) in *. set (U := 2 ^ 1068) in *.
  assert (HU : 0 < U) by (subst U; apply Z.pow_pos_nonneg; lia).
  assert (Hlow : k * O <= F64Div.round_quot (s * O * O) (60 * O)).
  { rewrite <- (F64DivFacts.round_quot_exact (k * O) (60 * O)) at 1.
    - apply F64DivFacts.round_quot_mono; nia.
    - nia.
    - nia.
    - unfold O, F64.one. apply F64DivFacts.round53_scaled; lia. }
  assert (Hhigh : F64Div.round_quot (s * O * O) (60 * O) <= (64 * k + 63) * U).
  { rewrite <- (F64DivFacts.round_quot_exact ((64 * k + 63) * U) (60 * O)).
    - apply F64DivFacts.round_quot_mono; nia.
    - nia.
    - nia.
    - unfold U. apply F64DivFacts.round53_scaled; lia. }
  symmetry. apply Z.div_unique with
    (r := F64Div.round_quot (s * O * O) (60 * O) - k * O).
  - left. nia.
  - lia.
Qed.

Lemma to_uint_nonnil n : N.to_uint n <> Decimal.Nil.
Proof.
  destruct n as [| p]; [discriminate | apply DecimalPos.Unsigned.to_uint_nonnil].
Qed.

Lemma number_of_decimal n : 0 <= n -> number_of_string (decimal n) = Some n.
Proof.
  intros Hn. unfold number_of_string, decimal.
  rewrite DecimalString.NilZero.usu by apply to_uint_nonnil.
  cbn [mbind option_bind]. rewrite DecimalN.Unsigned.of_to, Z2N.id by exact Hn.
  reflexivity.
Qed.

(** Decimal digits contain no colon. *)
Lemma split_colon_digits d rest :
  split_colon (DecimalString.NilEmpty.string_of_uint d +:+ String ":" rest)
  = Some (DecimalString.NilEmpty.string_of_uint d, rest).
Proof.
  induction d as [| d IH | d IH | d IH | d IH | d IH | d IH | d IH | d IH | d IH | d IH];
    [reflexivity | ..];
    simpl; simpl in IH; rewrite IH; reflexivity.
Qed.

Lemma split_colon_decimal n rest :
  split_colon (decimal n +:+ String ":" rest) = Some (decimal n, rest).
Proof.
  unfold decimal, DecimalString.NilZero.string_of_uint.
  destruct (N.to_uint (Z.to_N n)); try apply split_colon_digits. reflexivity.
Qed.

(** The seconds of a clock are two digits that read back. *)
Lemma two_digits x :
  0 <= x < 60 ->
  String.length (padStart 2 "0" (decimal x)) = 2%nat /\
  number_of_string (padStart 2 "0" (decimal x)) = Some x.
Proof.
  intros Hx.
  pose proof (in_range_enumerated
    (fun x => Nat.eqb (String.length (padStart 2 "0" (decimal x))) 2
              && match number_of_string (padStart 2 "0" (decimal x)) with
                 | Some y => y =? x
                 | None => false
                 end) 60 ltac:(vm_compute; reflexivity) x ltac:(lia)) as H.
  cbv beta in H. apply andb_true_iff in H as [Hlen Hnum].
  split; [apply Nat.eqb_eq, Hlen |].
  destruct (number_of_string (padStart 2 "0" (decimal x))) as [y |]; [| discriminate Hnum].
  apply Z.eqb_eq in Hnum. rewrite Hnum. reflexivity.
Qed.

(** What the clock shows, for a count the division leaves exact. *)
Lemma pretty_shape seconds :
  0 <= seconds < 2 ^ 52 ->
  pretty seconds
  = decimal (seconds / 60) +:+ ":" +:+ padStart 2 "0" (decimal (seconds mod 60)).
Proof.
  intros Hs. unfold pretty, clock_secs. rewrite (clock_mins_exact seconds Hs).
  reflexivity.
Qed.

(** Reading the clock back gives the count. *)
Lemma parse_clock_pretty seconds :
  0 <= seconds < 2 ^ 52 -> parse_clock (pretty seconds) = Some seconds.
Proof.
  intros Hs.
  assert (Hx : 0 <= seconds mod 60 < 60) by (apply Z.mod_pos_bound; lia).
  destruct (two_digits _ Hx) as [Hlen Hnum].
  assert (Hk : 0 <= seconds / 60) by (apply Z.div_pos; lia).
  rewrite (pretty_shape seconds Hs). unfold parse_clock.
  change (":" +:+ padStart 2 "0" (decimal (seconds mod 60)))
    with (String ":" (padStart 2 "0" (decimal (seconds mod 60)))).
  rewrite split_colon_decimal. cbn [mbind option_bind fst snd].
  rewrite (number_of_decimal _ Hk), Hnum. cbn [mbind option_bind].
  rewrite Hlen. cbn [Nat.eqb andb].
  destruct (Z.ltb_spec (seconds mod 60) 60) as [_ | Hge]; [| lia].
  f_equal. pose proof (Z.div_mod seconds 60 ltac:(lia)). lia.
Qed.

(** X18. The clock on the Practice screen: for every count below 2^52
    seconds it reads the exact whole number of minutes
    ([Math.floor(seconds/60)] is not disturbed by the binary64 division),
    a colon and exactly two digits of seconds, and the text determines
    the count: two counts that show the same clock are equal. *)
Theorem clock_round_trip (seconds : Z) :
  0 <= seconds < 2 ^ 52 ->
  clock_mins seconds = seconds / 60 /\
  pretty seconds
  = decimal (seconds / 60) +:+ ":" +:+ padStart 2 "0" (decimal (seconds mod 60)) /\
  String.length (padStart 2 "0" (decimal (seconds mod 60))) = 2%nat /\
  (forall other,
     0 <= other < 2 ^ 52 -> pretty other = pretty seconds -> other = seconds).
Proof.
  intros Hs.
  assert (Hx : 0 <= seconds mod 60 < 60) by (apply Z.mod_pos_bound; lia).
  split; [exact (clock_mins_exact seconds Hs) |].
  split; [exact (pretty_shape seconds Hs) |].
  split; [exact (proj1 (two_digits _ Hx)) |].
  intros other Ho E.
  pose proof (parse_clock_pretty other Ho) as P1.
  pose proof (parse_clock_pretty seconds Hs) as P2.
  rewrite E, P2 in P1. congruence.
Qed.

Lemma clock_round_trip_witness :
  clock_mins 425 = 7 /\ pretty 425 = "7:05" /\
  (forall other, 0 <= other < 2 ^ 52 -> pretty other = "7:05" -> other = 425).
Proof.
  destruct (clock_round_trip 425 ltac:(lia)) as (Hm & Hp & _ & Hinj).
  assert (E : pretty 425 = "7:05") by (rewrite Hp; vm_compute; reflexivity).
  split; [exact Hm |]. split; [exact E |].
  intros other Ho Eo. apply Hinj; [exact Ho | rewrite E; exact Eo].
Defined.
